(** * TimeSync front end: fingerprint enrollment and verification

    A shallow embedding of the fingerprint workflow of the TimeSync front end:

    - [FingerprintEnrollmentDialog.tsx]: the three-capture enrollment dialog
      ([checkScanner], [captureFingerprint], [saveFingerprint] and the
      callback of the timer it arms, [handleRetry], [handleClose], the reset
      that runs when the dialog opens, and the part of the render that
      decides which buttons are on screen);
    - [TimeStationKiosk.tsx]: the kiosk's [captureFingerprint],
      [verifyFingerprint], [handleFingerprintScan] and
      [handleLeaveFingerPrintVerification];
    - [fingerprintService.ts]: [checkConnection] and [verify];
    - [fingerprintApi.ts]: [FingerprintApi.checkHealth].

    Around these, further down: [capture] and [enroll] of
    [fingerprintService.ts]; [capture], [enroll], [verify], [addTemplate],
    [enrollWithCaptures], [clockWithVerification] and
    [loadTemplatesFromBackend] of [fingerprintApi.ts]; and the rest of the
    kiosk page ([checkScannerConnection], [lookupEmployee],
    [handleLeaveFormSubmit], [handleAdminLogin], [resetAndClose] and the
    render's choice of what is on screen, as the events a visitor can
    cause).

    The handlers are [async] functions over React state that talk to two HTTP
    services.  They are embedded in a small monad [M] that threads the
    component state and the log of effects (requests sent, timers armed) and
    whose outcomes are: returned, threw (a rejected promise), or still pending
    (an [await] on a request that never settles).  What the services answer,
    and after how many milliseconds, is an argument of each handler.

    A handler runs from its click to the point where it settles without
    another click in between: while it is in flight both components show a
    spinner in place of their buttons.  Not modelled: [console.log], the
    ticks of the countdown, the cosmetic pauses of 300 and 500 ms, and the
    timestamp in the attendance request. *)

From Stdlib Require Import List String Ascii Bool ZArith NArith Lia DecimalString.
From Stdlib Require Import Floats.
Import ListNotations.
Local Open Scope string_scope.

Set Implicit Arguments.

(* ------------------------------------------------------------------------- *)
(** ** JavaScript values the handlers look at *)

Module JS.

(** An [Error] object: the handlers read [e.name] and [e.message] only. *)
Record error := { name : string; message : string }.

(** [new Error(msg)] *)
Definition Error (msg : string) : error := {| name := "Error"; message := msg |}.
(** what [fetch] rejects with when the request cannot be made *)
Definition TypeError (msg : string) : error := {| name := "TypeError"; message := msg |}.
(** what [response.json()] rejects with on a body that is not JSON *)
Definition SyntaxError (msg : string) : error := {| name := "SyntaxError"; message := msg |}.
(** what [fetch] rejects with when its [AbortController] aborts *)
Definition AbortError : error :=
  {| name := "AbortError"; message := "The operation was aborted." |}.
(** what [fetch] rejects with when its [AbortSignal.timeout] fires *)
Definition TimeoutError : error :=
  {| name := "TimeoutError"; message := "The operation timed out." |}.

(** Truthiness of a string: [""] is falsy. *)
Definition truthy_string (s : string) : bool :=
  match s with EmptyString => false | String _ _ => true end.

(** [x || dflt] for an optional string [x] ([None] is [undefined]). *)
Definition or_default (x : option string) (dflt : string) : string :=
  match x with
  | Some s => if truthy_string s then s else dflt
  | None => dflt
  end.

(** [!x] for an optional string. *)
Definition falsy (x : option string) : bool :=
  match x with Some s => negb (truthy_string s) | None => true end.

(** [s.includes(sub)] *)
Definition includes (s sub : string) : bool :=
  match String.index 0 sub s with Some _ => true | None => false end.

(** [`${n}`] for a natural number. *)
Definition show (n : nat) : string := NilEmpty.string_of_uint (Nat.to_uint n).

(** The values [verify] can produce: its expression is
    [data.matched === true || (data.score && data.score > 0)], which is a
    boolean, or the falsy [data.score] itself ([undefined], [0], [NaN]).
    Numbers are IEEE doubles. *)
Inductive value :=
| undefined
| boolean (b : bool)
| number (x : float).

Definition truthy (v : value) : bool :=
  match v with
  | undefined => false
  | boolean b => b
  | number x => negb (PrimFloat.eqb x 0%float) && PrimFloat.eqb x x
  end.

(** [a && b] and [a || b] return one of their operands. *)
Definition and (a b : value) : value := if truthy a then b else a.
Definition or (a b : value) : value := if truthy a then a else b.

(** [x > 0]; [undefined > 0] is [false]. *)
Definition gt0 (v : value) : value :=
  match v with
  | undefined => boolean false
  | boolean b => boolean b
  | number x => boolean (PrimFloat.ltb 0%float x)
  end.

(** An optional numeric field read off a parsed JSON object. *)
Definition of_number (x : option float) : value :=
  match x with Some f => number f | None => undefined end.

(** [v === true] *)
Definition is_true (v : value) : bool :=
  match v with boolean true => true | _ => false end.

End JS.

(* ------------------------------------------------------------------------- *)
(** ** The two services and what they answer *)

(** The employee record the components hold (the fields the handlers use). *)
Record Employee := {
  id : string;
  employeeId : string;
  firstName : string;
  fingerprintEnrolled : bool;
}.

Inductive clock_action := clock_in | clock_out.

(** The leave form of the kiosk. *)
Record leave_form := {
  leaveType : string;
  leaveStartDate : string;
  leaveEndDate : string;
  leaveReason : string;
}.

(** A request, by endpoint, with the body the handler sends.  A template is
    [option string]: [None] is a field that was [undefined] when the body was
    built. *)
Inductive request :=
| GET_health                                       (* device  GET  /health *)
| POST_capture                                     (* device  POST /capture *)
| POST_enroll (userId : string) (templates : list (option string))
                                                   (* device  POST /enroll *)
| POST_match (template1 template2 : option string) (* device  POST /match *)
| GET_fingerprint_template (id : string)
                               (* backend GET /employees/fingerprint-template/:id *)
| POST_fingerprint_enroll (id : string) (template : option string)
                          (fingerNo quality : Z)
                               (* backend POST /employees/fingerprint-enroll/:id *)
| POST_attendance_record (employeeId : string) (type : clock_action)
                         (verificationMethod : string)
                               (* backend POST /attendance/record *)
| POST_leaves (employeeId : string) (form : leave_form).
                               (* backend POST /leaves *)

(** Callbacks the components arm or call. *)
Inductive callback := onSuccess | onClose | resetAndClose.

Inductive effect :=
| Fetch (rq : request)                  (* a request was sent *)
| SetTimeout (cb : callback) (ms : N)   (* [setTimeout(cb, ms)] *)
| Call (cb : callback).                 (* [cb()] *)

(** The body of a response: JSON that parses to [d], or text that does not
    parse (then [response.json()] rejects with the given message). *)
Inductive body (A : Type) :=
| Json (d : A)
| NotJson (text : string) (why : string).
Arguments NotJson {A} text why.

Record response (A : Type) := { status : Z; payload : body A }.

(** [response.ok] *)
Definition ok {A} (r : response A) : bool :=
  (200 <=? status r)%Z && (status r <=? 299)%Z.

(** What happens to one request: it never settles, the network fails after
    [after] ms, or a response arrives after [after] ms. *)
Inductive reply (A : Type) :=
| Never
| Fails (after : N) (why : string)
| Responds (after : N) (r : response A).
Arguments Never {A}.
Arguments Fails {A} after why.

(** The JSON objects of the endpoints.  A boolean field is its truthiness; an
    optional field is [None] when absent.  The two fields of the health
    answer are kept as the values they are ([undefined] when absent): the
    enrollment dialog reads their truthiness, the service and the kiosk test
    them with [=== true]. *)
Module Health.
Record data := { device_opened : JS.value; mock_mode : JS.value }.
End Health.

Module Capture.
Record data := { success : bool; template : option string; error : option string }.
End Capture.

Module Enroll.
Record data := { success : bool; template : option string; error : option string }.
End Enroll.

Module Match.
Record data := {
  success : bool;
  matched : option bool;
  score : option float;
  error : option string;
}.
End Match.

Module Template.
Record data := { template : option string; error : option string }.
(** [{}], what [.json().catch(() => ({}))] falls back to *)
Definition empty : data := {| template := None; error := None |}.
End Template.

Module Saved.
(** the backend's answer to the template upload, and to a leave or
    attendance write: an optional [error] and an optional [message] *)
Record data := { error : option string; message : option string }.
Definition empty : data := {| error := None; message := None |}.
End Saved.

(* ------------------------------------------------------------------------- *)
(** ** The monad of an async handler *)

Inductive outcome (A : Type) :=
| Returned (a : A)
| Threw (e : JS.error)
| Pending.
Arguments Threw {A} e.
Arguments Pending {A}.

Record result (S A : Type) := { out : outcome A; state : S; log : list effect }.

Definition M (S A : Type) : Type := S -> list effect -> result S A.

Section Monad.
Context {S : Type}.

Definition ret {A} (a : A) : M S A :=
  fun s l => {| out := Returned a; state := s; log := l |}.

Definition bind {A B} (m : M S A) (k : A -> M S B) : M S B :=
  fun s l =>
    match m s l with
    | {| out := Returned a; state := s'; log := l' |} => k a s' l'
    | {| out := Threw e; state := s'; log := l' |} =>
        {| out := Threw e; state := s'; log := l' |}
    | {| out := Pending; state := s'; log := l' |} =>
        {| out := Pending; state := s'; log := l' |}
    end.

Definition throw {A} (e : JS.error) : M S A :=
  fun s l => {| out := Threw e; state := s; log := l |}.

Definition pending {A} : M S A :=
  fun s l => {| out := Pending; state := s; log := l |}.

Definition gets {A} (f : S -> A) : M S A :=
  fun s l => {| out := Returned (f s); state := s; log := l |}.

Definition modify (f : S -> S) : M S unit :=
  fun s l => {| out := Returned tt; state := f s; log := l |}.

Definition emit (e : effect) : M S unit :=
  fun s l => {| out := Returned tt; state := s; log := l ++ [e] |}.

(** [try { m } catch (e) { h e }] *)
Definition try_catch {A} (m : M S A) (h : JS.error -> M S A) : M S A :=
  fun s l =>
    match m s l with
    | {| out := Threw e; state := s'; log := l' |} => h e s' l'
    | r => r
    end.

(** [try { m } finally { f }]: [f] runs when [m] returned or threw, and the
    outcome of [m] stands unless [f] itself throws or hangs. *)
Definition try_finally {A} (m : M S A) (f : M S unit) : M S A :=
  fun s l =>
    match m s l with
    | {| out := Pending; state := s'; log := l' |} =>
        {| out := Pending; state := s'; log := l' |}
    | {| out := o; state := s'; log := l' |} =>
        match f s' l' with
        | {| out := Returned _; state := s''; log := l'' |} =>
            {| out := o; state := s''; log := l'' |}
        | {| out := Threw e; state := s''; log := l'' |} =>
            {| out := Threw e; state := s''; log := l'' |}
        | {| out := Pending; state := s''; log := l'' |} =>
            {| out := Pending; state := s''; log := l'' |}
        end
    end.

(** [p.catch(() => dflt)] *)
Definition catch_default {A} (m : M S A) (dflt : A) : M S A :=
  try_catch m (fun _ => ret dflt).

(** [await fetch(url, init)] with no abort signal: the wait has no end of
    its own. *)
Definition fetch {A} (rq : request) (r : reply A) : M S (response A) :=
  bind (emit (Fetch rq)) (fun _ =>
    match r with
    | Never => pending
    | Fails _ why => throw (JS.TypeError why)
    | Responds _ resp => ret resp
    end).

(** [await fetch(url, { ..., signal })] where the signal aborts [ms]
    milliseconds after the request was sent, rejecting with [aborted]. *)
Definition fetch_signal {A} (ms : N) (aborted : JS.error)
           (rq : request) (r : reply A) : M S (response A) :=
  bind (emit (Fetch rq)) (fun _ =>
    match r with
    | Never => throw aborted
    | Fails after why =>
        if (after <? ms)%N then throw (JS.TypeError why) else throw aborted
    | Responds after resp =>
        if (after <? ms)%N then ret resp else throw aborted
    end).

(** [m()] without [await]: the call's effects are taken at once and its
    outcome is dropped (a floating promise). *)
Definition spawn {A} (m : M S A) : M S unit :=
  fun s l =>
    match m s l with
    | {| out := _; state := s'; log := l' |} =>
        {| out := Returned tt; state := s'; log := l' |}
    end.

(** [await response.json()] *)
Definition json {A} (r : response A) : M S A :=
  match payload r with
  | Json d => ret d
  | NotJson _ why => throw (JS.SyntaxError why)
  end.

End Monad.

Declare Scope js_scope.
Delimit Scope js_scope with js.
Notation "x <- m ;; k" := (bind m (fun x => k))
  (at level 61, m at next level, right associativity) : js_scope.
Notation "m ;; k" := (bind m (fun _ => k))
  (at level 61, right associativity) : js_scope.
Local Open Scope js_scope.

(** Running a handler from a state with an empty log. *)
Definition run {S A} (m : M S A) (s : S) : result S A := m s [].

(** The requests of a log, in the order they were sent. *)
Fixpoint requests (l : list effect) : list request :=
  match l with
  | [] => []
  | Fetch rq :: l' => rq :: requests l'
  | SetTimeout _ _ :: l' => requests l'
  | Call _ :: l' => requests l'
  end.

(* ------------------------------------------------------------------------- *)
(** ** FingerprintEnrollmentDialog.tsx *)

Module Enrollment.

Definition FINGERPRINT_SERVICE_URL := "http://localhost:8080".
Definition API_BASE_URL := "http://localhost:5001/api".
(** 15 seconds timeout per capture *)
Definition CAPTURE_TIMEOUT : N := 15000.

Definition STEPS := ["Capture 1"; "Capture 2"; "Capture 3"; "Saving"].

(** The component's [useState] cells and its one [useRef]. *)
Record dialog := {
  activeStep : nat;
  capturing : bool;
  saving : bool;
  templates : list (option string);
  error : option string;
  success : bool;
  scannerConnected : bool;
  checkingScanner : bool;
  statusMessage : string;
  countdown : N;
  templatesRef : list (option string);   (* [templatesRef.current] *)
}.

(** The state of a freshly mounted component. *)
Definition mounted : dialog := {|
  activeStep := 0; capturing := false; saving := false; templates := [];
  error := None; success := false; scannerConnected := false;
  checkingScanner := true; statusMessage := ""; countdown := 0;
  templatesRef := [];
|}.

Definition setActiveStep (v : nat) : M dialog unit :=
  modify (fun s => {|
    activeStep := v; capturing := capturing s; saving := saving s;
    templates := templates s; error := error s; success := success s;
    scannerConnected := scannerConnected s; checkingScanner := checkingScanner s;
    statusMessage := statusMessage s; countdown := countdown s;
    templatesRef := templatesRef s |}).

Definition setCapturing (v : bool) : M dialog unit :=
  modify (fun s => {|
    activeStep := activeStep s; capturing := v; saving := saving s;
    templates := templates s; error := error s; success := success s;
    scannerConnected := scannerConnected s; checkingScanner := checkingScanner s;
    statusMessage := statusMessage s; countdown := countdown s;
    templatesRef := templatesRef s |}).

Definition setSaving (v : bool) : M dialog unit :=
  modify (fun s => {|
    activeStep := activeStep s; capturing := capturing s; saving := v;
    templates := templates s; error := error s; success := success s;
    scannerConnected := scannerConnected s; checkingScanner := checkingScanner s;
    statusMessage := statusMessage s; countdown := countdown s;
    templatesRef := templatesRef s |}).

Definition setTemplates (v : list (option string)) : M dialog unit :=
  modify (fun s => {|
    activeStep := activeStep s; capturing := capturing s; saving := saving s;
    templates := v; error := error s; success := success s;
    scannerConnected := scannerConnected s; checkingScanner := checkingScanner s;
    statusMessage := statusMessage s; countdown := countdown s;
    templatesRef := templatesRef s |}).

Definition setError (v : option string) : M dialog unit :=
  modify (fun s => {|
    activeStep := activeStep s; capturing := capturing s; saving := saving s;
    templates := templates s; error := v; success := success s;
    scannerConnected := scannerConnected s; checkingScanner := checkingScanner s;
    statusMessage := statusMessage s; countdown := countdown s;
    templatesRef := templatesRef s |}).

Definition setSuccess (v : bool) : M dialog unit :=
  modify (fun s => {|
    activeStep := activeStep s; capturing := capturing s; saving := saving s;
    templates := templates s; error := error s; success := v;
    scannerConnected := scannerConnected s; checkingScanner := checkingScanner s;
    statusMessage := statusMessage s; countdown := countdown s;
    templatesRef := templatesRef s |}).

Definition setScannerConnected (v : bool) : M dialog unit :=
  modify (fun s => {|
    activeStep := activeStep s; capturing := capturing s; saving := saving s;
    templates := templates s; error := error s; success := success s;
    scannerConnected := v; checkingScanner := checkingScanner s;
    statusMessage := statusMessage s; countdown := countdown s;
    templatesRef := templatesRef s |}).

Definition setCheckingScanner (v : bool) : M dialog unit :=
  modify (fun s => {|
    activeStep := activeStep s; capturing := capturing s; saving := saving s;
    templates := templates s; error := error s; success := success s;
    scannerConnected := scannerConnected s; checkingScanner := v;
    statusMessage := statusMessage s; countdown := countdown s;
    templatesRef := templatesRef s |}).

Definition setStatusMessage (v : string) : M dialog unit :=
  modify (fun s => {|
    activeStep := activeStep s; capturing := capturing s; saving := saving s;
    templates := templates s; error := error s; success := success s;
    scannerConnected := scannerConnected s; checkingScanner := checkingScanner s;
    statusMessage := v; countdown := countdown s;
    templatesRef := templatesRef s |}).

Definition setCountdown (v : N) : M dialog unit :=
  modify (fun s => {|
    activeStep := activeStep s; capturing := capturing s; saving := saving s;
    templates := templates s; error := error s; success := success s;
    scannerConnected := scannerConnected s; checkingScanner := checkingScanner s;
    statusMessage := statusMessage s; countdown := v;
    templatesRef := templatesRef s |}).

(** [templatesRef.current = v] *)
Definition setTemplatesRef (v : list (option string)) : M dialog unit :=
  modify (fun s => {|
    activeStep := activeStep s; capturing := capturing s; saving := saving s;
    templates := templates s; error := error s; success := success s;
    scannerConnected := scannerConnected s; checkingScanner := checkingScanner s;
    statusMessage := statusMessage s; countdown := countdown s;
    templatesRef := v |}).

(** What the device and the backend answer during one click: at most one
    capture, one merge and one upload are requested. *)
Record services := {
  capture : reply Capture.data;
  enroll : reply Enroll.data;
  save : reply Saved.data;
}.

(** [checkScanner]: the health request is given 3 seconds.  The cell
    [scannerConnected] is read for its truthiness only, which is what is
    kept of the value [device_opened || mock_mode] stored in it. *)
Definition checkScanner (health : reply Health.data) : M dialog unit :=
  setCheckingScanner true ;;
  try_finally
    (try_catch
       (response <- fetch_signal 3000 JS.TimeoutError GET_health health ;;
        if ok response then
          data <- json response ;;
          let connected := JS.or (Health.device_opened data) (Health.mock_mode data) in
          setScannerConnected (JS.truthy connected)
        else
          setScannerConnected false)
       (fun e => setScannerConnected false))
    (setCheckingScanner false).

(** The effect on [open]: "Reset state when dialog opens". *)
Definition openEffect (open : bool) (health : reply Health.data) : M dialog unit :=
  if open then
    spawn (checkScanner health) ;;
    setActiveStep 0 ;;
    setTemplates [] ;;
    setTemplatesRef [] ;;
    setError None ;;
    setSuccess false ;;
    setSaving false ;;
    setStatusMessage "" ;;
    setCountdown 0
  else ret tt.

(** The effect on [templates]: "Update ref when templates change". *)
Definition syncRefEffect : M dialog unit :=
  t <- gets templates ;;
  setTemplatesRef t.

(** [saveFingerprint]: merge in the device service, then store in the
    backend. *)
Definition saveFingerprint (employee : option Employee)
           (capturedTemplates : list (option string)) (sv : services)
  : M dialog unit :=
  match employee with
  | None => ret tt
  | Some employee =>
      setSaving true ;;
      setError None ;;
      try_finally
        (try_catch
           ((* Step 1: merge templates *)
            setStatusMessage "Merging fingerprint templates..." ;;
            enrollResponse <-
              fetch (POST_enroll (employeeId employee) capturedTemplates) (enroll sv) ;;
            enrollData <- json enrollResponse ;;
            if negb (Enroll.success enrollData) then
              throw (JS.Error (JS.or_default (Enroll.error enrollData)
                                 "Failed to merge fingerprint templates"))
            else
              (* Step 2: save the merged template *)
              setStatusMessage "Saving to database..." ;;
              saveResponse <-
                fetch (POST_fingerprint_enroll (id employee)
                         (Enroll.template enrollData) 0 100) (save sv) ;;
              if negb (ok saveResponse) then
                let errorMessage := "Failed to save fingerprint to database" in
                throw (JS.Error
                  match payload saveResponse with
                  | Json errorJson => JS.or_default (Saved.error errorJson) errorMessage
                  | NotJson errorText _ =>
                      if JS.includes errorText "<!DOCTYPE" || JS.includes errorText "<html"
                      then "Backend server not responding correctly. Check backend logs."
                      else errorMessage
                  end)
              else
                saveResult <- json saveResponse ;;
                setSuccess true ;;
                setStatusMessage "Fingerprint enrolled successfully!" ;;
                (* Auto close after success *)
                emit (SetTimeout onSuccess 2000))
           (fun e =>
              setError (Some (JS.or_default (Some (JS.message e)) "Failed to save fingerprint")) ;;
              setStatusMessage "" ;;
              (* Reset to allow retry *)
              setActiveStep 2 ;;
              setSaving false))
        (setSaving false)
  end.

(** [captureFingerprint]: one capture, aborted client-side after
    [CAPTURE_TIMEOUT]; the third capture goes on to [saveFingerprint].
    The once-a-second countdown ticks while the request is in flight are
    not modelled: the handler writes [0] as soon as the request settles. *)
Definition captureFingerprint (employee : option Employee) (sv : services)
  : M dialog unit :=
  setCapturing true ;;
  setError None ;;
  current <- gets templatesRef ;;
  let captureNumber := List.length current + 1 in
  setStatusMessage ("Capture " ++ JS.show captureNumber ++ ": Place finger on scanner...") ;;
  setCountdown (CAPTURE_TIMEOUT / 1000) ;;
  try_finally
    (try_catch
       (response <- fetch_signal CAPTURE_TIMEOUT JS.AbortError POST_capture (capture sv) ;;
        setCountdown 0 ;;
        data <- json response ;;
        if negb (Capture.success data) then
          throw (JS.Error (JS.or_default (Capture.error data)
                             "Capture failed. Place finger firmly on scanner."))
        else
          (* Add template to array using ref for current value *)
          current <- gets templatesRef ;;
          let newTemplates := (current ++ [Capture.template data])%list in
          setTemplates newTemplates ;;
          setTemplatesRef newTemplates ;;
          setStatusMessage ("✓ Capture " ++ JS.show (List.length newTemplates) ++ " complete!") ;;
          if (List.length newTemplates <? 3)%nat then
            (* Move to next capture step *)
            setActiveStep (List.length newTemplates) ;;
            setStatusMessage "Lift finger, then place again for next capture"
          else
            (* All 3 captures done, proceed to save *)
            setActiveStep 3 ;;
            setStatusMessage "All captures complete. Saving..." ;;
            saveFingerprint employee newTemplates sv)
       (fun e =>
          setCountdown 0 ;;
          (if JS.name e =? "AbortError" then
             setError (Some "Capture timeout - no finger detected. Click to try again.")
           else
             setError (Some (JS.or_default (Some (JS.message e))
                               "Failed to capture fingerprint"))) ;;
          setStatusMessage ""))
    (setCapturing false).

(** [handleRetry], the "Start Over" button. *)
Definition handleRetry : M dialog unit :=
  setTemplates [] ;;
  setTemplatesRef [] ;;
  setActiveStep 0 ;;
  setError None ;;
  setSuccess false ;;
  setStatusMessage "" ;;
  setCountdown 0.

(** [handleClose], the "Cancel"/"Close" button. *)
Definition handleClose : M dialog unit :=
  c <- gets capturing ;;
  s <- gets saving ;;
  if negb c && negb s then emit (Call onClose) else ret tt.

(** The callback of the timer that [saveFingerprint] arms, "Auto close
    after success": [() => { onSuccess(); }].  The component keeps no handle
    on that timer and clears it nowhere, so the callback runs two seconds
    after the upload was accepted, whatever the dialog went through since. *)
Definition autoCloseTimer : M dialog unit := emit (Call onSuccess).

(** The callbacks of the timers armed so far, in order. *)
Fixpoint timers (l : list effect) : list callback :=
  match l with
  | [] => []
  | SetTimeout cb _ :: l' => cb :: timers l'
  | _ :: l' => timers l'
  end.

(** *** What is on screen *)

(** The branch of the render that is shown, for a dialog that is open. *)
Inductive view :=
| NoEmployee          (* [if (!employee) return null] *)
| CheckingView        (* "Checking scanner connection..." *)
| NotConnectedView    (* "Scanner not connected!", "Check Again" *)
| SuccessView         (* "Enrollment Successful!" *)
| ErrorView           (* "Capture Failed"/"Save Failed", "Start Over" *)
| BusyView            (* the spinner while capturing or saving *)
| ReadyView.          (* the capture button *)

Definition render (employee : option Employee) (s : dialog) : view :=
  match employee with
  | None => NoEmployee
  | Some _ =>
      if checkingScanner s then CheckingView
      else if negb (scannerConnected s) then NotConnectedView
      else if success s then SuccessView
      else match error s with
           | Some e =>
               if JS.truthy_string e then ErrorView
               else if capturing s || saving s then BusyView else ReadyView
           | None => if capturing s || saving s then BusyView else ReadyView
           end
  end.

(** [activeStep < 3 && templates.length > 0]: whether the error view also
    shows "Retry Capture n". *)
Definition retryCaptureShown (s : dialog) : bool :=
  (activeStep s <? 3)%nat && (0 <? List.length (templates s))%nat.

(** What the user or the parent does to an open dialog. *)
Inductive event :=
| DialogOpens (health : reply Health.data)   (* [open] becomes true *)
| ClickCheckAgain (health : reply Health.data)
| ClickCapture (sv : services)               (* the round button, "Start Capture", "Capture n" *)
| ClickRetryCapture (sv : services)          (* "Retry Capture n" *)
| ClickStartOver.

(** One event: a click runs its handler when its button is on screen and
    does nothing otherwise; then the effect on [templates] runs. *)
Definition dispatch (employee : option Employee) (ev : event) : M dialog unit :=
  v <- gets (render employee) ;;
  shown <- gets retryCaptureShown ;;
  match ev, v with
  | DialogOpens health, _ => openEffect true health
  | ClickCheckAgain health, NotConnectedView => checkScanner health
  | ClickCapture sv, ReadyView => captureFingerprint employee sv
  | ClickRetryCapture sv, ErrorView =>
      if shown then captureFingerprint employee sv else ret tt
  | ClickStartOver, ErrorView => handleRetry
  | _, _ => ret tt
  end ;;
  syncRefEffect.

(** A session: events one after the other; an event is taken only once
    the handler of the one before has settled. *)
Fixpoint session (employee : option Employee) (evs : list event) : M dialog unit :=
  match evs with
  | [] => ret tt
  | ev :: evs' => dispatch employee ev ;; session employee evs'
  end.

(** What [checkScanner] concludes from the health request. *)
Definition connected (health : reply Health.data) : bool :=
  match health with
  | Responds after r =>
      (after <? 3000)%N && ok r &&
      match payload r with
      | Json data => JS.truthy (JS.or (Health.device_opened data) (Health.mock_mode data))
      | NotJson _ _ => false
      end
  | _ => false
  end.

(** The way back to a capture that the error view offers: "Retry Capture n"
    when it is shown, otherwise "Start Over" and the capture button. *)
Definition retry (s : dialog) (sv : services) : list event :=
  if retryCaptureShown s then [ClickRetryCapture sv]
  else [ClickStartOver; ClickCapture sv].

(** The way to a capture from where the dialog stands: the capture button in
    the ready view, and what [retry] gives in the error view. *)
Definition capture_click (employee : option Employee) (s : dialog) (sv : services)
  : list event :=
  match render employee s with
  | ErrorView => retry s sv
  | _ => [ClickCapture sv]
  end.

(** How one capture request ends for the dialog, in the words of the error
    taxonomy: no answer within [CAPTURE_TIMEOUT], a failure (the network, a
    body that is not JSON, or the device saying [success: false]), or a
    sample. *)
Inductive capture_end :=
| CaptureTimeout
| CaptureFailed
| Captured (t : option string).

Definition capture_end_of (r : reply Capture.data) : capture_end :=
  match r with
  | Never => CaptureTimeout
  | Fails after _ =>
      if (after <? CAPTURE_TIMEOUT)%N then CaptureFailed else CaptureTimeout
  | Responds after resp =>
      if (after <? CAPTURE_TIMEOUT)%N then
        match payload resp with
        | Json d =>
            if Capture.success d then Captured (Capture.template d) else CaptureFailed
        | NotJson _ _ => CaptureFailed
        end
      else CaptureTimeout
  end.

(** [AwaitingCapture(k)]: step [k] of 3 with the [k-1] earlier samples held,
    and the ref in step with the state. *)
Definition awaiting (k : nat) (s : dialog) : Prop :=
  activeStep s = k - 1 /\
  List.length (templates s) = k - 1 /\
  templatesRef s = templates s.

(** A sample list the merge endpoint accepts: three samples or more. *)
Definition enough (ts : list (option string)) : Prop := 3 <= List.length ts.

(** The template lists the merge endpoint was sent, in order. *)
Fixpoint merges (l : list effect) : list (list (option string)) :=
  match l with
  | [] => []
  | Fetch (POST_enroll _ ts) :: l' => ts :: merges l'
  | _ :: l' => merges l'
  end.

End Enrollment.

(* ------------------------------------------------------------------------- *)
(** ** fingerprintService.ts *)

Module FingerprintService.

(** The closure variable [_isConnected]. *)
Record service := { _isConnected : bool }.

Definition set_isConnected (v : bool) : M service unit :=
  modify (fun _ => {| _isConnected := v |}).

(** [checkConnection] *)
Definition checkConnection (health : reply Health.data) : M service bool :=
  try_catch
    (response <- fetch GET_health health ;;
     if ok response then
       data <- json response ;;
       set_isConnected (JS.is_true (Health.device_opened data)
                        || JS.is_true (Health.mock_mode data)) ;;
       gets _isConnected
     else
       set_isConnected false ;;
       ret false)
    (fun e =>
       set_isConnected false ;;
       ret false).

(** [verify]: 1:1 matching through the device's [/match]. *)
Definition verify (storedTemplate capturedTemplate : option string)
           (matching : reply Match.data) : M service JS.value :=
  try_catch
    (response <- fetch (POST_match storedTemplate capturedTemplate) matching ;;
     data <- json response ;;
     if negb (Match.success data) then
       ret (JS.boolean false)
     else
       (* Match is successful if matched is true OR score > 0 *)
       let score := JS.of_number (Match.score data) in
       let isMatch :=
         JS.or (JS.boolean match Match.matched data with Some true => true | _ => false end)
               (JS.and score (JS.gt0 score)) in
       ret isMatch)
    (fun e => ret (JS.boolean false)).

End FingerprintService.

(** The verdict on a device answer whose [success] is true, in the words of
    the comment in [verify]: matched is true OR score > 0. *)
Definition signalled (d : Match.data) : bool :=
  match Match.matched d with Some true => true | _ => false end
  || JS.truthy (JS.gt0 (JS.of_number (Match.score d))).

(* ------------------------------------------------------------------------- *)
(** ** fingerprintApi.ts *)

Module FingerprintApi.

(** The instance holds [baseUrl] only. *)
Record api := { baseUrl : string }.

(** [FingerprintApi.checkHealth] *)
Definition checkHealth (health : reply Health.data) : M api Health.data :=
  response <- fetch GET_health health ;;
  if negb (ok response) then
    throw (JS.Error "Fingerprint service not available")
  else
    json response.

End FingerprintApi.

(* ------------------------------------------------------------------------- *)
(** ** TimeStationKiosk.tsx *)

Module Kiosk.

Inductive scan_result := success | failed.
Inductive severity := sev_success | sev_error.

(** The [useState] cells the fingerprint handlers touch. *)
Record kiosk := {
  employee : option Employee;
  scanning : bool;
  scanResult : option scan_result;
  scanMessage : string;
  leaveSubmitting : bool;
  form : leave_form;
  snackbar : option (string * severity);
}.

Definition setScanning (v : bool) : M kiosk unit :=
  modify (fun s => {|
    employee := employee s; scanning := v; scanResult := scanResult s;
    scanMessage := scanMessage s; leaveSubmitting := leaveSubmitting s;
    form := form s; snackbar := snackbar s |}).

Definition setScanResult (v : option scan_result) : M kiosk unit :=
  modify (fun s => {|
    employee := employee s; scanning := scanning s; scanResult := v;
    scanMessage := scanMessage s; leaveSubmitting := leaveSubmitting s;
    form := form s; snackbar := snackbar s |}).

Definition setScanMessage (v : string) : M kiosk unit :=
  modify (fun s => {|
    employee := employee s; scanning := scanning s; scanResult := scanResult s;
    scanMessage := v; leaveSubmitting := leaveSubmitting s;
    form := form s; snackbar := snackbar s |}).

Definition setLeaveSubmitting (v : bool) : M kiosk unit :=
  modify (fun s => {|
    employee := employee s; scanning := scanning s; scanResult := scanResult s;
    scanMessage := scanMessage s; leaveSubmitting := v;
    form := form s; snackbar := snackbar s |}).

Definition showSnackbar (msg : string) (sev : severity) : M kiosk unit :=
  modify (fun s => {|
    employee := employee s; scanning := scanning s; scanResult := scanResult s;
    scanMessage := scanMessage s; leaveSubmitting := leaveSubmitting s;
    form := form s; snackbar := Some (msg, sev) |}).

(** What the device and the backend answer during one attempt, and the
    wall clock as [formatTime(new Date())] prints it. *)
Record services := {
  capture : reply Capture.data;
  template : reply Template.data;
  matching : reply Match.data;
  commit : reply Saved.data;
  now : string;
}.

(** [captureFingerprint]: no abort signal on this request. *)
Definition captureFingerprint (capture : reply Capture.data)
  : M kiosk (option string) :=
  try_catch
    (response <- fetch POST_capture capture ;;
     data <- json response ;;
     if negb (Capture.success data) then
       throw (JS.Error (JS.or_default (Capture.error data) "Failed to capture fingerprint"))
     else
       ret (Capture.template data))
    (fun e =>
       throw (JS.Error (JS.or_default (Some (JS.message e))
                          "Capture failed. Place finger firmly on scanner."))).

(** [verifyFingerprint] *)
Definition verifyFingerprint (storedTemplate capturedTemplate : option string)
           (matching : reply Match.data) : M kiosk JS.value :=
  try_catch
    (response <- fetch (POST_match storedTemplate capturedTemplate) matching ;;
     data <- json response ;;
     if negb (Match.success data) then
       ret (JS.boolean false)
     else
       let score := JS.of_number (Match.score data) in
       ret (JS.or (JS.boolean match Match.matched data with Some true => true | _ => false end)
                  (JS.and score (JS.gt0 score))))
    (fun e => ret (JS.boolean false)).

(** What [verifyFingerprint] returns, as a function of the device's answer:
    it catches every failure as [false] and hangs only when the device never
    answers ([verifyFingerprint_verdict] below). *)
Definition verdict (m : reply Match.data) : outcome JS.value :=
  match m with
  | Never => Pending
  | Fails _ _ => Returned (JS.boolean false)
  | Responds _ r =>
      match payload r with
      | Json d =>
          if Match.success d then
            Returned
              (JS.or (JS.boolean match Match.matched d with Some true => true | _ => false end)
                     (JS.and (JS.of_number (Match.score d))
                             (JS.gt0 (JS.of_number (Match.score d)))))
          else Returned (JS.boolean false)
      | NotJson _ _ => Returned (JS.boolean false)
      end
  end.

Definition mismatch_message := "Fingerprint does not match. Please try again.".
Definition not_registered_message :=
  "No fingerprint registered. Please enroll your fingerprint first.".

(** [handleFingerprintScan], the clock in/out handler. *)
Definition handleFingerprintScan (action : clock_action) (sv : services)
  : M kiosk unit :=
  emp <- gets employee ;;
  match emp with
  | None => ret tt
  | Some employee =>
      setScanning true ;;
      setScanResult None ;;
      setScanMessage "Place your finger on the scanner..." ;;
      try_finally
        (try_catch
           ((* Step 1: Capture fingerprint *)
            capturedTemplate <- captureFingerprint (capture sv) ;;
            (if JS.falsy capturedTemplate then
               throw (JS.Error "Failed to capture fingerprint. Please try again.")
             else ret tt) ;;
            setScanMessage "Verifying fingerprint..." ;;
            (* Step 2: Get stored template from backend *)
            templateResponse <-
              fetch (GET_fingerprint_template (id employee)) (template sv) ;;
            (if negb (ok templateResponse) then
               errorData <- catch_default (json templateResponse) Template.empty ;;
               if (status templateResponse =? 404)%Z then
                 throw (JS.Error not_registered_message)
               else
                 throw (JS.Error (JS.or_default (Template.error errorData)
                                    "Failed to fetch fingerprint data"))
             else ret tt) ;;
            templateData <- json templateResponse ;;
            let storedTemplate := Template.template templateData in
            (if JS.falsy storedTemplate then
               throw (JS.Error "No fingerprint template found. Please enroll first.")
             else ret tt) ;;
            (* Step 3: Verify fingerprint match *)
            isMatch <- verifyFingerprint storedTemplate capturedTemplate (matching sv) ;;
            (if negb (JS.truthy isMatch) then
               throw (JS.Error mismatch_message)
             else ret tt) ;;
            setScanMessage "Recording attendance..." ;;
            (* Step 4: Record attendance *)
            attendanceResponse <-
              fetch (POST_attendance_record (employeeId employee) action "FINGERPRINT")
                    (commit sv) ;;
            (if negb (ok attendanceResponse) then
               errorData <- catch_default (json attendanceResponse) Saved.empty ;;
               throw (JS.Error (JS.or_default (Saved.error errorData)
                                  "Failed to record attendance"))
             else ret tt) ;;
            attendanceResult <- json attendanceResponse ;;
            setScanResult (Some success) ;;
            setScanMessage
              (JS.or_default (Saved.message attendanceResult)
                 match action with
                 | clock_in =>
                     "Welcome, " ++ firstName employee ++ "! Clocked in at " ++ now sv
                 | clock_out =>
                     "Goodbye, " ++ firstName employee ++ "! Clocked out at " ++ now sv
                 end) ;;
            (* Auto close after success *)
            emit (SetTimeout resetAndClose 3000))
           (fun e =>
              setScanResult (Some failed) ;;
              setScanMessage (JS.or_default (Some (JS.message e))
                                "An error occurred. Please try again.")))
        (setScanning false)
  end.

Definition leave_mismatch_message := "Fingerprint verification failed".

(** [handleLeaveFingerPrintVerification], the leave authorization. *)
Definition handleLeaveFingerPrintVerification (sv : services) : M kiosk unit :=
  emp <- gets employee ;;
  match emp with
  | None => showSnackbar "Employee not found" sev_error
  | Some employee =>
      setLeaveSubmitting true ;;
      try_finally
        (try_catch
           ((* Verify identity with fingerprint *)
            capturedTemplate <- captureFingerprint (capture sv) ;;
            (if JS.falsy capturedTemplate then
               throw (JS.Error "Failed to capture fingerprint")
             else ret tt) ;;
            setScanMessage "Verifying identity..." ;;
            templateResponse <-
              fetch (GET_fingerprint_template (id employee)) (template sv) ;;
            (if negb (ok templateResponse) then
               throw (JS.Error "No fingerprint registered")
             else ret tt) ;;
            templateData <- json templateResponse ;;
            let storedTemplate := Template.template templateData in
            isMatch <- verifyFingerprint storedTemplate capturedTemplate (matching sv) ;;
            (if negb (JS.truthy isMatch) then
               throw (JS.Error leave_mismatch_message)
             else ret tt) ;;
            setScanMessage "Submitting leave request..." ;;
            (* Submit leave request *)
            f <- gets form ;;
            response <- fetch (POST_leaves (id employee) f) (commit sv) ;;
            (if negb (ok response) then
               error <- catch_default (json response) Saved.empty ;;
               throw (JS.Error (JS.or_default (Saved.error error)
                                  "Failed to submit leave request"))
             else ret tt) ;;
            setScanResult (Some success) ;;
            setScanMessage "Leave request submitted successfully!" ;;
            showSnackbar "Leave request submitted with fingerprint authorization"
                         sev_success ;;
            emit (SetTimeout resetAndClose 3000))
           (fun e =>
              setScanResult (Some failed) ;;
              setScanMessage (JS.message e) ;;
              showSnackbar (JS.message e) sev_error))
        (setLeaveSubmitting false ;;
         setScanning false)
  end.

(** The "Scan to Clock In/Out" button: the dialog shows the lookup form
    without an employee and the result screen once [scanResult] is set; the
    button gives way to the spinner while [scanning], and it is [disabled]
    while the looked-up employee has [fingerprintEnrolled] false. *)
Definition scanButtonEnabled (s : kiosk) : bool :=
  match employee s, scanResult s with
  | Some e, None => negb (scanning s) && fingerprintEnrolled e
  | _, _ => false
  end.

Definition clickScan (action : clock_action) (sv : services) : M kiosk unit :=
  enabled <- gets scanButtonEnabled ;;
  if enabled then handleFingerprintScan action sv else ret tt.

(** One verification-and-act attempt: clock in, clock out, or leave. *)
Inductive attempt :=
| Clock (action : clock_action)
| AuthorizeLeave.

Definition perform (a : attempt) (sv : services) : M kiosk unit :=
  match a with
  | Clock action => handleFingerprintScan action sv
  | AuthorizeLeave => handleLeaveFingerPrintVerification sv
  end.

(** The message an attempt shows when the fingerprints do not match, and
    when the stored template is reported missing. *)
Definition mismatch_of (a : attempt) : string :=
  match a with
  | Clock _ => mismatch_message
  | AuthorizeLeave => leave_mismatch_message
  end.

Definition not_registered_of (a : attempt) : string :=
  match a with
  | Clock _ => not_registered_message
  | AuthorizeLeave => "No fingerprint registered"
  end.

(** The same services with another answer to the match request. *)
Definition with_matching (sv : services) (m : reply Match.data) : services :=
  {| capture := capture sv; template := template sv; matching := m;
     commit := commit sv; now := now sv |}.

(** The capture step delivers the sample [t]: [captureFingerprint] returns
    it. *)
Definition delivers (c : reply Capture.data) (t : string) : Prop :=
  forall s l, out (captureFingerprint c s l) = Returned (Some t).

(** The match step yields a non-match: [verifyFingerprint] returns a falsy
    value. *)
Definition non_match (m : reply Match.data) : Prop :=
  forall stored captured s l,
  exists v,
    out (verifyFingerprint stored captured m s l) = Returned v /\
    JS.truthy v = false.

(** The match request fails for a reason that is not the fingerprint: the
    network, a body that is not JSON, or the device saying
    [success: false]. *)
Definition infrastructure_failure (m : reply Match.data) : bool :=
  match m with
  | Never => false
  | Fails _ _ => true
  | Responds _ r =>
      match payload r with
      | Json d => negb (Match.success d)
      | NotJson _ _ => true
      end
  end.

(** The device comparing two fingerprints and finding them different:
    [{success: true, matched: false, score: 0}]. *)
Definition identity_mismatch : reply Match.data :=
  Responds 0 {| status := 200;
                payload := Json {| Match.success := true; Match.matched := Some false;
                                   Match.score := Some 0%float; Match.error := None |} |}.

(** The write requests of a log: attendance records and leave submissions. *)
Fixpoint commits (l : list effect) : list request :=
  match l with
  | [] => []
  | Fetch (POST_attendance_record e a m) :: l' =>
      POST_attendance_record e a m :: commits l'
  | Fetch (POST_leaves e f) :: l' => POST_leaves e f :: commits l'
  | _ :: l' => commits l'
  end.

(** The capture requests of a log. *)
Fixpoint captures (l : list effect) : nat :=
  match l with
  | [] => 0
  | Fetch POST_capture :: l' => S (captures l')
  | _ :: l' => captures l'
  end.

End Kiosk.



(* ------------------------------------------------------------------------- *)
(** ** Replies used in examples *)

Module Scenario.

Definition employee_1001 : Employee :=
  {| id := "emp-1"; employeeId := "1001"; firstName := "Ada";
     fingerprintEnrolled := true |}.

(** A 200 response whose body is the JSON object [d]. *)
Definition json_ok {A} (d : A) : response A := {| status := 200; payload := Json d |}.

Definition device_ready : reply Health.data :=
  Responds 20 (json_ok {| Health.device_opened := JS.boolean true;
                          Health.mock_mode := JS.boolean false |}).

(** The device returns the sample [t] after [after] ms. *)
Definition captured (after : N) (t : string) : reply Capture.data :=
  Responds after (json_ok {| Capture.success := true; Capture.template := Some t;
                             Capture.error := None |}).

Definition merge_rejected : reply Enroll.data :=
  Responds 40 (json_ok {| Enroll.success := false; Enroll.template := None;
                          Enroll.error := Some "Templates do not match" |}).

Definition merged (t : string) : reply Enroll.data :=
  Responds 40 (json_ok {| Enroll.success := true; Enroll.template := Some t;
                          Enroll.error := None |}).

Definition stored : reply Saved.data := Responds 30 (json_ok Saved.empty).

(** One tap on the scanner during enrollment: the sample [t], and what the
    merge answers should this be the capture that goes on to it. *)
Definition tap (t : string) (m : reply Enroll.data) : Enrollment.services :=
  {| Enrollment.capture := captured 1200 t; Enrollment.enroll := m;
     Enrollment.save := stored |}.

Definition template_found (t : string) : reply Template.data :=
  Responds 25 (json_ok {| Template.template := Some t; Template.error := None |}).

Definition template_missing : reply Template.data :=
  Responds 25 {| status := 404;
                 payload := Json {| Template.template := None;
                                    Template.error := Some "Fingerprint not enrolled" |} |}.

(** The device's answer to a match request. *)
Definition match_says (matched : option bool) (score : option float) : reply Match.data :=
  Responds 35 (json_ok {| Match.success := true; Match.matched := matched;
                          Match.score := score; Match.error := None |}).

(** A kiosk attempt: the capture, the template lookup and the match answer
    as given, and a backend that accepts the write. *)
Definition visit (c : reply Capture.data) (t : reply Template.data)
           (m : reply Match.data) : Kiosk.services :=
  {| Kiosk.capture := c; Kiosk.template := t; Kiosk.matching := m;
     Kiosk.commit := stored; Kiosk.now := "09:00:00 AM" |}.

(** The kiosk after the lookup of employee 1001. *)
Definition at_kiosk : Kiosk.kiosk :=
  {| Kiosk.employee := Some employee_1001; Kiosk.scanning := false;
     Kiosk.scanResult := None; Kiosk.scanMessage := "";
     Kiosk.leaveSubmitting := false;
     Kiosk.form := {| leaveType := "annual"; leaveStartDate := "2025-01-06";
                      leaveEndDate := "2025-01-10"; leaveReason := "" |};
     Kiosk.snackbar := None |}.

(** The kiosk after the lookup of an employee who has not enrolled yet. *)
Definition employee_1002 : Employee :=
  {| id := "emp-2"; employeeId := "1002"; firstName := "Bo";
     fingerprintEnrolled := false |}.

Definition at_kiosk_unenrolled : Kiosk.kiosk :=
  {| Kiosk.employee := Some employee_1002; Kiosk.scanning := false;
     Kiosk.scanResult := None; Kiosk.scanMessage := "";
     Kiosk.leaveSubmitting := false; Kiosk.form := Kiosk.form at_kiosk;
     Kiosk.snackbar := None |}.

End Scenario.

(* ------------------------------------------------------------------------- *)
(** ** fingerprintService.ts: [capture] and [enroll] *)

Module FingerprintServiceCalls.
Import FingerprintService.

Definition not_running_message :=
  "Fingerprint service not running. Start: python usb-fingerprint-service.py".

(** [capture]: the sample of one capture; every failure is thrown, and an
    error whose message mentions [fetch] is replaced. *)
Definition capture (c : reply Capture.data) : M service (option string) :=
  try_catch
    (response <- fetch POST_capture c ;;
     data <- json response ;;
     if negb (Capture.success data) then
       throw (JS.Error (JS.or_default (Capture.error data)
                          "Capture failed. Place finger on scanner."))
     else
       ret (Capture.template data))
    (fun e =>
       if JS.includes (JS.message e) "fetch" then
         throw (JS.Error not_running_message)
       else
         throw e).

(** [enroll]: the device's answer to the merge, or [{success: false, error}]
    when the request or the parse fails. *)
Definition enroll (userId : string) (templates : list (option string))
           (r : reply Enroll.data) : M service Enroll.data :=
  try_catch
    (response <- fetch (POST_enroll userId templates) r ;;
     data <- json response ;;
     ret data)
    (fun e =>
       ret {| Enroll.success := false; Enroll.template := None;
              Enroll.error := Some (JS.message e) |}).

End FingerprintServiceCalls.

(* ------------------------------------------------------------------------- *)
(** ** fingerprintApi.ts: [capture], [enroll] and [enrollWithCaptures] *)

Module FingerprintApiCalls.

(** The progress callback a caller may pass: it runs in the caller's state,
    synchronously. *)
Definition progress_callback (St : Type) : Type :=
  nat -> nat -> string -> M St unit.

Section Calls.
Context {St : Type}.

(** [FingerprintApi.capture] *)
Definition capture (c : reply Capture.data) : M St Capture.data :=
  response <- fetch POST_capture c ;;
  json response.

(** [FingerprintApi.enroll] *)
Definition enroll (userId : string) (templates : list (option string))
           (r : reply Enroll.data) : M St Enroll.data :=
  response <- fetch (POST_enroll userId templates) r ;;
  json response.

(** [onProgress?.(step, total, message)] *)
Definition notify (onProgress : option (progress_callback St))
           (step total : nat) (message : string) : M St unit :=
  match onProgress with
  | Some f => f step total message
  | None => ret tt
  end.

Definition totalCaptures := 3.

(** How the capture loop of [enrollWithCaptures] ends: by the [return]
    inside it, or by running out with the samples pushed. *)
Inductive loop_end :=
| Return (r : Enroll.data)
| Done (templates : list (option string)).

(** The loop [for (let i = 0; i < totalCaptures; i++)], from index [i] with
    [left = totalCaptures - i] rounds to go; [captures i] is what the device
    answers to the capture of round [i].  The pause of one second between
    two captures is not modelled. *)
Fixpoint captureLoop (onProgress : option (progress_callback St))
         (captures : nat -> reply Capture.data)
         (left i : nat) (templates : list (option string)) : M St loop_end :=
  match left with
  | 0 => ret (Done templates)
  | S left' =>
      notify onProgress (i + 1) totalCaptures
        ("Capture " ++ JS.show (i + 1) ++ " of " ++ JS.show totalCaptures
           ++ " - Place finger on scanner") ;;
      captureResult <- capture (captures i) ;;
      if negb (Capture.success captureResult) then
        ret (Return {| Enroll.success := false; Enroll.template := None;
                       Enroll.error :=
                         Some (JS.or_default (Capture.error captureResult)
                                 ("Capture " ++ JS.show (i + 1) ++ " failed")) |})
      else
        let templates := (templates ++ [Capture.template captureResult])%list in
        (if (i <? totalCaptures - 1)%nat then
           notify onProgress (i + 1) totalCaptures "Lift finger and place again"
         else ret tt) ;;
        captureLoop onProgress captures left' (S i) templates
  end.

(** [FingerprintApi.enrollWithCaptures] *)
Definition enrollWithCaptures (userId : string)
           (onProgress : option (progress_callback St))
           (captures : nat -> reply Capture.data) (merge : reply Enroll.data)
  : M St Enroll.data :=
  e <- captureLoop onProgress captures totalCaptures 0 [] ;;
  match e with
  | Return r => ret r
  | Done templates =>
      notify onProgress totalCaptures totalCaptures "Processing enrollment..." ;;
      enroll userId templates merge
  end.

End Calls.

(** A callback that returns and sends no request of its own. *)
Definition quiet {St} (onProgress : option (progress_callback St)) : Prop :=
  forall f, onProgress = Some f ->
  forall step total message s l,
    out (f step total message s l) = Returned tt /\
    log (f step total message s l) = l.

(** A caller that keeps the progress messages it is sent. *)
Definition keep_messages : option (progress_callback (list string)) :=
  Some (fun _ _ message => modify (fun seen => (seen ++ [message])%list)).

(** The sample of a capture answer, when the device delivered one. *)
Definition sample (c : reply Capture.data) : option (option string) :=
  match c with
  | Responds _ r =>
      match payload r with
      | Json d => if Capture.success d then Some (Capture.template d) else None
      | NotJson _ _ => None
      end
  | _ => None
  end.

(** The error text of a capture answer in which the device says
    [success: false]. *)
Definition refusal (c : reply Capture.data) : option (option string) :=
  match c with
  | Responds _ r =>
      match payload r with
      | Json d => if Capture.success d then None else Some (Capture.error d)
      | NotJson _ _ => None
      end
  | _ => None
  end.

End FingerprintApiCalls.

(* ------------------------------------------------------------------------- *)
(** ** What the enrollment dialog's services answered *)

Module EnrollmentOutcome.

(** The merged template, when the device answered the merge request with
    [success] true. *)
Definition merged_template (r : reply Enroll.data) : option (option string) :=
  match r with
  | Responds _ resp =>
      match payload resp with
      | Json d => if Enroll.success d then Some (Enroll.template d) else None
      | NotJson _ _ => None
      end
  | _ => None
  end.

(** The backend took the upload: a 2xx response whose body is JSON. *)
Definition accepted (r : reply Saved.data) : bool :=
  match r with
  | Responds _ resp =>
      ok resp && match payload resp with Json _ => true | NotJson _ _ => false end
  | _ => false
  end.

(** The services of the capture clicks among the events of a session. *)
Fixpoint clicks (evs : list Enrollment.event) : list Enrollment.services :=
  match evs with
  | [] => []
  | Enrollment.ClickCapture sv :: evs' => sv :: clicks evs'
  | Enrollment.ClickRetryCapture sv :: evs' => sv :: clicks evs'
  | _ :: evs' => clicks evs'
  end.

(** The log shows an enrollment that went through for [employee]: one of
    the capture clicks [svs] had a merge that gave a template and a backend
    that took the upload, the upload of that merged template was requested,
    and the closing timer was armed. *)
Definition went_through (employee : option Employee)
           (svs : list Enrollment.services) (l : list effect) : Prop :=
  exists e sv merged,
    employee = Some e /\
    In sv svs /\
    merged_template (Enrollment.enroll sv) = Some merged /\
    accepted (Enrollment.save sv) = true /\
    In (Fetch (POST_fingerprint_enroll (id e) merged 0 100)) l /\
    In (SetTimeout onSuccess 2000) l.

(** The answers to the scanner checks among the events of a session. *)
Fixpoint checks (evs : list Enrollment.event) : list (reply Health.data) :=
  match evs with
  | [] => []
  | Enrollment.DialogOpens health :: evs' => health :: checks evs'
  | Enrollment.ClickCheckAgain health :: evs' => health :: checks evs'
  | _ :: evs' => checks evs'
  end.

(** Three taps and a merge that gives the template ["T"]. *)
Definition three_taps : list Enrollment.event :=
  [Enrollment.DialogOpens Scenario.device_ready;
   Enrollment.ClickCapture (Scenario.tap "S1" (Scenario.merged "T"));
   Enrollment.ClickCapture (Scenario.tap "S2" (Scenario.merged "T"));
   Enrollment.ClickCapture (Scenario.tap "S3" (Scenario.merged "T"))].

End EnrollmentOutcome.

(* ------------------------------------------------------------------------- *)
(** ** Handlers that also talk to the rest of the backend

    The kiosk page and [FingerprintApi] send more requests than the
    fingerprint handlers above, and the page writes to [localStorage] and
    opens a window.  Their handlers run in the monad [W], which is [M] with
    a wider log; a handler of [M] runs in [W] through [lift]. *)

Inductive call :=
| GET_employees_lookup (id : string)      (* backend GET  /employees/lookup/:id *)
| POST_auth_login (email password : string)
                                          (* backend POST /auth/login *)
| POST_verify (userId : string) (template : option string)
                                          (* device  POST /verify *)
| POST_add_template (userId template : option string)
                                          (* device  POST /add-template *)
| GET_api_fingerprints (backendUrl : string).
                                          (* GET [backendUrl]/api/fingerprints *)

Inductive action :=
| Earlier (e : effect)                    (* an effect of a handler of [M] *)
| Sent (c : call)                         (* a request was sent *)
| LocalStorage_setItem (key : string) (value : option string)
| Window_open (url target : string).

Record wresult (S A : Type) := { wout : outcome A; wstate : S; wlog : list action }.

Definition W (S A : Type) : Type := S -> list action -> wresult S A.

Section WideMonad.
Context {S : Type}.

Definition wret {A} (a : A) : W S A :=
  fun s l => {| wout := Returned a; wstate := s; wlog := l |}.

Definition wbind {A B} (m : W S A) (k : A -> W S B) : W S B :=
  fun s l =>
    match m s l with
    | {| wout := Returned a; wstate := s'; wlog := l' |} => k a s' l'
    | {| wout := Threw e; wstate := s'; wlog := l' |} =>
        {| wout := Threw e; wstate := s'; wlog := l' |}
    | {| wout := Pending; wstate := s'; wlog := l' |} =>
        {| wout := Pending; wstate := s'; wlog := l' |}
    end.

Definition wthrow {A} (e : JS.error) : W S A :=
  fun s l => {| wout := Threw e; wstate := s; wlog := l |}.

Definition wpending {A} : W S A :=
  fun s l => {| wout := Pending; wstate := s; wlog := l |}.

Definition wgets {A} (f : S -> A) : W S A :=
  fun s l => {| wout := Returned (f s); wstate := s; wlog := l |}.

Definition wmodify (f : S -> S) : W S unit :=
  fun s l => {| wout := Returned tt; wstate := f s; wlog := l |}.

Definition wemit (a : action) : W S unit :=
  fun s l => {| wout := Returned tt; wstate := s; wlog := l ++ [a] |}.

(** [try { m } catch (e) { h e }] *)
Definition wtry_catch {A} (m : W S A) (h : JS.error -> W S A) : W S A :=
  fun s l =>
    match m s l with
    | {| wout := Threw e; wstate := s'; wlog := l' |} => h e s' l'
    | r => r
    end.

(** [try { m } finally { f }] *)
Definition wtry_finally {A} (m : W S A) (f : W S unit) : W S A :=
  fun s l =>
    match m s l with
    | {| wout := Pending; wstate := s'; wlog := l' |} =>
        {| wout := Pending; wstate := s'; wlog := l' |}
    | {| wout := o; wstate := s'; wlog := l' |} =>
        match f s' l' with
        | {| wout := Returned _; wstate := s''; wlog := l'' |} =>
            {| wout := o; wstate := s''; wlog := l'' |}
        | {| wout := Threw e; wstate := s''; wlog := l'' |} =>
            {| wout := Threw e; wstate := s''; wlog := l'' |}
        | {| wout := Pending; wstate := s''; wlog := l'' |} =>
            {| wout := Pending; wstate := s''; wlog := l'' |}
        end
    end.

(** [p.catch(() => dflt)] *)
Definition wcatch_default {A} (m : W S A) (dflt : A) : W S A :=
  wtry_catch m (fun _ => wret dflt).

(** [await fetch(url, init)] with no abort signal. *)
Definition wfetch {A} (c : call) (r : reply A) : W S (response A) :=
  wbind (wemit (Sent c)) (fun _ =>
    match r with
    | Never => wpending
    | Fails _ why => wthrow (JS.TypeError why)
    | Responds _ resp => wret resp
    end).

(** [await response.json()] *)
Definition wjson {A} (r : response A) : W S A :=
  match payload r with
  | Json d => wret d
  | NotJson _ why => wthrow (JS.SyntaxError why)
  end.

(** A handler of [M]: the same outcome and state, its effects logged as
    [Earlier]. *)
Definition lift {A} (m : M S A) : W S A :=
  fun s l =>
    match m s [] with
    | {| out := o; state := s'; log := l' |} =>
        {| wout := o; wstate := s'; wlog := l ++ map Earlier l' |}
    end.

End WideMonad.

Declare Scope web_scope.
Delimit Scope web_scope with web.
Notation "x <- m ;; k" := (wbind m (fun x => k))
  (at level 61, m at next level, right associativity) : web_scope.
Notation "m ;; k" := (wbind m (fun _ => k))
  (at level 61, right associativity) : web_scope.

(** Running a handler from a state with an empty log. *)
Definition wrun {S A} (m : W S A) (s : S) : wresult S A := m s [].

(** The effects of the fingerprint handlers in a log, in order. *)
Fixpoint earlier (l : list action) : list effect :=
  match l with
  | [] => []
  | Earlier e :: l' => e :: earlier l'
  | _ :: l' => earlier l'
  end.

(** [!s.trim()]: whether a string is empty once the white space and the
    line terminators of ECMAScript are trimmed.  Strings are UTF-8 here, so
    the characters beyond ASCII are two or three bytes. *)
Definition space3 (a b c : nat) : bool :=
  ((a =? 225) && (b =? 154) && (c =? 128)                    (* U+1680 *)
   || (a =? 226) && (b =? 128) && ((128 <=? c) && (c <=? 138)) (* U+2000..U+200A *)
   || (a =? 226) && (b =? 128) && ((c =? 168) || (c =? 169))   (* U+2028, U+2029 *)
   || (a =? 226) && (b =? 128) && (c =? 175)                   (* U+202F *)
   || (a =? 226) && (b =? 129) && (c =? 159)                   (* U+205F *)
   || (a =? 227) && (b =? 128) && (c =? 128)                   (* U+3000 *)
   || (a =? 239) && (b =? 187) && (c =? 191))%nat.             (* U+FEFF *)

Fixpoint blank (s : string) : bool :=
  match s with
  | EmptyString => true
  | String a s1 =>
      let n := nat_of_ascii a in
      if ((9 <=? n) && (n <=? 13) || (n =? 32))%nat then blank s1
      else
        match s1 with
        | EmptyString => false
        | String b s2 =>
            if ((n =? 194) && (nat_of_ascii b =? 160))%nat then blank s2  (* U+00A0 *)
            else
              match s2 with
              | EmptyString => false
              | String c s3 =>
                  if space3 n (nat_of_ascii b) (nat_of_ascii c) then blank s3
                  else false
              end
        end
  end.

(** The JSON objects of the two backend endpoints of the kiosk. *)
Module Lookup.
Record data := {
  id : string;
  employeeId : string;
  firstName : string;
  status : option string;
  fingerprintEnrolled : option bool;
  error : option string;
}.
(** [{}] *)
Definition empty : data :=
  {| id := ""; employeeId := ""; firstName := ""; status := None;
     fingerprintEnrolled := None; error := None |}.
End Lookup.

Module Login.
(** [role] is [data.user?.role]. *)
Record data := { role : option string; token : option string }.
End Login.

(* ------------------------------------------------------------------------- *)
(** ** TimeStationKiosk.tsx: the page around the fingerprint handlers *)

Module Station.

(** The [useState] cells of the page: those of [Kiosk.kiosk], which the
    fingerprint handlers touch, and the others.  [employeeIdText] is the
    cell [employeeId] (the text of the lookup field); [currentTime] is left
    out. *)
Record station := {
  core : Kiosk.kiosk;
  scannerConnected : bool;
  checkingScanner : bool;
  clockInDialogOpen : bool;
  clockOutDialogOpen : bool;
  leaveDialogOpen : bool;
  registerDialogOpen : bool;
  employeeIdText : string;
  lookupLoading : bool;
  lookupError : option string;
  leaveFormComplete : bool;
  adminEmail : string;
  adminPassword : string;
  adminAuthenticated : bool;
  adminError : option string;
}.

(** The initial values of the cells. *)
Definition mounted : station := {|
  core := {| Kiosk.employee := None; Kiosk.scanning := false;
             Kiosk.scanResult := None; Kiosk.scanMessage := "";
             Kiosk.leaveSubmitting := false;
             Kiosk.form := {| leaveType := ""; leaveStartDate := "";
                              leaveEndDate := ""; leaveReason := "" |};
             Kiosk.snackbar := None |};
  scannerConnected := false; checkingScanner := true;
  clockInDialogOpen := false; clockOutDialogOpen := false;
  leaveDialogOpen := false; registerDialogOpen := false;
  employeeIdText := ""; lookupLoading := false; lookupError := None;
  leaveFormComplete := false;
  adminEmail := ""; adminPassword := ""; adminAuthenticated := false;
  adminError := None |}.

Definition with_core (s : station) (k : Kiosk.kiosk) : station := {|
  core := k;
  scannerConnected := scannerConnected s; checkingScanner := checkingScanner s;
  clockInDialogOpen := clockInDialogOpen s; clockOutDialogOpen := clockOutDialogOpen s;
  leaveDialogOpen := leaveDialogOpen s; registerDialogOpen := registerDialogOpen s;
  employeeIdText := employeeIdText s; lookupLoading := lookupLoading s;
  lookupError := lookupError s; leaveFormComplete := leaveFormComplete s;
  adminEmail := adminEmail s; adminPassword := adminPassword s;
  adminAuthenticated := adminAuthenticated s; adminError := adminError s |}.

(** A handler over the cells of [Kiosk.kiosk], run on the page. *)
Definition on_core {A} (m : M Kiosk.kiosk A) : M station A :=
  fun s l =>
    match m (core s) l with
    | {| out := o; state := k; log := l' |} =>
        {| out := o; state := with_core s k; log := l' |}
    end.

Definition setEmployee (v : option Employee) : M station unit :=
  on_core (modify (fun k => {|
    Kiosk.employee := v; Kiosk.scanning := Kiosk.scanning k;
    Kiosk.scanResult := Kiosk.scanResult k; Kiosk.scanMessage := Kiosk.scanMessage k;
    Kiosk.leaveSubmitting := Kiosk.leaveSubmitting k; Kiosk.form := Kiosk.form k;
    Kiosk.snackbar := Kiosk.snackbar k |})).

Definition setForm (v : leave_form) : M station unit :=
  on_core (modify (fun k => {|
    Kiosk.employee := Kiosk.employee k; Kiosk.scanning := Kiosk.scanning k;
    Kiosk.scanResult := Kiosk.scanResult k; Kiosk.scanMessage := Kiosk.scanMessage k;
    Kiosk.leaveSubmitting := Kiosk.leaveSubmitting k; Kiosk.form := v;
    Kiosk.snackbar := Kiosk.snackbar k |})).

Definition setLeaveType (v : string) : M station unit :=
  f <- gets (fun s => Kiosk.form (core s)) ;;
  setForm {| leaveType := v; leaveStartDate := leaveStartDate f;
             leaveEndDate := leaveEndDate f; leaveReason := leaveReason f |}.

Definition setLeaveStartDate (v : string) : M station unit :=
  f <- gets (fun s => Kiosk.form (core s)) ;;
  setForm {| leaveType := leaveType f; leaveStartDate := v;
             leaveEndDate := leaveEndDate f; leaveReason := leaveReason f |}.

Definition setLeaveEndDate (v : string) : M station unit :=
  f <- gets (fun s => Kiosk.form (core s)) ;;
  setForm {| leaveType := leaveType f; leaveStartDate := leaveStartDate f;
             leaveEndDate := v; leaveReason := leaveReason f |}.

Definition setLeaveReason (v : string) : M station unit :=
  f <- gets (fun s => Kiosk.form (core s)) ;;
  setForm {| leaveType := leaveType f; leaveStartDate := leaveStartDate f;
             leaveEndDate := leaveEndDate f; leaveReason := v |}.

Definition setScanning (v : bool) : M station unit := on_core (Kiosk.setScanning v).
Definition setScanResult (v : option Kiosk.scan_result) : M station unit :=
  on_core (Kiosk.setScanResult v).
Definition setScanMessage (v : string) : M station unit := on_core (Kiosk.setScanMessage v).
Definition showSnackbar (msg : string) (sev : Kiosk.severity) : M station unit :=
  on_core (Kiosk.showSnackbar msg sev).

Definition setScannerConnected (v : bool) : M station unit :=
  modify (fun s => {|
    core := core s; scannerConnected := v; checkingScanner := checkingScanner s;
    clockInDialogOpen := clockInDialogOpen s; clockOutDialogOpen := clockOutDialogOpen s;
    leaveDialogOpen := leaveDialogOpen s; registerDialogOpen := registerDialogOpen s;
    employeeIdText := employeeIdText s; lookupLoading := lookupLoading s;
    lookupError := lookupError s; leaveFormComplete := leaveFormComplete s;
    adminEmail := adminEmail s; adminPassword := adminPassword s;
    adminAuthenticated := adminAuthenticated s; adminError := adminError s |}).

Definition setCheckingScanner (v : bool) : M station unit :=
  modify (fun s => {|
    core := core s; scannerConnected := scannerConnected s; checkingScanner := v;
    clockInDialogOpen := clockInDialogOpen s; clockOutDialogOpen := clockOutDialogOpen s;
    leaveDialogOpen := leaveDialogOpen s; registerDialogOpen := registerDialogOpen s;
    employeeIdText := employeeIdText s; lookupLoading := lookupLoading s;
    lookupError := lookupError s; leaveFormComplete := leaveFormComplete s;
    adminEmail := adminEmail s; adminPassword := adminPassword s;
    adminAuthenticated := adminAuthenticated s; adminError := adminError s |}).

Definition setClockInDialogOpen (v : bool) : M station unit :=
  modify (fun s => {|
    core := core s; scannerConnected := scannerConnected s;
    checkingScanner := checkingScanner s;
    clockInDialogOpen := v; clockOutDialogOpen := clockOutDialogOpen s;
    leaveDialogOpen := leaveDialogOpen s; registerDialogOpen := registerDialogOpen s;
    employeeIdText := employeeIdText s; lookupLoading := lookupLoading s;
    lookupError := lookupError s; leaveFormComplete := leaveFormComplete s;
    adminEmail := adminEmail s; adminPassword := adminPassword s;
    adminAuthenticated := adminAuthenticated s; adminError := adminError s |}).

Definition setClockOutDialogOpen (v : bool) : M station unit :=
  modify (fun s => {|
    core := core s; scannerConnected := scannerConnected s;
    checkingScanner := checkingScanner s;
    clockInDialogOpen := clockInDialogOpen s; clockOutDialogOpen := v;
    leaveDialogOpen := leaveDialogOpen s; registerDialogOpen := registerDialogOpen s;
    employeeIdText := employeeIdText s; lookupLoading := lookupLoading s;
    lookupError := lookupError s; leaveFormComplete := leaveFormComplete s;
    adminEmail := adminEmail s; adminPassword := adminPassword s;
    adminAuthenticated := adminAuthenticated s; adminError := adminError s |}).

Definition setLeaveDialogOpen (v : bool) : M station unit :=
  modify (fun s => {|
    core := core s; scannerConnected := scannerConnected s;
    checkingScanner := checkingScanner s;
    clockInDialogOpen := clockInDialogOpen s; clockOutDialogOpen := clockOutDialogOpen s;
    leaveDialogOpen := v; registerDialogOpen := registerDialogOpen s;
    employeeIdText := employeeIdText s; lookupLoading := lookupLoading s;
    lookupError := lookupError s; leaveFormComplete := leaveFormComplete s;
    adminEmail := adminEmail s; adminPassword := adminPassword s;
    adminAuthenticated := adminAuthenticated s; adminError := adminError s |}).

Definition setRegisterDialogOpen (v : bool) : M station unit :=
  modify (fun s => {|
    core := core s; scannerConnected := scannerConnected s;
    checkingScanner := checkingScanner s;
    clockInDialogOpen := clockInDialogOpen s; clockOutDialogOpen := clockOutDialogOpen s;
    leaveDialogOpen := leaveDialogOpen s; registerDialogOpen := v;
    employeeIdText := employeeIdText s; lookupLoading := lookupLoading s;
    lookupError := lookupError s; leaveFormComplete := leaveFormComplete s;
    adminEmail := adminEmail s; adminPassword := adminPassword s;
    adminAuthenticated := adminAuthenticated s; adminError := adminError s |}).

Definition setEmployeeId (v : string) : M station unit :=
  modify (fun s => {|
    core := core s; scannerConnected := scannerConnected s;
    checkingScanner := checkingScanner s;
    clockInDialogOpen := clockInDialogOpen s; clockOutDialogOpen := clockOutDialogOpen s;
    leaveDialogOpen := leaveDialogOpen s; registerDialogOpen := registerDialogOpen s;
    employeeIdText := v; lookupLoading := lookupLoading s;
    lookupError := lookupError s; leaveFormComplete := leaveFormComplete s;
    adminEmail := adminEmail s; adminPassword := adminPassword s;
    adminAuthenticated := adminAuthenticated s; adminError := adminError s |}).

Definition setLookupLoading (v : bool) : M station unit :=
  modify (fun s => {|
    core := core s; scannerConnected := scannerConnected s;
    checkingScanner := checkingScanner s;
    clockInDialogOpen := clockInDialogOpen s; clockOutDialogOpen := clockOutDialogOpen s;
    leaveDialogOpen := leaveDialogOpen s; registerDialogOpen := registerDialogOpen s;
    employeeIdText := employeeIdText s; lookupLoading := v;
    lookupError := lookupError s; leaveFormComplete := leaveFormComplete s;
    adminEmail := adminEmail s; adminPassword := adminPassword s;
    adminAuthenticated := adminAuthenticated s; adminError := adminError s |}).

Definition setLookupError (v : option string) : M station unit :=
  modify (fun s => {|
    core := core s; scannerConnected := scannerConnected s;
    checkingScanner := checkingScanner s;
    clockInDialogOpen := clockInDialogOpen s; clockOutDialogOpen := clockOutDialogOpen s;
    leaveDialogOpen := leaveDialogOpen s; registerDialogOpen := registerDialogOpen s;
    employeeIdText := employeeIdText s; lookupLoading := lookupLoading s;
    lookupError := v; leaveFormComplete := leaveFormComplete s;
    adminEmail := adminEmail s; adminPassword := adminPassword s;
    adminAuthenticated := adminAuthenticated s; adminError := adminError s |}).

Definition setLeaveFormComplete (v : bool) : M station unit :=
  modify (fun s => {|
    core := core s; scannerConnected := scannerConnected s;
    checkingScanner := checkingScanner s;
    clockInDialogOpen := clockInDialogOpen s; clockOutDialogOpen := clockOutDialogOpen s;
    leaveDialogOpen := leaveDialogOpen s; registerDialogOpen := registerDialogOpen s;
    employeeIdText := employeeIdText s; lookupLoading := lookupLoading s;
    lookupError := lookupError s; leaveFormComplete := v;
    adminEmail := adminEmail s; adminPassword := adminPassword s;
    adminAuthenticated := adminAuthenticated s; adminError := adminError s |}).

Definition setAdminEmail (v : string) : M station unit :=
  modify (fun s => {|
    core := core s; scannerConnected := scannerConnected s;
    checkingScanner := checkingScanner s;
    clockInDialogOpen := clockInDialogOpen s; clockOutDialogOpen := clockOutDialogOpen s;
    leaveDialogOpen := leaveDialogOpen s; registerDialogOpen := registerDialogOpen s;
    employeeIdText := employeeIdText s; lookupLoading := lookupLoading s;
    lookupError := lookupError s; leaveFormComplete := leaveFormComplete s;
    adminEmail := v; adminPassword := adminPassword s;
    adminAuthenticated := adminAuthenticated s; adminError := adminError s |}).

Definition setAdminPassword (v : string) : M station unit :=
  modify (fun s => {|
    core := core s; scannerConnected := scannerConnected s;
    checkingScanner := checkingScanner s;
    clockInDialogOpen := clockInDialogOpen s; clockOutDialogOpen := clockOutDialogOpen s;
    leaveDialogOpen := leaveDialogOpen s; registerDialogOpen := registerDialogOpen s;
    employeeIdText := employeeIdText s; lookupLoading := lookupLoading s;
    lookupError := lookupError s; leaveFormComplete := leaveFormComplete s;
    adminEmail := adminEmail s; adminPassword := v;
    adminAuthenticated := adminAuthenticated s; adminError := adminError s |}).

Definition setAdminAuthenticated (v : bool) : M station unit :=
  modify (fun s => {|
    core := core s; scannerConnected := scannerConnected s;
    checkingScanner := checkingScanner s;
    clockInDialogOpen := clockInDialogOpen s; clockOutDialogOpen := clockOutDialogOpen s;
    leaveDialogOpen := leaveDialogOpen s; registerDialogOpen := registerDialogOpen s;
    employeeIdText := employeeIdText s; lookupLoading := lookupLoading s;
    lookupError := lookupError s; leaveFormComplete := leaveFormComplete s;
    adminEmail := adminEmail s; adminPassword := adminPassword s;
    adminAuthenticated := v; adminError := adminError s |}).

Definition setAdminError (v : option string) : M station unit :=
  modify (fun s => {|
    core := core s; scannerConnected := scannerConnected s;
    checkingScanner := checkingScanner s;
    clockInDialogOpen := clockInDialogOpen s; clockOutDialogOpen := clockOutDialogOpen s;
    leaveDialogOpen := leaveDialogOpen s; registerDialogOpen := registerDialogOpen s;
    employeeIdText := employeeIdText s; lookupLoading := lookupLoading s;
    lookupError := lookupError s; leaveFormComplete := leaveFormComplete s;
    adminEmail := adminEmail s; adminPassword := adminPassword s;
    adminAuthenticated := adminAuthenticated s; adminError := v |}).

(** [checkScannerConnection]: the health request is given 3 seconds, and
    the two fields of its answer are tested with [=== true]. *)
Definition checkScannerConnection (health : reply Health.data) : M station bool :=
  try_finally
    (try_catch
       (response <- fetch_signal 3000 JS.TimeoutError GET_health health ;;
        if ok response then
          data <- json response ;;
          let isConnected := JS.is_true (Health.device_opened data)
                             || JS.is_true (Health.mock_mode data) in
          setScannerConnected isConnected ;;
          ret isConnected
        else
          setScannerConnected false ;;
          ret false)
       (fun e =>
          setScannerConnected false ;;
          ret false))
    (setCheckingScanner false).

(** [handleLeaveFormSubmit], the "Next: Fingerprint Authorization" button. *)
Definition handleLeaveFormSubmit : M station unit :=
  k <- gets core ;;
  match Kiosk.employee k with
  | None => showSnackbar "Please fill in all required fields" Kiosk.sev_error
  | Some _ =>
      if negb (JS.truthy_string (leaveType (Kiosk.form k)))
         || negb (JS.truthy_string (leaveStartDate (Kiosk.form k)))
         || negb (JS.truthy_string (leaveEndDate (Kiosk.form k)))
      then showSnackbar "Please fill in all required fields" Kiosk.sev_error
      else
        (* Form is complete, now show fingerprint scanner *)
        setLeaveFormComplete true ;;
        setScanMessage "Place your finger on the scanner to authorize leave request..." ;;
        setScanning true
  end.

(** [resetAndClose] *)
Definition resetAndClose : M station unit :=
  setEmployeeId "" ;;
  setEmployee None ;;
  setLookupError None ;;
  setScanResult None ;;
  setScanMessage "" ;;
  setScanning false ;;
  setLeaveType "" ;;
  setLeaveStartDate "" ;;
  setLeaveEndDate "" ;;
  setLeaveReason "" ;;
  setLeaveFormComplete false ;;
  setLeaveDialogOpen false ;;
  setLeaveType "" ;;
  setLeaveStartDate "" ;;
  setLeaveEndDate "" ;;
  setLeaveReason "" ;;
  setAdminEmail "" ;;
  setAdminPassword "" ;;
  setAdminAuthenticated false ;;
  setAdminError None ;;
  setClockInDialogOpen false ;;
  setClockOutDialogOpen false ;;
  setLeaveDialogOpen false ;;
  setRegisterDialogOpen false.

Local Open Scope web_scope.

(** [data.status === 'inactive' || data.status === 'terminated'] *)
Definition barred (status : option string) : bool :=
  match status with
  | Some st => (st =? "inactive") || (st =? "terminated")
  | None => false
  end.

(** [lookupEmployee] *)
Definition lookupEmployee (id : string) (r : reply Lookup.data) : W station unit :=
  if blank id then
    lift (setLookupError (Some "Please enter your Employee ID"))
  else
    lift (setLookupLoading true) ;;
    lift (setLookupError None) ;;
    lift (setEmployee None) ;;
    wtry_finally
      (wtry_catch
         (response <- wfetch (GET_employees_lookup id) r ;;
          (if negb (ok response) then
             if (status response =? 404)%Z then
               wthrow (JS.Error "Employee not found. Please check your ID.")
             else
               errorData <- wcatch_default (wjson response) Lookup.empty ;;
               wthrow (JS.Error (JS.or_default (Lookup.error errorData)
                                   "Failed to lookup employee"))
           else wret tt) ;;
          data <- wjson response ;;
          if barred (Lookup.status data) then
            wthrow (JS.Error ("Your account is "
                                ++ match Lookup.status data with
                                   | Some st => st
                                   | None => "undefined"
                                   end
                                ++ ". Please contact HR."))
          else
            lift (setEmployee (Some {|
              id := Lookup.id data;
              employeeId := Lookup.employeeId data;
              firstName := Lookup.firstName data;
              fingerprintEnrolled :=
                match Lookup.fingerprintEnrolled data with
                | Some b => b
                | None => false
                end |})))
         (fun e => lift (setLookupError (Some (JS.message e)))))
      (lift (setLookupLoading false)).

(** [['admin', 'super_admin', 'ADMIN', 'SUPER_ADMIN'].includes(role)] *)
Definition admin_role (role : option string) : bool :=
  match role with
  | Some r => existsb (String.eqb r) ["admin"; "super_admin"; "ADMIN"; "SUPER_ADMIN"]
  | None => false
  end.

(** [handleAdminLogin] *)
Definition handleAdminLogin (r : reply Login.data) : W station unit :=
  lift (setAdminError None) ;;
  wtry_catch
    (email <- wgets adminEmail ;;
     password <- wgets adminPassword ;;
     response <- wfetch (POST_auth_login email password) r ;;
     (if negb (ok response) then wthrow (JS.Error "Invalid credentials") else wret tt) ;;
     data <- wjson response ;;
     (if negb (admin_role (Login.role data)) then
        wthrow (JS.Error "Admin access required")
      else wret tt) ;;
     lift (setAdminAuthenticated true) ;;
     wemit (LocalStorage_setItem "kiosk_admin_token" (Login.token data)))
    (fun e => lift (setAdminError (Some (JS.message e)))).

(** *** What is on screen, and what the user can do *)

Definition anyDialogOpen (s : station) : bool :=
  clockInDialogOpen s || clockOutDialogOpen s || leaveDialogOpen s
  || registerDialogOpen s.

Definition clockDialogOpen (action : clock_action) (s : station) : bool :=
  match action with
  | clock_in => clockInDialogOpen s
  | clock_out => clockOutDialogOpen s
  end.

Definition has_employee (s : station) : bool :=
  match Kiosk.employee (core s) with Some _ => true | None => false end.

Definition has_result (s : station) : bool :=
  match Kiosk.scanResult (core s) with Some _ => true | None => false end.

(** [renderEmployeeLookup] is the content of the clock and leave dialogs
    while no employee is held. *)
Definition lookupShown (s : station) : bool :=
  (clockInDialogOpen s || clockOutDialogOpen s || leaveDialogOpen s)
  && negb (has_employee s).

(** [renderScanResult] is their content once [scanResult] is set; "Try
    Again" is on it when the result is ['failed']. *)
Definition tryAgainShown (s : station) : bool :=
  (clockInDialogOpen s || clockOutDialogOpen s || leaveDialogOpen s)
  && has_employee s
  && match Kiosk.scanResult (core s) with Some Kiosk.failed => true | _ => false end.

(** The leave dialog with an employee: the fingerprint step when
    [leaveFormComplete && !scanResult], else the result, else the form. *)
Definition leaveScanShown (s : station) : bool :=
  leaveDialogOpen s && has_employee s && leaveFormComplete s && negb (has_result s).

Definition leaveFormShown (s : station) : bool :=
  leaveDialogOpen s && has_employee s && negb (leaveFormComplete s)
  && negb (has_result s).

(** The form's button is [disabled] until type, start and end are set. *)
Definition nextEnabled (s : station) : bool :=
  let f := Kiosk.form (core s) in
  JS.truthy_string (leaveType f) && JS.truthy_string (leaveStartDate f)
  && JS.truthy_string (leaveEndDate f).

Inductive event :=
(* the page *)
| Poll (health : reply Health.data)          (* the effect on mount and its 5 s interval *)
| ClickRefresh (health : reply Health.data)  (* the refresh icon *)
| ClickClockIn
| ClickClockOut
| ClickLeaveRequest
| ClickRegisterEmployee
(* every dialog *)
| ClickClose                                 (* the X, the backdrop, Escape *)
| TimerFires                                 (* a [setTimeout(resetAndClose, 3000)] comes due *)
(* the lookup step *)
| TypeEmployeeId (v : string)
| ClickContinue (r : reply Lookup.data)
| PressEnter (r : reply Lookup.data)
(* the clock dialogs *)
| ClickScan (action : clock_action) (sv : Kiosk.services)
| ClickTryAgain
(* the leave dialog *)
| ChooseLeaveType (v : string)
| TypeStartDate (v : string)
| TypeEndDate (v : string)
| TypeReason (v : string)
| ClickNext
| ClickScanFingerprint (sv : Kiosk.services)
| ClickBackToForm
(* the register dialog *)
| TypeAdminEmail (v : string)
| TypeAdminPassword (v : string)
| ClickLogin (r : reply Login.data)          (* the button, or Enter in the password field *)
| ClickOpenRegistration.

(** One event.  A button of the page is clickable while no dialog covers
    it; a control of a dialog while that dialog is open and shows it; the
    poll and the timer come when they come. *)
Definition dispatch (ev : event) : W station unit :=
  s <- wgets (fun s => s) ;;
  match ev with
  | Poll health =>
      lift (spawn (checkScannerConnection health))
  | ClickRefresh health =>
      if negb (anyDialogOpen s) then lift (spawn (checkScannerConnection health))
      else wret tt
  | ClickClockIn =>
      if negb (anyDialogOpen s) && scannerConnected s
      then lift (setClockInDialogOpen true) else wret tt
  | ClickClockOut =>
      if negb (anyDialogOpen s) && scannerConnected s
      then lift (setClockOutDialogOpen true) else wret tt
  | ClickLeaveRequest =>
      if negb (anyDialogOpen s) then lift (setLeaveDialogOpen true) else wret tt
  | ClickRegisterEmployee =>
      if negb (anyDialogOpen s) then lift (setRegisterDialogOpen true) else wret tt
  | ClickClose =>
      if anyDialogOpen s then lift resetAndClose else wret tt
  | TimerFires =>
      lift resetAndClose
  | TypeEmployeeId v =>
      if lookupShown s then lift (setEmployeeId v) else wret tt
  | ClickContinue r =>
      if lookupShown s && JS.truthy_string (employeeIdText s) && negb (lookupLoading s)
      then lookupEmployee (employeeIdText s) r else wret tt
  | PressEnter r =>
      if lookupShown s then lookupEmployee (employeeIdText s) r else wret tt
  | ClickScan action sv =>
      if clockDialogOpen action s then lift (on_core (Kiosk.clickScan action sv))
      else wret tt
  | ClickTryAgain =>
      if tryAgainShown s then
        lift (setScanResult None) ;;
        lift (setScanMessage "")
      else wret tt
  | ChooseLeaveType v =>
      if leaveFormShown s then lift (setLeaveType v) else wret tt
  | TypeStartDate v =>
      if leaveFormShown s then lift (setLeaveStartDate v) else wret tt
  | TypeEndDate v =>
      if leaveFormShown s then lift (setLeaveEndDate v) else wret tt
  | TypeReason v =>
      if leaveFormShown s then lift (setLeaveReason v) else wret tt
  | ClickNext =>
      if leaveFormShown s && nextEnabled s then lift handleLeaveFormSubmit else wret tt
  | ClickScanFingerprint sv =>
      if leaveScanShown s && negb (Kiosk.scanning (core s))
         && negb (Kiosk.leaveSubmitting (core s))
      then lift (on_core (Kiosk.handleLeaveFingerPrintVerification sv)) else wret tt
  | ClickBackToForm =>
      if leaveScanShown s && negb (Kiosk.leaveSubmitting (core s)) then
        lift (setLeaveFormComplete false) ;;
        lift (setScanning false)
      else wret tt
  | TypeAdminEmail v =>
      if registerDialogOpen s && negb (adminAuthenticated s)
      then lift (setAdminEmail v) else wret tt
  | TypeAdminPassword v =>
      if registerDialogOpen s && negb (adminAuthenticated s)
      then lift (setAdminPassword v) else wret tt
  | ClickLogin r =>
      if registerDialogOpen s && negb (adminAuthenticated s)
      then handleAdminLogin r else wret tt
  | ClickOpenRegistration =>
      if registerDialogOpen s && adminAuthenticated s then
        wemit (Window_open "/employees/new" "_blank") ;;
        lift resetAndClose
      else wret tt
  end.

(** Events one after the other, each taken once the handler of the one
    before has settled.  (The page itself does not wait: the X of a dialog
    can be clicked while a scan or a lookup is in flight.  Such
    interleavings are outside a session.) *)
Fixpoint session (evs : list event) : W station unit :=
  match evs with
  | [] => wret tt
  | ev :: evs' => dispatch ev ;; session evs'
  end.

(** The lookup answers of a session, and its login answers. *)
Fixpoint lookups (evs : list event) : list (reply Lookup.data) :=
  match evs with
  | [] => []
  | ClickContinue r :: evs' => r :: lookups evs'
  | PressEnter r :: evs' => r :: lookups evs'
  | _ :: evs' => lookups evs'
  end.

Fixpoint logins (evs : list event) : list (reply Login.data) :=
  match evs with
  | [] => []
  | ClickLogin r :: evs' => r :: logins evs'
  | _ :: evs' => logins evs'
  end.

(** A lookup answer that admits the employee [e]: 2xx, JSON, a status that
    is neither ['inactive'] nor ['terminated'], and [e] built from it. *)
Definition admits (r : reply Lookup.data) (e : Employee) : Prop :=
  exists after resp d,
    r = Responds after resp /\ ok resp = true /\ payload resp = Json d /\
    barred (Lookup.status d) = false /\
    e = {| id := Lookup.id d; employeeId := Lookup.employeeId d;
           firstName := Lookup.firstName d;
           fingerprintEnrolled :=
             match Lookup.fingerprintEnrolled d with Some b => b | None => false end |}.

(** A login answer that lets an administrator in: 2xx, JSON, and a role of
    the list. *)
Definition lets_in (r : reply Login.data) : Prop :=
  exists after resp d,
    r = Responds after resp /\ ok resp = true /\ payload resp = Json d /\
    admin_role (Login.role d) = true.

(** The leave submissions of a log. *)
Fixpoint leaves (l : list action) : list request :=
  match l with
  | [] => []
  | Earlier (Fetch (POST_leaves e f)) :: l' => POST_leaves e f :: leaves l'
  | _ :: l' => leaves l'
  end.

(** The attendance record [(eid, a, m)] is backed by the events [evs]: the
    method is the fingerprint, a lookup among them admitted an enrolled
    employee with that id, and a scan click for the action [a] among them
    had a match verdict that is truthy. *)
Definition backed (evs : list event) (eid : string) (a : clock_action) (m : string)
  : Prop :=
  m = "FINGERPRINT" /\
  exists lr e sv v,
    In lr (lookups evs) /\ admits lr e /\
    employeeId e = eid /\ fingerprintEnrolled e = true /\
    In (ClickScan a sv) evs /\
    Kiosk.verdict (Kiosk.matching sv) = Returned v /\ JS.truthy v = true.

(** The registration page was opened or a token was stored. *)
Definition admin_action (a : action) : bool :=
  match a with
  | Window_open _ _ => true
  | LocalStorage_setItem _ _ => true
  | _ => false
  end.

End Station.

(* ------------------------------------------------------------------------- *)
(** ** Visits to the kiosk used in examples *)

Module PageScenario.
Import Station.

(** The backend finds the employee [e], who is active. *)
Definition found (e : Employee) : reply Lookup.data :=
  Responds 40 (Scenario.json_ok
    {| Lookup.id := id e; Lookup.employeeId := employeeId e;
       Lookup.firstName := firstName e; Lookup.status := Some "active";
       Lookup.fingerprintEnrolled := Some (fingerprintEnrolled e);
       Lookup.error := None |}).

(** A finger that matches the stored template. *)
Definition good_scan : Kiosk.services :=
  Scenario.visit (Scenario.captured 900 "S") (Scenario.template_found "T")
                 (Scenario.match_says (Some true) (Some 0.5%float)).

(** Employee 1001 clocks in. *)
Definition clock_in_visit : list event :=
  [Poll Scenario.device_ready; ClickClockIn; TypeEmployeeId "1001";
   ClickContinue (found Scenario.employee_1001); ClickScan clock_in good_scan].

(** Employee 1001 fills the leave form in and goes on to the fingerprint
    step. *)
Definition leave_visit : list event :=
  [Poll Scenario.device_ready; ClickLeaveRequest; TypeEmployeeId "1001";
   ClickContinue (found Scenario.employee_1001);
   ChooseLeaveType "annual"; TypeStartDate "2025-01-06"; TypeEndDate "2025-01-10";
   ClickNext; ClickScanFingerprint good_scan].

(** An administrator logs in and opens the registration page. *)
Definition admin_login : reply Login.data :=
  Responds 50 (Scenario.json_ok {| Login.role := Some "admin"; Login.token := Some "jwt" |}).

Definition admin_visit : list event :=
  [ClickRegisterEmployee; TypeAdminEmail "admin@example.com"; TypeAdminPassword "secret";
   ClickLogin admin_login; ClickOpenRegistration].

End PageScenario.

(* ------------------------------------------------------------------------- *)
(** ** fingerprintApi.ts: [clockWithVerification] and [loadTemplatesFromBackend] *)

Module Verify.
Record data := {
  success : bool;
  verified : option bool;
  score : option float;
  error : option string;
}.
End Verify.

Module Added.
Record data := { success : bool; error : option string }.
End Added.

Module FingerprintApiFlows.
Local Open Scope web_scope.

(** What [clockWithVerification] returns. *)
Record clocked := {
  success : bool;
  verified : bool;
  score : option float;
  error : option string;
}.

(** An entry of the backend's list of fingerprints. *)
Record fingerprint := { fp_employeeId : option string; fp_template : option string }.

(** The local variables of [loadTemplatesFromBackend], which it returns. *)
Record counts := { loaded : nat; errors : nat }.

Section Flows.
Context {St : Type}.

(** [FingerprintApi.verify] *)
Definition verify (userId : string) (template : option string)
           (r : reply Verify.data) : W St Verify.data :=
  response <- wfetch (POST_verify userId template) r ;;
  wjson response.

(** [FingerprintApi.addTemplate] *)
Definition addTemplate (userId template : option string)
           (r : reply Added.data) : W St Added.data :=
  response <- wfetch (POST_add_template userId template) r ;;
  wjson response.

(** [FingerprintApi.clockWithVerification] *)
Definition clockWithVerification (employeeId : string) (storedTemplate : option string)
           (c : reply Capture.data) (v : reply Verify.data) : W St clocked :=
  (* Capture current fingerprint *)
  captureResult <- lift (FingerprintApiCalls.capture c) ;;
  if negb (Capture.success captureResult) then
    wret {| success := false; verified := false; score := None;
            error := Capture.error captureResult |}
  else
    (* Verify against stored template *)
    verifyResult <- verify employeeId (Capture.template captureResult) v ;;
    wret {| success := Verify.success verifyResult;
            verified := match Verify.verified verifyResult with
                        | Some b => b
                        | None => false
                        end;
            score := Verify.score verifyResult;
            error := Verify.error verifyResult |}.

End Flows.

(** The loop [for (const fp of templates)]; [adds i] is what the device
    answers to the request for entry [i]. *)
Fixpoint addEach (templates : list fingerprint) (i : nat)
         (adds : nat -> reply Added.data) : W counts unit :=
  match templates with
  | [] => wret tt
  | fp :: rest =>
      result <- addTemplate (fp_employeeId fp) (fp_template fp) (adds i) ;;
      (if Added.success result then
         wmodify (fun c => {| loaded := loaded c + 1; errors := errors c |})
       else
         wmodify (fun c => {| loaded := loaded c; errors := errors c + 1 |})) ;;
      addEach rest (S i) adds
  end.

(** [FingerprintApi.loadTemplatesFromBackend] *)
Definition loadTemplatesFromBackend (backendUrl : string)
           (listing : reply (list fingerprint)) (adds : nat -> reply Added.data)
  : W counts counts :=
  wmodify (fun _ => {| loaded := 0; errors := 0 |}) ;;
  wtry_catch
    ((* Fetch all templates from your backend *)
     response <- wfetch (GET_api_fingerprints backendUrl) listing ;;
     templates <- wjson response ;;
     (* Add each to scanner memory *)
     addEach templates 0 adds)
    (fun e => wret tt) ;;
  wgets (fun c => c).

(** The templates a log shows as sent to the scanner's memory, in order. *)
Fixpoint added (l : list action) : list fingerprint :=
  match l with
  | [] => []
  | Sent (POST_add_template u t) :: l' =>
      {| fp_employeeId := u; fp_template := t |} :: added l'
  | _ :: l' => added l'
  end.

(** The entries of the listing, when it arrived as JSON. *)
Definition listed (listing : reply (list fingerprint)) : list fingerprint :=
  match listing with
  | Responds _ r => match payload r with Json fps => fps | NotJson _ _ => [] end
  | _ => []
  end.

(** The answer to an add request, when the device gave one in JSON. *)
Definition answered (r : reply Added.data) : option bool :=
  match r with
  | Responds _ resp =>
      match payload resp with
      | Json d => Some (Added.success d)
      | NotJson _ _ => None
      end
  | _ => None
  end.

End FingerprintApiFlows.

(* ------------------------------------------------------------------------- *)
(** * Properties *)

Unset Implicit Arguments.

(** Case analysis on an innermost thing the goal still branches on. *)
Ltac split_branch :=
  match goal with
  | |- context [match ?x with _ => _ end] =>
      lazymatch x with
      | context [match _ with _ => _ end] => fail
      | _ => destruct x eqn:?
      end
  end.

(** A default that is truthy makes [x || dflt] truthy. *)
Lemma or_default_truthy (x : option string) (dflt : string) :
  JS.truthy_string dflt = true -> JS.truthy_string (JS.or_default x dflt) = true.
Proof.
  intros H. unfold JS.or_default.
  destruct x as [s|]; [destruct (JS.truthy_string s) eqn:E|]; auto.
Qed.

Lemma bind_returned {S A B} (m : M S A) (k : A -> M S B) s l a s' l' :
  m s l = {| out := Returned a; state := s'; log := l' |} ->
  bind m k s l = k a s' l'.
Proof. intros E. unfold bind. rewrite E. reflexivity. Qed.

Lemma bind_ret_unit {S} (m : M S unit) s l :
  bind m (fun _ => ret tt) s l = m s l.
Proof. unfold bind, ret. destruct (m s l) as [[[]|e|] s' l']; reflexivity. Qed.

Module EnrollmentFacts.
Import Enrollment.

(** Unfolding the monad and the setters: after it a handler applied to a
    state and a log is a tree of branches on the replies with a [result] at
    each leaf. *)
Ltac run_dialog :=
  cbv beta iota zeta delta
    [bind ret throw pending gets modify emit try_catch try_finally
     catch_default spawn fetch fetch_signal json
     out state log run payload status
     setActiveStep setCapturing setSaving setTemplates setError setSuccess
     setScannerConnected setCheckingScanner setStatusMessage setCountdown
     setTemplatesRef syncRefEffect handleRetry
     activeStep capturing saving templates error success scannerConnected
     checkingScanner statusMessage countdown templatesRef
     JS.name JS.message JS.Error JS.TypeError JS.SyntaxError JS.AbortError
     JS.TimeoutError negb andb orb];
  cbn [String.eqb Ascii.eqb Bool.eqb].

Ltac crunch_dialog := repeat (run_dialog; try split_branch).

Ltac dialog_fields :=
  cbn [activeStep capturing saving templates error success scannerConnected
       checkingScanner statusMessage countdown templatesRef out state log] in *.

(** [checkScanner] settles whatever the health request does: it has its own
    3 second limit and catches every error. *)
Lemma checkScanner_settles (health : reply Health.data) (s : dialog) (l : list effect) :
  checkScanner health s l =
  {| out := Returned tt;
     state := {|
       activeStep := activeStep s; capturing := capturing s; saving := saving s;
       templates := templates s; error := error s; success := success s;
       scannerConnected := connected health; checkingScanner := false;
       statusMessage := statusMessage s; countdown := countdown s;
       templatesRef := templatesRef s |};
     log := l ++ [Fetch GET_health] |}.
Proof.
  destruct s; unfold checkScanner, connected.
  destruct health as [|after why|after [st [d|text why]]]; run_dialog;
    try destruct (after <? 3000)%N; run_dialog; try reflexivity;
    destruct (ok _); reflexivity.
Qed.

(** The dialog opening, as one step. *)
Lemma dispatch_opens (employee : option Employee) (health : reply Health.data)
      (s : dialog) (l : list effect) :
  dispatch employee (DialogOpens health) s l =
  {| out := Returned tt;
     state := {|
       activeStep := 0; capturing := capturing s; saving := false;
       templates := []; error := None; success := false;
       scannerConnected := connected health; checkingScanner := false;
       statusMessage := ""; countdown := 0; templatesRef := [] |};
     log := l ++ [Fetch GET_health] |}.
Proof.
  unfold dispatch, openEffect.
  cbv beta iota zeta delta [bind gets spawn].
  rewrite checkScanner_settles. destruct s. run_dialog. reflexivity.
Qed.

(** X20. What the effect on [open] resets: whatever state an earlier session
    left behind (for the same or another employee), after the open event the
    sample list and the ref that mirrors it are empty, the step index is 0,
    error, success and status message are cleared, nothing is being saved,
    the countdown is 0, and the only request sent is the scanner's health
    check.  The [capturing] flag is not among the cells it writes: it is
    what it was. *)
Theorem open_resets_session :
  forall (employee : option Employee) (health : reply Health.data)
         (s : dialog) (l : list effect),
    let r := dispatch employee (DialogOpens health) s l in
    out r = Returned tt /\
    templates (state r) = [] /\
    templatesRef (state r) = [] /\
    activeStep (state r) = 0 /\
    error (state r) = None /\
    success (state r) = false /\
    statusMessage (state r) = "" /\
    saving (state r) = false /\
    countdown (state r) = 0%N /\
    capturing (state r) = capturing s /\
    log r = (l ++ [Fetch GET_health])%list.
Proof.
  intros employee health s l r. unfold r. rewrite dispatch_opens.
  cbn. repeat split; reflexivity.
Qed.

(** C10, where the code falls short of it.  An enrollment for employee 1001
    goes through: three taps, the merge gives a template, the backend takes
    it, and the timer that calls [onSuccess] is armed.  The user closes the
    dialog, and it is opened for employee 1002.  The open effect resets the
    cells it lists, and the dialog is ready with no sample and no success;
    but the timer of the first session is still armed, and when it runs
    [onSuccess] is called in the session of employee 1002, which has
    captured nothing.  Nor does the open effect write [capturing]: a capture
    flag that an earlier session left set is still set after it. *)
Theorem success_timer_outlives_session :
  let taps := [DialogOpens Scenario.device_ready;
               ClickCapture (Scenario.tap "S1" (Scenario.merged "T"));
               ClickCapture (Scenario.tap "S2" (Scenario.merged "T"));
               ClickCapture (Scenario.tap "S3" (Scenario.merged "T"))] in
  let first := session (Some Scenario.employee_1001) taps mounted [] in
  let closed := handleClose (state first) (log first) in
  let second := dispatch (Some Scenario.employee_1002)
                  (DialogOpens Scenario.device_ready) (state closed) (log closed) in
  let fired := autoCloseTimer (state second) (log second) in
  (out first = Returned tt /\
   success (state first) = true /\
   timers (log first) = [onSuccess]) /\
  (out closed = Returned tt /\
   log closed = (log first ++ [Call onClose])%list) /\
  (out second = Returned tt /\
   render (Some Scenario.employee_1002) (state second) = ReadyView /\
   templates (state second) = [] /\
   success (state second) = false /\
   log second = (log closed ++ [Fetch GET_health])%list) /\
  (out fired = Returned tt /\
   state fired = state second /\
   log fired = (log second ++ [Call onSuccess])%list) /\
  forall (employee : option Employee) (health : reply Health.data)
         (s : dialog) (l : list effect),
    capturing (state (dispatch employee (DialogOpens health) s l)) = capturing s.
Proof.
  cbv zeta.
  split; [vm_compute; auto|].
  split; [vm_compute; auto|].
  split; [vm_compute; auto|].
  split; [vm_compute; auto|].
  intros employee health s l. rewrite dispatch_opens. reflexivity.
Qed.

Lemma merges_app (l l' : list effect) :
  merges (l ++ l') = (merges l ++ merges l')%list.
Proof.
  induction l as [|x l IH]; [reflexivity|].
  destruct x as [rq|cb ms|cb]; cbn; try apply IH.
  destruct rq; cbn; rewrite ?IH; reflexivity.
Qed.

(** [saveFingerprint] never throws, leaves the samples alone and sends the
    merge request first, with the list it was given; nothing after it is a
    merge.  It keeps the step, unless the merge or the upload failed: then
    the step is 2 and the error is set. *)
Lemma saveFingerprint_frame (e : Employee) (ts : list (option string))
      (sv : services) (s : dialog) (l : list effect) :
  let r := saveFingerprint (Some e) ts sv s l in
  (out r = Returned tt \/ out r = Pending) /\
  templates (state r) = templates s /\
  templatesRef (state r) = templatesRef s /\
  scannerConnected (state r) = scannerConnected s /\
  checkingScanner (state r) = checkingScanner s /\
  (activeStep (state r) = activeStep s /\ error (state r) = None \/
   activeStep (state r) = 2 /\
   exists msg, error (state r) = Some msg /\ JS.truthy_string msg = true) /\
  exists rest,
    log r = (l ++ Fetch (POST_enroll (employeeId e) ts) :: rest)%list /\
    merges rest = [].
Proof.
  destruct s, sv as [c en sa]; unfold saveFingerprint, Enrollment.enroll, Enrollment.save.
  crunch_dialog; (split; [auto|]); (repeat (split; [reflexivity|]));
    (split;
     [ first [ left; split; reflexivity
             | right; split; [reflexivity|]; eexists; split; [reflexivity|];
               first [reflexivity | apply or_default_truthy; reflexivity] ]
     | rewrite <- ?app_assoc; cbn [app]; eexists; (split; [reflexivity | reflexivity]) ]).
Qed.

(** A capture that fails or times out: only the error, the status line, the
    countdown and the busy flag change. *)
Lemma captureFingerprint_failure (employee : option Employee) (sv : services)
      (s : dialog) (l : list effect) :
  capture_end_of (capture sv) = CaptureTimeout \/
  capture_end_of (capture sv) = CaptureFailed ->
  exists msg,
    JS.truthy_string msg = true /\
    captureFingerprint employee sv s l =
    {| out := Returned tt;
       state := {|
         activeStep := activeStep s; capturing := false; saving := saving s;
         templates := templates s; error := Some msg; success := success s;
         scannerConnected := scannerConnected s;
         checkingScanner := checkingScanner s;
         statusMessage := ""; countdown := 0;
         templatesRef := templatesRef s |};
       log := l ++ [Fetch POST_capture] |}.
Proof.
  destruct s, sv as [c en sa]; unfold captureFingerprint, Enrollment.capture, capture_end_of.
  intros H.
  destruct c as [|after why|after [st [d|text why]]]; cbn [payload] in H;
    try destruct (after <? CAPTURE_TIMEOUT)%N eqn:Hafter;
    try destruct (Capture.success d) eqn:Hd;
    try (destruct H; discriminate);
    run_dialog; rewrite ?Hafter; run_dialog; rewrite ?Hd; run_dialog;
    eexists; (split; [|reflexivity]);
    try reflexivity; apply or_default_truthy; reflexivity.
Qed.

(** A capture that yields a sample while fewer than two are held: the
    sample is appended and the step moves on; no merge is requested. *)
Lemma captureFingerprint_next (employee : option Employee) (sv : services)
      (s : dialog) (l : list effect) (t : option string) :
  capture_end_of (capture sv) = Captured t ->
  List.length (templatesRef s) < 2 ->
  captureFingerprint employee sv s l =
  {| out := Returned tt;
     state := {|
       activeStep := S (List.length (templatesRef s));
       capturing := false; saving := saving s;
       templates := templatesRef s ++ [t]; error := None; success := success s;
       scannerConnected := scannerConnected s;
       checkingScanner := checkingScanner s;
       statusMessage := "Lift finger, then place again for next capture";
       countdown := 0;
       templatesRef := templatesRef s ++ [t] |};
     log := l ++ [Fetch POST_capture] |}.
Proof.
  destruct s, sv as [c en sa]; unfold captureFingerprint, Enrollment.capture, capture_end_of.
  cbn [templatesRef]. intros H Hlen.
  assert (Hlt : (List.length (templatesRef0 ++ [t]) <? 3)%nat = true).
  { apply Nat.ltb_lt. rewrite length_app. cbn. lia. }
  assert (Hl : List.length (templatesRef0 ++ [t]) = S (List.length templatesRef0)).
  { rewrite length_app. cbn. lia. }
  destruct c as [|after why|after [st [d|text why]]]; cbn [payload] in H;
    try destruct (after <? CAPTURE_TIMEOUT)%N eqn:Hafter;
    try destruct (Capture.success d) eqn:Hd;
    try discriminate.
  injection H as H.
  run_dialog; rewrite ?Hafter; run_dialog; rewrite ?Hd; run_dialog.
  rewrite H, Hlt. run_dialog. rewrite Hl.
  reflexivity.
Qed.

(** A capture that yields a sample when two or more are held: the sample
    is appended and [saveFingerprint] is called with the whole list, so the
    merge request carries every sample held, old and new.  The step is 3,
    unless the merge or the upload failed. *)
Lemma captureFingerprint_last (e : Employee) (sv : services)
      (s : dialog) (l : list effect) (t : option string) :
  capture_end_of (capture sv) = Captured t ->
  2 <= List.length (templatesRef s) ->
  let r := captureFingerprint (Some e) sv s l in
  (out r = Returned tt \/ out r = Pending) /\
  templates (state r) = (templatesRef s ++ [t])%list /\
  templatesRef (state r) = (templatesRef s ++ [t])%list /\
  scannerConnected (state r) = scannerConnected s /\
  checkingScanner (state r) = checkingScanner s /\
  (activeStep (state r) = 3 /\ error (state r) = None \/
   activeStep (state r) = 2 /\
   exists msg, error (state r) = Some msg /\ JS.truthy_string msg = true) /\
  exists rest,
    log r = (l ++ Fetch POST_capture
               :: Fetch (POST_enroll (employeeId e) (templatesRef s ++ [t])) :: rest)%list /\
    merges rest = [].
Proof.
  destruct s, sv as [c en sa]; unfold captureFingerprint, Enrollment.capture, capture_end_of.
  cbn [templatesRef]. intros H Hlen.
  assert (Hlt : (List.length (templatesRef0 ++ [t]) <? 3)%nat = false).
  { apply Nat.ltb_ge. rewrite length_app. cbn. lia. }
  destruct c as [|after why|after [st [d|text why]]]; cbn [payload] in H;
    try destruct (after <? CAPTURE_TIMEOUT)%N eqn:Hafter;
    try destruct (Capture.success d) eqn:Hd;
    try discriminate.
  injection H as H.
  run_dialog; rewrite ?Hafter; run_dialog; rewrite ?Hd; run_dialog.
  rewrite H, Hlt. run_dialog.
  match goal with
  | |- context [saveFingerprint (Some e) ?ts ?sv ?s ?l] =>
      pose proof (saveFingerprint_frame e ts sv s l) as F;
      destruct (saveFingerprint (Some e) ts sv s l) as [o s' l'] eqn:E
  end.
  cbv zeta in F. cbn [out state log] in F.
  destruct F as (Fo & Ft & Fr & Fc & Fk & Fa & rest & Fl & Fm).
  destruct s';
    cbn [templates templatesRef scannerConnected checkingScanner activeStep error]
      in Ft, Fr, Fc, Fk, Fa.
  subst. rewrite <- app_assoc. cbn [app].
  destruct Fo; subst o; run_dialog; (split; [auto|]); (repeat (split; [reflexivity|]));
    (split; [exact Fa | exists rest; (split; [reflexivity|exact Fm])]).
Qed.

Lemma render_ready (e : Employee) (s : dialog) :
  render (Some e) s = ReadyView ->
  checkingScanner s = false /\ scannerConnected s = true /\ success s = false /\
  capturing s = false /\ saving s = false.
Proof.
  unfold render.
  destruct (checkingScanner s), (scannerConnected s), (success s), (error s) as [m|],
    (capturing s), (saving s); cbn; try discriminate;
    try destruct (JS.truthy_string m); cbn; try discriminate; auto.
Qed.

(** The three clicks, when their button is on screen. *)
Lemma dispatch_capture employee sv s l :
  render employee s = ReadyView ->
  dispatch employee (ClickCapture sv) s l =
  bind (captureFingerprint employee sv) (fun _ => syncRefEffect) s l.
Proof.
  intros H. cbv beta iota delta [dispatch bind gets]. rewrite H. reflexivity.
Qed.

Lemma dispatch_retry_capture employee sv s l :
  render employee s = ErrorView ->
  retryCaptureShown s = true ->
  dispatch employee (ClickRetryCapture sv) s l =
  bind (captureFingerprint employee sv) (fun _ => syncRefEffect) s l.
Proof.
  intros H H'. cbv beta iota delta [dispatch bind gets]. rewrite H, H'. reflexivity.
Qed.

Lemma dispatch_start_over employee s l :
  render employee s = ErrorView ->
  dispatch employee ClickStartOver s l =
  bind handleRetry (fun _ => syncRefEffect) s l.
Proof.
  intros H. cbv beta iota delta [dispatch bind gets]. rewrite H. reflexivity.
Qed.


(** The effect on [templates] changes nothing when the handler left the ref
    in step with the state. *)
Lemma sync_noop (m : M dialog unit) (s : dialog) (l : list effect) :
  (out (m s l) = Returned tt \/ out (m s l) = Pending) ->
  templatesRef (state (m s l)) = templates (state (m s l)) ->
  bind m (fun _ => syncRefEffect) s l = m s l.
Proof.
  unfold bind. destruct (m s l) as [o s' l']. destruct s'. dialog_fields.
  intros [->| ->] Hr; subst; [run_dialog|]; reflexivity.
Qed.

(** X4. In the enrollment dialog a capture that gets no answer within
    [CAPTURE_TIMEOUT] ends with the timeout message as the error, the busy
    flag cleared and no request other than the capture. *)
Theorem dialog_capture_timeout_reported :
  forall (employee : option Employee) (sv : services) (s : dialog) (l : list effect),
    capture_end_of (capture sv) = CaptureTimeout ->
    let r := captureFingerprint employee sv s l in
    out r = Returned tt /\
    error (state r) = Some "Capture timeout - no finger detected. Click to try again." /\
    capturing (state r) = false /\
    requests (log r) = (requests l ++ [POST_capture])%list.
Proof.
  intros employee sv s l H.
  destruct s, sv as [c en sa]; unfold captureFingerprint, Enrollment.capture, capture_end_of in *.
  assert (Hrq : forall l0, requests (l0 ++ [Fetch POST_capture]) = (requests l0 ++ [POST_capture])%list).
  { induction l0 as [|[rq|cb ms|cb] l0 IH]; cbn; rewrite ?IH; reflexivity. }
  destruct c as [|after why|after [st [d|text why]]]; cbn [payload] in H;
    try destruct (after <? CAPTURE_TIMEOUT)%N eqn:Hafter;
    try destruct (Capture.success d) eqn:Hd;
    try discriminate;
    run_dialog; rewrite ?Hafter; run_dialog; rewrite Hrq; repeat split; reflexivity.
Qed.

(** X4 for an answer that comes after 20 seconds. *)
Lemma dialog_capture_timeout_reported_after_20s :
  error (state (captureFingerprint (Some Scenario.employee_1001)
                  {| capture := Scenario.captured 20000 "S"; enroll := Never; save := Never |}
                  mounted []))
  = Some "Capture timeout - no finger detected. Click to try again.".
Proof.
  pose proof (dialog_capture_timeout_reported (Some Scenario.employee_1001)
    {| capture := Scenario.captured 20000 "S"; enroll := Never; save := Never |}
    mounted [] eq_refl) as H.
  cbv zeta in H. destruct H as (_ & H & _). exact H.
Defined.

(** *** Every merge request carries at least three samples *)

Lemma captureFingerprint_merges (employee : option Employee) (sv : services)
      (s : dialog) (l : list effect) :
  exists extra,
    merges (log (captureFingerprint employee sv s l)) = (merges l ++ extra)%list /\
    Forall enough extra.
Proof.
  destruct (capture_end_of (capture sv)) as [| |t] eqn:E.
  1,2: destruct (captureFingerprint_failure employee sv s l) as (msg & _ & R);
       [auto|]; rewrite R; cbn [log]; rewrite merges_app; exists []; auto.
  destruct (Nat.lt_ge_cases (List.length (templatesRef s)) 2) as [Hlt|Hge].
  - rewrite captureFingerprint_next with (t := t) by assumption.
    cbn [log]. rewrite merges_app. exists []. auto.
  - destruct employee as [e|].
    + destruct (captureFingerprint_last e sv s l t E Hge)
        as (_ & _ & _ & _ & _ & _ & rest & Hl & Hm).
      rewrite Hl, merges_app. cbn [merges]. rewrite Hm.
      exists [(templatesRef s ++ [t])%list]. split; [reflexivity|].
      constructor; [|constructor]. unfold enough. rewrite length_app. cbn. lia.
    + exists []. rewrite app_nil_r. split; [|constructor].
      destruct s, sv as [c en sa]; unfold captureFingerprint, saveFingerprint;
        crunch_dialog; rewrite ?merges_app; cbn [merges]; rewrite ?app_nil_r; reflexivity.
Qed.

Lemma dispatch_merges (employee : option Employee) (ev : event)
      (s : dialog) (l : list effect) :
  exists extra,
    merges (log (dispatch employee ev s l)) = (merges l ++ extra)%list /\
    Forall enough extra.
Proof.
  assert (Hcap : forall sv,
    exists extra,
      merges (log (bind (captureFingerprint employee sv) (fun _ => syncRefEffect) s l))
      = (merges l ++ extra)%list /\ Forall enough extra).
  { intros sv. destruct (captureFingerprint_merges employee sv s l) as (extra & Hm & Hf).
    exists extra. split; [|exact Hf]. unfold bind.
    destruct (captureFingerprint employee sv s l) as [[[]|e|] s' l']; cbn [log] in *;
      exact Hm. }
  assert (Hnone : exists extra, merges l = (merges l ++ extra)%list /\ Forall enough extra).
  { exists []. rewrite app_nil_r. auto. }
  destruct ev as [health|health|sv|sv|].
  - rewrite dispatch_opens. cbn [log]. rewrite merges_app. exists []. auto.
  - unfold dispatch. cbv beta iota zeta delta [bind gets].
    destruct (render employee s); try (destruct s; run_dialog; exact Hnone).
    rewrite checkScanner_settles. run_dialog. rewrite merges_app. exists []. auto.
  - destruct (render employee s) eqn:R;
      try (unfold dispatch; cbv beta iota zeta delta [bind gets]; rewrite R;
           destruct s; run_dialog; exact Hnone).
    rewrite dispatch_capture by exact R. apply Hcap.
  - destruct (render employee s) eqn:R;
      try (unfold dispatch; cbv beta iota zeta delta [bind gets]; rewrite R;
           destruct s; run_dialog; exact Hnone).
    destruct (retryCaptureShown s) eqn:Sh.
    + rewrite dispatch_retry_capture by assumption. apply Hcap.
    + unfold dispatch; cbv beta iota zeta delta [bind gets]; rewrite R, Sh;
        destruct s; run_dialog; exact Hnone.
  - unfold dispatch. cbv beta iota zeta delta [bind gets].
    destruct (render employee s); destruct s; run_dialog; exact Hnone.
Qed.

Lemma session_merges (employee : option Employee) (evs : list event) :
  forall (s : dialog) (l : list effect),
    Forall enough (merges l) ->
    Forall enough (merges (log (session employee evs s l))).
Proof.
  induction evs as [|ev evs IH]; intros s l Hl; [exact Hl|].
  cbn [session]. unfold bind.
  destruct (dispatch_merges employee ev s l) as (extra & Hm & Hf).
  destruct (dispatch employee ev s l) as [[[]|e|] s' l']; cbn [log] in *.
  - apply IH. rewrite Hm. apply Forall_app. auto.
  - rewrite Hm. apply Forall_app. auto.
  - rewrite Hm. apply Forall_app. auto.
Qed.


(** X1. Whatever the user clicks and whatever the services answer, from any
    state of the dialog, every merge request carries at least three
    samples. *)
Theorem merge_never_sent_fewer_than_three :
  forall (employee : option Employee) (evs : list event) (s : dialog),
    Forall enough (merges (log (run (session employee evs) s))).
Proof.
  intros. apply session_merges. constructor.
Qed.

(** Three successful captures from the ready view with no sample held: the
    three samples are held in capture order and the requests sent are the
    three captures and then one merge, of exactly those samples. *)
Lemma three_captures_from_empty (e : Employee) (sv1 sv2 sv3 : services)
      (t1 t2 t3 : option string) (s : dialog) (l : list effect) :
  render (Some e) s = ReadyView ->
  templatesRef s = [] ->
  capture_end_of (capture sv1) = Captured t1 ->
  capture_end_of (capture sv2) = Captured t2 ->
  capture_end_of (capture sv3) = Captured t3 ->
  let r := session (Some e) [ClickCapture sv1; ClickCapture sv2; ClickCapture sv3] s l in
  templates (state r) = [t1; t2; t3] /\
  exists rest,
    log r = (l ++ Fetch POST_capture :: Fetch POST_capture :: Fetch POST_capture
               :: Fetch (POST_enroll (employeeId e) [t1; t2; t3]) :: rest)%list /\
    merges rest = [].
Proof.
  intros Hready Href H1 H2 H3 r. unfold r.
  pose proof (render_ready e s Hready) as (Hc & Hs & Hsu & Hca & Hsa).
  cbn [session].
  erewrite bind_returned.
  2:{ rewrite dispatch_capture by exact Hready.
      rewrite sync_noop; rewrite captureFingerprint_next with (t := t1)
        by (assumption || (rewrite Href; cbn; lia));
        cbn; auto. }
  rewrite Href, Hc, Hs, Hsu, Hsa.
  erewrite bind_returned.
  2:{ rewrite dispatch_capture by reflexivity.
      rewrite sync_noop; rewrite captureFingerprint_next with (t := t2)
        by (assumption || (cbn; lia));
        cbn; auto. }
  cbn [activeStep capturing saving templates error success scannerConnected
       checkingScanner statusMessage countdown templatesRef List.length app].
  rewrite bind_ret_unit.
  match goal with
  | |- context [dispatch (Some e) (ClickCapture sv3) ?s ?l] =>
      pose proof (captureFingerprint_last e sv3 s l t3 H3) as F;
      assert (D : dispatch (Some e) (ClickCapture sv3) s l
                  = captureFingerprint (Some e) sv3 s l)
  end.
  { rewrite dispatch_capture by reflexivity.
    cbv zeta in F. destruct F as (Fo & Ft & Fr & _); [cbn; lia|].
    apply sync_noop; [exact Fo | rewrite Ft, Fr; reflexivity]. }
  cbv zeta in F. destruct F as (_ & Ft & _ & _ & _ & _ & rest & Fl & Fm); [cbn; lia|].
  rewrite D. cbn [templatesRef app] in Ft, Fl. rewrite Ft, Fl.
  split; [reflexivity|].
  exists rest. rewrite <- !app_assoc. cbn [app]. auto.
Qed.

(** X2. A dialog that opens with the scanner connected and takes three
    successful captures sends one merge request, with exactly the three
    samples in capture order, after exactly three capture requests. *)
Theorem three_captures_then_one_merge :
  forall (e : Employee) (health : reply Health.data) (sv1 sv2 sv3 : services)
         (t1 t2 t3 : option string) (s : dialog),
    capturing s = false ->
    connected health = true ->
    capture_end_of (capture sv1) = Captured t1 ->
    capture_end_of (capture sv2) = Captured t2 ->
    capture_end_of (capture sv3) = Captured t3 ->
    let r := run (session (Some e)
                    [DialogOpens health; ClickCapture sv1; ClickCapture sv2;
                     ClickCapture sv3]) s in
    merges (log r) = [[t1; t2; t3]] /\
    templates (state r) = [t1; t2; t3] /\
    exists rest,
      requests (log r)
      = GET_health :: POST_capture :: POST_capture :: POST_capture
          :: POST_enroll (employeeId e) [t1; t2; t3] :: rest.
Proof.
  intros e health sv1 sv2 sv3 t1 t2 t3 s Hc Hh H1 H2 H3 r. unfold r, run.
  change (session (Some e) (DialogOpens health :: ?evs))
    with (bind (dispatch (Some e) (DialogOpens health))
               (fun _ => session (Some e) evs)).
  erewrite bind_returned by apply dispatch_opens.
  rewrite Hc, Hh.
  match goal with
  | |- context [session (Some e) _ ?s ?l] =>
      destruct (three_captures_from_empty e sv1 sv2 sv3 t1 t2 t3 s l
                  eq_refl eq_refl H1 H2 H3) as (Ht & rest & Hl & Hm)
  end.
  rewrite Ht, Hl. cbn. rewrite Hm.
  split; [reflexivity | split; [reflexivity|]].
  exists (requests rest). reflexivity.
Qed.

Lemma render_error (e : Employee) (s : dialog) :
  render (Some e) s = ErrorView ->
  checkingScanner s = false /\ scannerConnected s = true /\ success s = false.
Proof.
  unfold render.
  destruct (checkingScanner s), (scannerConnected s), (success s), (error s) as [m|],
    (capturing s), (saving s); cbn; try discriminate;
    try destruct (JS.truthy_string m); cbn; try discriminate; auto.
Qed.

(** A capture that fails or times out, through whichever button offers it:
    the samples, the ref and the step stay, and the error view is shown. *)
Lemma failed_capture_click (e : Employee) (k : nat) (s : dialog) (l : list effect)
      (sv : services) :
  1 <= k <= 3 ->
  awaiting k s ->
  capturing s = false -> saving s = false ->
  render (Some e) s = ReadyView \/ render (Some e) s = ErrorView ->
  capture_end_of (capture sv) = CaptureTimeout \/
  capture_end_of (capture sv) = CaptureFailed ->
  exists msg,
    JS.truthy_string msg = true /\
    session (Some e) (capture_click (Some e) s sv) s l =
    {| out := Returned tt;
       state := {|
         activeStep := k - 1; capturing := false; saving := false;
         templates := templates s; error := Some msg; success := false;
         scannerConnected := true; checkingScanner := false;
         statusMessage := ""; countdown := 0;
         templatesRef := templates s |};
       log := l ++ [Fetch POST_capture] |}.
Proof.
  intros Hk (Hstep & Hlen & Href) Hca Hsa Hview Hfail.
  assert (Hfacts : checkingScanner s = false /\ scannerConnected s = true /\
                   success s = false).
  { destruct Hview as [H|H]; [apply render_ready in H | apply render_error in H];
      tauto. }
  destruct Hfacts as (Hch & Hco & Hsu).
  unfold capture_click.
  destruct Hview as [Hview|Hview]; rewrite Hview.
  - (* the capture button *)
    destruct (captureFingerprint_failure (Some e) sv s l Hfail) as (msg & Hmsg & E1).
    exists msg. split; [exact Hmsg|].
    cbn [session]. rewrite bind_ret_unit, (dispatch_capture _ _ _ _ Hview).
    rewrite sync_noop; rewrite E1; cbn [out state templates templatesRef]; auto.
    destruct s; dialog_fields; subst. reflexivity.
  - (* the error view *)
    unfold retry.
    destruct (retryCaptureShown s) eqn:Hshown.
    + (* "Retry Capture k" *)
      destruct (captureFingerprint_failure (Some e) sv s l Hfail) as (msg & Hmsg & E1).
      exists msg. split; [exact Hmsg|].
      cbn [session]. rewrite bind_ret_unit, (dispatch_retry_capture _ _ _ _ Hview Hshown).
      rewrite sync_noop; rewrite E1; cbn [out state templates templatesRef]; auto.
      destruct s; dialog_fields; subst. reflexivity.
    + (* no sample held: "Start Over", then the capture button *)
      destruct s; dialog_fields; subst.
      unfold retryCaptureShown in Hshown; cbn [activeStep templates] in Hshown.
      assert (Hnil : templates0 = []).
      { destruct templates0 as [|t0 ts]; [reflexivity|]. cbn [List.length] in *.
        replace (k - 1 <? 3)%nat with true in Hshown
          by (symmetry; apply Nat.ltb_lt; lia).
        cbn in Hshown. discriminate. }
      subst templates0. cbn [List.length] in Hlen. rewrite <- Hlen in *.
      set (s0 := {| activeStep := 0; capturing := false; saving := false;
                    templates := []; error := None; success := false;
                    scannerConnected := true; checkingScanner := false;
                    statusMessage := ""; countdown := 0; templatesRef := [] |}).
      destruct (captureFingerprint_failure (Some e) sv s0 l Hfail) as (msg & Hmsg & E1).
      exists msg. split; [exact Hmsg|].
      cbn [session].
      rewrite bind_returned with (a := tt) (s' := s0) (l' := l).
      2:{ rewrite dispatch_start_over by exact Hview. run_dialog. reflexivity. }
      rewrite bind_ret_unit, dispatch_capture by reflexivity.
      rewrite sync_noop; rewrite E1; cbn [out state templates templatesRef s0]; auto.
Qed.


(** C8. A session awaiting capture [k] of 3, with the [k-1] earlier samples
    held and no capture or save in flight, wherever a capture can be started
    from: the capture button of the ready view, or the error view that an
    earlier failure left ("Retry Capture k", or "Start Over" and the capture
    button when no sample is held yet).  A capture that fails or times out
    leaves the samples, the ref and the step as they were, leaves the session
    awaiting capture [k] with nothing in flight, and shows the error view: so
    the same holds of the next failure, and of any number of failures in a
    row.  The retry that view offers, once its capture succeeds, holds the
    earlier samples followed by the new one.  Below the third capture the
    dialog is then ready at step [k] and no merge was requested; at the
    third the merge is requested with the three samples and the step is 3
    ("Saving"), unless that merge or the upload fails, which puts the dialog
    at step 2 with the error set. *)
Theorem capture_failure_keeps_samples :
  forall (e : Employee) (k : nat) (s : dialog) (l : list effect)
         (sv sv' : services) (t : option string),
    1 <= k <= 3 ->
    awaiting k s ->
    capturing s = false ->
    saving s = false ->
    render (Some e) s = ReadyView \/ render (Some e) s = ErrorView ->
    capture_end_of (capture sv) = CaptureTimeout \/
    capture_end_of (capture sv) = CaptureFailed ->
    capture_end_of (capture sv') = Captured t ->
    let r1 := session (Some e) (capture_click (Some e) s sv) s l in
    let r2 := session (Some e) (retry (state r1) sv') (state r1) (log r1) in
    (out r1 = Returned tt /\
     awaiting k (state r1) /\
     capturing (state r1) = false /\
     saving (state r1) = false /\
     templates (state r1) = templates s /\
     templatesRef (state r1) = templates s /\
     activeStep (state r1) = k - 1 /\
     render (Some e) (state r1) = ErrorView /\
     merges (log r1) = merges l) /\
    templates (state r2) = (templates s ++ [t])%list /\
    templatesRef (state r2) = (templates s ++ [t])%list /\
    if (k <? 3)%nat then
      out r2 = Returned tt /\
      activeStep (state r2) = k /\
      render (Some e) (state r2) = ReadyView /\
      merges (log r2) = merges l
    else
      merges (log r2) = (merges l ++ [templates s ++ [t]])%list /\
      (activeStep (state r2) = 3 /\ error (state r2) = None \/
       activeStep (state r2) = 2 /\
       exists msg, error (state r2) = Some msg /\ JS.truthy_string msg = true).
Proof.
  intros e k s l sv sv' t Hk Haw Hca Hsa Hview Hfail Hok r1 r2.
  destruct (failed_capture_click e k s l sv Hk Haw Hca Hsa Hview Hfail)
    as (msg & Hmsg & R1).
  fold r1 in R1.
  destruct Haw as (Hstep & Hlen & Href).
  clear Hview Hca Hsa Hstep Href.
  assert (Herr : forall a ts ts',
             render (Some e)
               {| activeStep := a; capturing := false; saving := false;
                  templates := ts; error := Some msg; success := false;
                  scannerConnected := true; checkingScanner := false;
                  statusMessage := ""; countdown := 0; templatesRef := ts' |} = ErrorView).
  { intros. cbn. rewrite Hmsg. reflexivity. }
  assert (Hrdy : forall a ts ts' st,
             render (Some e)
               {| activeStep := a; capturing := false; saving := false;
                  templates := ts; error := None; success := false;
                  scannerConnected := true; checkingScanner := false;
                  statusMessage := st; countdown := 0; templatesRef := ts' |} = ReadyView).
  { reflexivity. }
  split.
  { rewrite R1. unfold awaiting.
    cbn [out state log templates templatesRef activeStep capturing saving].
    rewrite Herr, merges_app. cbn [merges app]. rewrite app_nil_r.
    split; [reflexivity|].
    split; [split; [reflexivity|split; [exact Hlen|reflexivity]]|].
    repeat (split; [reflexivity|]). reflexivity. }
  unfold r2. rewrite R1. cbn [state log]. clear r1 r2 R1.
  generalize dependent (templates s). intros templates0 Hlen.
  assert (Hk3 : k = 1 \/ k = 2 \/ k = 3) by lia.
  destruct Hk3 as [-> | [-> | ->]]; cbn in Hlen;
    cbn [retry retryCaptureShown activeStep templates Nat.sub].
  - (* capture 1: "Start Over", then the capture button *)
    destruct templates0; [|discriminate].
    cbn [retry retryCaptureShown activeStep templates Nat.sub List.length Nat.ltb Nat.leb andb session].
    rewrite bind_returned with (a := tt) (s' := {| activeStep := 0; capturing := false; saving := false;
                  templates := []; error := None; success := false;
                  scannerConnected := true; checkingScanner := false;
                  statusMessage := ""; countdown := 0; templatesRef := [] |})
      (l' := (l ++ [Fetch POST_capture])%list).
    2:{ rewrite dispatch_start_over by apply Herr. reflexivity. }
    rewrite bind_returned with (a := tt) (s' := {| activeStep := 1; capturing := false; saving := false;
                  templates := [t]; error := None; success := false;
                  scannerConnected := true; checkingScanner := false;
                  statusMessage := "Lift finger, then place again for next capture";
                  countdown := 0; templatesRef := [t] |})
      (l' := ((l ++ [Fetch POST_capture]) ++ [Fetch POST_capture])%list).
    2:{ rewrite dispatch_capture by apply Hrdy.
        rewrite sync_noop;
          rewrite captureFingerprint_next with (t := t) by (exact Hok || (cbn; lia));
          cbn; auto. }
    cbn. rewrite !merges_app. cbn. rewrite !app_nil_r. repeat split; reflexivity.
  - (* capture 2: "Retry Capture 2" *)
    destruct templates0 as [|t1 [|? ?]]; try discriminate.
    cbn [retry retryCaptureShown activeStep templates Nat.sub List.length Nat.ltb Nat.leb andb session].
    rewrite bind_returned with (a := tt) (s' := {| activeStep := 2; capturing := false; saving := false;
                  templates := [t1; t]; error := None; success := false;
                  scannerConnected := true; checkingScanner := false;
                  statusMessage := "Lift finger, then place again for next capture";
                  countdown := 0; templatesRef := [t1; t] |})
      (l' := ((l ++ [Fetch POST_capture]) ++ [Fetch POST_capture])%list).
    2:{ rewrite dispatch_retry_capture by (apply Herr || reflexivity).
        rewrite sync_noop;
          rewrite captureFingerprint_next with (t := t) by (exact Hok || (cbn; lia));
          cbn; auto. }
    cbn. rewrite !merges_app. cbn. rewrite !app_nil_r. repeat split; reflexivity.
  - (* capture 3: "Retry Capture 3", which goes on to the merge *)
    destruct templates0 as [|t1 [|t2 [|? ?]]]; try discriminate.
    cbn [retry retryCaptureShown activeStep templates Nat.sub List.length Nat.ltb Nat.leb andb session].
    match goal with
    | |- context [bind (dispatch (Some e) (ClickRetryCapture sv')) _ ?s ?l] =>
        pose proof (captureFingerprint_last e sv' s l t Hok) as F;
        assert (D : dispatch (Some e) (ClickRetryCapture sv') s l
                    = captureFingerprint (Some e) sv' s l)
    end.
    { rewrite dispatch_retry_capture by (apply Herr || reflexivity).
      cbv zeta in F. destruct F as (Fo & Ft & Fr & _); [cbn; lia|].
      apply sync_noop; [exact Fo | rewrite Ft, Fr; reflexivity]. }
    cbv zeta in F. destruct F as (Fo & Ft & Fr & _ & _ & Fa & rest & Fl & Fm); [cbn; lia|].
    rewrite bind_ret_unit, D.
    destruct (captureFingerprint (Some e) sv' _ _) as [o s2 l2].
    cbn [out state log templatesRef] in Fo, Ft, Fr, Fl, Fa.
    assert (Hm : merges l2 = (merges l ++ [[t1; t2; t]])%list).
    { rewrite Fl, <- app_assoc, !merges_app. cbn. rewrite Fm. reflexivity. }
    cbn [state log]. rewrite Ft, Fr, Hm. auto.
Qed.

(** X5. From the error view, "Start Over" and then three successful
    captures: the one merge request that follows carries exactly the three
    new samples, whatever samples were held when the error was shown. *)
Theorem start_over_merges_only_new_samples :
  forall (e : Employee) (sv1 sv2 sv3 : services) (t1 t2 t3 : option string)
         (s : dialog) (l : list effect),
    render (Some e) s = ErrorView ->
    capturing s = false ->
    saving s = false ->
    capture_end_of (capture sv1) = Captured t1 ->
    capture_end_of (capture sv2) = Captured t2 ->
    capture_end_of (capture sv3) = Captured t3 ->
    let r := session (Some e)
               [ClickStartOver; ClickCapture sv1; ClickCapture sv2; ClickCapture sv3]
               s l in
    merges (log r) = (merges l ++ [[t1; t2; t3]])%list /\
    templates (state r) = [t1; t2; t3].
Proof.
  intros e sv1 sv2 sv3 t1 t2 t3 s l Herr Hca Hsa H1 H2 H3 r. unfold r.
  pose proof (render_error e s Herr) as (Hc & Hs & Hsu).
  change (session (Some e) (ClickStartOver :: ?evs))
    with (bind (dispatch (Some e) ClickStartOver) (fun _ => session (Some e) evs)).
  destruct s; dialog_fields; subst.
  erewrite bind_returned.
  2:{ rewrite dispatch_start_over by exact Herr. run_dialog. reflexivity. }
  match goal with
  | |- context [session (Some e) _ ?s ?l] =>
      destruct (three_captures_from_empty e sv1 sv2 sv3 t1 t2 t3 s l
                  eq_refl eq_refl H1 H2 H3) as (Ht & rest & Hl & Hm)
  end.
  rewrite Ht, Hl, merges_app. cbn. rewrite Hm. auto.
Qed.

(** C1 (where the code departs from it). Three captures, a merge that the
    device rejects, then the "Retry Capture" button that the error view
    shows: the second merge request carries four samples, the three that
    were rejected and the new one, and this enrollment is stored. *)
Theorem retry_capture_merges_four_samples :
  forall (t1 t2 t3 t4 : string),
    let failed_attempt :=
      [DialogOpens Scenario.device_ready;
       ClickCapture (Scenario.tap t1 Scenario.merge_rejected);
       ClickCapture (Scenario.tap t2 Scenario.merge_rejected);
       ClickCapture (Scenario.tap t3 Scenario.merge_rejected)] in
    let r := run (session (Some Scenario.employee_1001)
                    (failed_attempt
                       ++ [ClickRetryCapture (Scenario.tap t4 (Scenario.merged "T"))]))
                 mounted in
    merges (log r)
    = [[Some t1; Some t2; Some t3]; [Some t1; Some t2; Some t3; Some t4]] /\
    success (state r) = true.
Proof. intros. vm_compute. split; reflexivity. Qed.

(** C2 (where the code departs from it). After a rejected merge the dialog
    is left at step 2 still holding the three samples, with the error view
    offering "Retry Capture"; the merge request of that retry contains each
    sample of the rejected attempt. *)
Theorem retry_capture_keeps_rejected_samples :
  forall (t1 t2 t3 t4 : string),
    let failed_attempt :=
      [DialogOpens Scenario.device_ready;
       ClickCapture (Scenario.tap t1 Scenario.merge_rejected);
       ClickCapture (Scenario.tap t2 Scenario.merge_rejected);
       ClickCapture (Scenario.tap t3 Scenario.merge_rejected)] in
    let r := run (session (Some Scenario.employee_1001) failed_attempt) mounted in
    let r' := session (Some Scenario.employee_1001)
                [ClickRetryCapture (Scenario.tap t4 (Scenario.merged "T"))]
                (state r) (log r) in
    (error (state r) = Some "Templates do not match" /\
     render (Some Scenario.employee_1001) (state r) = ErrorView /\
     retryCaptureShown (state r) = true /\
     activeStep (state r) = 2 /\
     templates (state r) = [Some t1; Some t2; Some t3]) /\
    exists ts,
      merges (log r') = (merges (log r) ++ [ts])%list /\
      In (Some t1) ts /\ In (Some t2) ts /\ In (Some t3) ts.
Proof.
  intros. split; [vm_compute; repeat split; reflexivity|].
  exists [Some t1; Some t2; Some t3; Some t4].
  split; [vm_compute; reflexivity|]. cbn. repeat split; auto 6.
Qed.

(** X2 for employee 1001 and the samples S1, S2, S3. *)
Lemma three_captures_then_one_merge_for_1001 :
  merges (log (run (session (Some Scenario.employee_1001)
                      [DialogOpens Scenario.device_ready;
                       ClickCapture (Scenario.tap "S1" (Scenario.merged "T"));
                       ClickCapture (Scenario.tap "S2" (Scenario.merged "T"));
                       ClickCapture (Scenario.tap "S3" (Scenario.merged "T"))])
                   mounted))
  = [[Some "S1"; Some "S2"; Some "S3"]].
Proof.
  pose proof (three_captures_then_one_merge Scenario.employee_1001 Scenario.device_ready
    (Scenario.tap "S1" (Scenario.merged "T")) (Scenario.tap "S2" (Scenario.merged "T"))
    (Scenario.tap "S3" (Scenario.merged "T")) (Some "S1") (Some "S2") (Some "S3")
    mounted eq_refl eq_refl eq_refl eq_refl eq_refl) as H.
  cbv zeta in H. destruct H as (H & _). exact H.
Defined.

(** X5 after the rejected merge of S1, S2, S3: "Start Over", then S4, S5,
    S6. *)
Lemma start_over_merges_only_new_samples_after_rejection :
  let failed_attempt :=
    [DialogOpens Scenario.device_ready;
     ClickCapture (Scenario.tap "S1" Scenario.merge_rejected);
     ClickCapture (Scenario.tap "S2" Scenario.merge_rejected);
     ClickCapture (Scenario.tap "S3" Scenario.merge_rejected)] in
  let r := run (session (Some Scenario.employee_1001) failed_attempt) mounted in
  merges (log (session (Some Scenario.employee_1001)
                 [ClickStartOver;
                  ClickCapture (Scenario.tap "S4" (Scenario.merged "T"));
                  ClickCapture (Scenario.tap "S5" (Scenario.merged "T"));
                  ClickCapture (Scenario.tap "S6" (Scenario.merged "T"))]
                 (state r) (log r)))
  = [[Some "S1"; Some "S2"; Some "S3"]; [Some "S4"; Some "S5"; Some "S6"]].
Proof.
  cbv zeta.
  pose proof (start_over_merges_only_new_samples Scenario.employee_1001
    (Scenario.tap "S4" (Scenario.merged "T")) (Scenario.tap "S5" (Scenario.merged "T"))
    (Scenario.tap "S6" (Scenario.merged "T")) (Some "S4") (Some "S5") (Some "S6")
    (state (run (session (Some Scenario.employee_1001)
                   [DialogOpens Scenario.device_ready;
                    ClickCapture (Scenario.tap "S1" Scenario.merge_rejected);
                    ClickCapture (Scenario.tap "S2" Scenario.merge_rejected);
                    ClickCapture (Scenario.tap "S3" Scenario.merge_rejected)]) mounted))
    (log (run (session (Some Scenario.employee_1001)
                 [DialogOpens Scenario.device_ready;
                  ClickCapture (Scenario.tap "S1" Scenario.merge_rejected);
                  ClickCapture (Scenario.tap "S2" Scenario.merge_rejected);
                  ClickCapture (Scenario.tap "S3" Scenario.merge_rejected)]) mounted))
    eq_refl eq_refl eq_refl eq_refl eq_refl eq_refl) as H.
  cbv zeta in H. destruct H as (H & _). exact H.
Defined.

(** C8 at capture 2 of 3, for a second failure in a row: the dialog shows
    the error view of a capture that timed out, with S1 held; the device
    refuses "Retry Capture 2", and S1 and the step stay; the next
    "Retry Capture 2" yields S2. *)
Lemma capture_failure_keeps_samples_at_capture_two :
  let s := {| activeStep := 1; capturing := false; saving := false;
              templates := [Some "S1"];
              error := Some "Capture timeout - no finger detected. Click to try again.";
              success := false;
              scannerConnected := true; checkingScanner := false;
              statusMessage := ""; countdown := 0; templatesRef := [Some "S1"] |} in
  let refused := {| capture := Fails 40 "Failed to fetch"; enroll := Never; save := Never |} in
  let r1 := session (Some Scenario.employee_1001)
              (capture_click (Some Scenario.employee_1001) s refused) s [] in
  let r2 := session (Some Scenario.employee_1001)
              (retry (state r1) (Scenario.tap "S2" Never)) (state r1) (log r1) in
  capture_click (Some Scenario.employee_1001) s refused = [ClickRetryCapture refused] /\
  templates (state r1) = [Some "S1"] /\
  activeStep (state r1) = 1 /\
  render (Some Scenario.employee_1001) (state r1) = ErrorView /\
  templates (state r2) = [Some "S1"; Some "S2"] /\
  activeStep (state r2) = 2.
Proof.
  pose proof (capture_failure_keeps_samples Scenario.employee_1001 2
    {| activeStep := 1; capturing := false; saving := false;
       templates := [Some "S1"];
       error := Some "Capture timeout - no finger detected. Click to try again.";
       success := false;
       scannerConnected := true; checkingScanner := false;
       statusMessage := ""; countdown := 0; templatesRef := [Some "S1"] |}
    []
    {| capture := Fails 40 "Failed to fetch"; enroll := Never; save := Never |}
    (Scenario.tap "S2" Never) (Some "S2")
    (conj (le_S 1 1 (le_n 1)) (le_S 2 2 (le_n 2)))
    (conj eq_refl (conj eq_refl eq_refl))
    eq_refl eq_refl (or_intror eq_refl) (or_intror eq_refl) eq_refl) as H.
  cbv zeta in H |- *.
  destruct H as ((_ & _ & _ & _ & H1 & _ & H2 & H3 & _) & H4 & _ & (_ & H5 & _)).
  split; [reflexivity|].
  split; [exact H1|]. split; [exact H2|]. split; [exact H3|].
  split; [exact H4|exact H5].
Defined.

End EnrollmentFacts.

(* ------------------------------------------------------------------------- *)
Module MatchFacts.

(** A double above zero is neither a zero nor a NaN, so it is truthy. *)
Lemma positive_is_truthy (x : float) :
  PrimFloat.ltb 0%float x = true -> JS.truthy (JS.number x) = true.
Proof.
  unfold JS.truthy. rewrite FloatAxioms.ltb_spec, !FloatAxioms.eqb_spec.
  change (Prim2SF 0%float) with (S754_zero false).
  destruct (Prim2SF x) as [sg|sg| |sg m e]; try destruct sg; cbn; try discriminate;
    intros _; try reflexivity.
  unfold SFeqb, SFcompare. rewrite Z.compare_refl, Pos.compare_refl. reflexivity.
Qed.

(** [score && score > 0] is truthy exactly when [score > 0] is. *)
Lemma score_and_positive (score : option float) :
  JS.truthy (JS.and (JS.of_number score) (JS.gt0 (JS.of_number score)))
  = JS.truthy (JS.gt0 (JS.of_number score)).
Proof.
  destruct score as [x|]; [|reflexivity].
  unfold JS.and, JS.of_number, JS.gt0.
  destruct (JS.truthy (JS.number x)) eqn:T; [reflexivity|].
  cbn [JS.truthy]. destruct (PrimFloat.ltb 0%float x) eqn:P; [|assumption].
  rewrite (positive_is_truthy x P) in T. discriminate.
Qed.

(** What the adapter's expression
    [data.matched === true || (data.score && data.score > 0)] amounts to. *)
Lemma match_expression (d : Match.data) :
  JS.truthy
    (JS.or (JS.boolean match Match.matched d with Some true => true | _ => false end)
           (JS.and (JS.of_number (Match.score d)) (JS.gt0 (JS.of_number (Match.score d)))))
  = (match Match.matched d with Some true => true | _ => false end
     || JS.truthy (JS.gt0 (JS.of_number (Match.score d)))).
Proof.
  unfold JS.or. rewrite <- score_and_positive.
  destruct (Match.matched d) as [[|]|]; reflexivity.
Qed.

Ltac run_verify :=
  cbv beta iota zeta delta
    [bind ret throw pending gets modify emit try_catch try_finally
     catch_default fetch json out state log payload status
     FingerprintService.verify Kiosk.verifyFingerprint];
  cbn [negb].

(** C3, amended. For every answer of the device to a match request, both
    adapters ([verify] of the service and [verifyFingerprint] of the kiosk)
    return a truthy value exactly when [success] is true and either
    [matched] is [true] or [score] is a number above zero.  So a positive
    score counts as a match even with [matched = false], and nothing counts
    when [success] is false. *)
Theorem verify_honours_both_signals :
  forall (stored captured : option string) (after : N) (st : Z) (d : Match.data)
         (svc : FingerprintService.service) (k : Kiosk.kiosk) (l : list effect),
    let m := Responds after {| status := st; payload := Json d |} in
    (exists v,
        out (FingerprintService.verify stored captured m svc l) = Returned v /\
        JS.truthy v = Match.success d && signalled d) /\
    (exists v,
        out (Kiosk.verifyFingerprint stored captured m k l) = Returned v /\
        JS.truthy v = Match.success d && signalled d).
Proof.
  intros. subst m. unfold signalled. split; run_verify;
    (destruct (Match.success d); cbn [negb andb out];
     eexists; (split; [reflexivity|]); [apply match_expression | reflexivity]).
Qed.

(** C3 fails as stated: for [{success: true, matched: false, score: 0.87}]
    [verify] returns [true]. *)
Lemma positive_score_without_matched_is_a_match :
  out (run (FingerprintService.verify (Some "T") (Some "S")
              (Scenario.match_says (Some false) (Some 0x1.bd70a3d70a3d7p-1%float)))
           {| FingerprintService._isConnected := true |})
  = Returned (JS.boolean true).
Proof. vm_compute. reflexivity. Qed.

End MatchFacts.

(* ------------------------------------------------------------------------- *)
Module KioskFacts.
Import Kiosk.

Ltac run_kiosk :=
  cbv beta iota zeta delta
    [bind ret throw pending gets modify emit try_catch try_finally
     catch_default spawn fetch json
     out state log run payload status
     setScanning setScanResult setScanMessage setLeaveSubmitting showSnackbar
     employee scanning scanResult scanMessage leaveSubmitting form snackbar
     capture template matching commit now with_matching captureFingerprint
     JS.name JS.message JS.Error JS.TypeError JS.SyntaxError negb andb orb].

Lemma verifyFingerprint_verdict stored captured m (s : kiosk) l :
  verifyFingerprint stored captured m s l =
  {| out := verdict m; state := s; log := l ++ [Fetch (POST_match stored captured)] |}.
Proof.
  unfold verifyFingerprint, verdict.
  destruct m as [|after why|after [st [d|text why]]]; run_kiosk; try reflexivity.
  destruct (Match.success d); reflexivity.
Qed.

Lemma non_match_verdict m :
  non_match m -> exists v, verdict m = Returned v /\ JS.truthy v = false.
Proof.
  intros H. destruct (H None None Scenario.at_kiosk []) as (v & Hv & Ht).
  rewrite verifyFingerprint_verdict in Hv. exists v. auto.
Qed.

Lemma infrastructure_failure_verdict m :
  infrastructure_failure m = true -> verdict m = Returned (JS.boolean false).
Proof.
  unfold infrastructure_failure, verdict.
  destruct m as [|after why|after [st [d|text why]]]; cbn; try discriminate; try reflexivity.
  destruct (Match.success d); cbn; [discriminate|reflexivity].
Qed.

(** An attempt whose match request was sent and whose verdict is falsy. *)
Lemma attempt_after_falsy_verdict (a : attempt) (sv : services) (s : kiosk)
      (stored captured : option string) (v : JS.value) :
  verdict (matching sv) = Returned v ->
  JS.truthy v = false ->
  let r := run (perform a sv) s in
  In (Fetch (POST_match stored captured)) (log r) ->
  out r = Returned tt /\
  scanResult (state r) = Some failed /\
  scanMessage (state r) = mismatch_of a /\
  scanning (state r) = false /\
  commits (log r) = [].
Proof.
  intros Hv Ht. destruct s, sv as [c tp m cm nw]. cbn [matching] in Hv.
  destruct a as [action|]; unfold perform, handleFingerprintScan,
    handleLeaveFingerPrintVerification, mismatch_of;
    repeat (run_kiosk; rewrite ?verifyFingerprint_verdict, ?Hv; run_kiosk; rewrite ?Ht;
            try split_branch);
    cbn [app In commits]; intros HIn;
    repeat (destruct HIn as [HIn|HIn]; try discriminate HIn); try contradiction;
    repeat split; reflexivity.
Qed.

(** An attempt depends on the answer to the match request through the
    truthiness of the verdict only. *)
Lemma falsy_verdicts_agree (a : attempt) (sv : services) (m1 m2 : reply Match.data)
      (s : kiosk) (l : list effect) (v1 v2 : JS.value) :
  verdict m1 = Returned v1 -> JS.truthy v1 = false ->
  verdict m2 = Returned v2 -> JS.truthy v2 = false ->
  perform a (with_matching sv m1) s l = perform a (with_matching sv m2) s l.
Proof.
  intros Hv1 Ht1 Hv2 Ht2. destruct s, sv as [c tp m cm nw].
  destruct a as [action|]; unfold perform, handleFingerprintScan,
    handleLeaveFingerPrintVerification;
    repeat (run_kiosk; rewrite ?verifyFingerprint_verdict, ?Hv1, ?Hv2; run_kiosk;
            rewrite ?Ht1, ?Ht2; try split_branch);
    reflexivity.
Qed.

Lemma with_matching_same (sv : services) : with_matching sv (matching sv) = sv.
Proof. destruct sv; reflexivity. Qed.

(** C4, amended. When the match request fails for a reason that is not the
    fingerprint (the network, a body that is not JSON, [success] false), the
    attempt ends with the same mismatch message as a real mismatch and
    writes nothing; indeed the whole result (outcome, state, requests) is
    the one obtained when the device answers
    [{success: true, matched: false, score: 0}]. *)
Theorem match_failure_reported_as_mismatch :
  forall (a : attempt) (sv : services) (s : kiosk) (stored captured : option string),
    infrastructure_failure (matching sv) = true ->
    let r := run (perform a sv) s in
    In (Fetch (POST_match stored captured)) (log r) ->
    (out r = Returned tt /\
     scanResult (state r) = Some failed /\
     scanMessage (state r) = mismatch_of a /\
     commits (log r) = []) /\
    r = run (perform a (with_matching sv identity_mismatch)) s.
Proof.
  intros a sv s stored captured H r HIn.
  pose proof (infrastructure_failure_verdict _ H) as Hv.
  destruct (attempt_after_falsy_verdict a sv s stored captured _ Hv eq_refl HIn)
    as (Ho & Hr & Hm & _ & Hc).
  split; [auto|].
  unfold r, run. rewrite <- (with_matching_same sv) at 1.
  apply falsy_verdicts_agree with (v1 := JS.boolean false) (v2 := JS.number 0%float);
    auto; reflexivity.
Qed.

(** A kiosk capture that delivers the sample [t]. *)
Lemma delivers_shape (c : reply Capture.data) (t : string) :
  delivers c t ->
  exists after st d,
    c = Responds after {| status := st; payload := Json d |} /\
    Capture.success d = true /\ Capture.template d = Some t.
Proof.
  intros H. specialize (H Scenario.at_kiosk []). revert H.
  destruct c as [|after why|after [st [d|text why]]]; run_kiosk; try discriminate.
  destruct (Capture.success d) eqn:E; run_kiosk; try discriminate.
  intros [= Ht]. eauto 7.
Qed.

(** C7. In every attempt (clock in, clock out, leave authorization) whose
    match step yields a non-match: the employee is held, the capture delivers
    a sample, the backend returns the stored template (2xx, JSON; for clock
    in and out a template that is not empty, which the handler insists on),
    and the match gives a falsy verdict.  The attempt then ends with
    [scanResult] failed and the attempt's mismatch message, having sent the
    capture, the template lookup and the match request and nothing else: no
    attendance record and no leave request. *)
Theorem mismatch_writes_nothing :
  forall (a : attempt) (sv : services) (s : kiosk) (e : Employee) (t : string)
         (after : N) (resp : response Template.data) (d : Template.data),
    employee s = Some e ->
    delivers (capture sv) t ->
    JS.truthy_string t = true ->
    template sv = Responds after resp ->
    ok resp = true ->
    payload resp = Json d ->
    a = AuthorizeLeave \/ JS.falsy (Template.template d) = false ->
    non_match (matching sv) ->
    let r := run (perform a sv) s in
    out r = Returned tt /\
    scanResult (state r) = Some failed /\
    scanMessage (state r) = mismatch_of a /\
    scanning (state r) = false /\
    requests (log r) = [POST_capture; GET_fingerprint_template (id e);
                        POST_match (Template.template d) (Some t)] /\
    commits (log r) = [].
Proof.
  intros a sv s e t after resp d He Hd Ht Htp Hok Hp Hst Hn.
  destruct (non_match_verdict _ Hn) as (v & Hv & Hf).
  destruct (delivers_shape _ _ Hd) as (af & st & dc & Hc & Hs & Htm).
  destruct s, sv as [c tp m cm nw], resp as [st' pl].
  cbn in He, Hc, Htp, Hp, Hv. subst.
  destruct t as [|ch t]; [discriminate|].
  destruct a as [action|]; unfold perform, handleFingerprintScan,
    handleLeaveFingerPrintVerification, mismatch_of.
  - destruct Hst as [Hst|Hst]; [discriminate|].
    run_kiosk; rewrite Hs, Htm; run_kiosk;
      cbn [JS.falsy JS.truthy_string negb]; rewrite Hok; run_kiosk; rewrite Hst; run_kiosk;
      rewrite verifyFingerprint_verdict, Hv; run_kiosk; rewrite Hf; run_kiosk;
      cbn; repeat split; reflexivity.
  - run_kiosk; rewrite Hs, Htm; run_kiosk;
      cbn [JS.falsy JS.truthy_string negb]; rewrite Hok; run_kiosk;
      rewrite verifyFingerprint_verdict, Hv; run_kiosk; rewrite Hf; run_kiosk;
      cbn; repeat split; reflexivity.
Qed.

(** C5, amended. When the capture delivers a sample and the template lookup
    answers 404, the attempt fails with the not-registered message after
    exactly two requests: the capture, then the lookup.  No match, record or
    leave request is sent. *)
Theorem not_enrolled_found_after_capture :
  forall (a : attempt) (sv : services) (s : kiosk) (e : Employee) (t : string)
         (after : N) (r404 : response Template.data),
    employee s = Some e ->
    delivers (capture sv) t ->
    JS.truthy_string t = true ->
    template sv = Responds after r404 ->
    status r404 = 404%Z ->
    let r := run (perform a sv) s in
    out r = Returned tt /\
    scanResult (state r) = Some failed /\
    scanMessage (state r) = not_registered_of a /\
    requests (log r) = [POST_capture; GET_fingerprint_template (id e)].
Proof.
  intros a sv s e t after r404 He Hd Ht Htp H404.
  destruct (delivers_shape _ _ Hd) as (af & st & d & Hc & Hs & Htm).
  destruct s, sv as [c tp m cm nw], r404 as [st' pl]. cbn in He, Hc, Htp, H404. subst.
  destruct t as [|ch t]; [discriminate|].
  destruct a as [action|]; unfold perform, handleFingerprintScan,
    handleLeaveFingerPrintVerification, not_registered_of;
    run_kiosk; rewrite Hs, Htm; run_kiosk; cbn [JS.falsy JS.truthy_string negb ok status Z.leb Z.compare Pos.compare Pos.compare_cont andb Z.eqb Pos.eqb];
    destruct pl; run_kiosk; cbn; repeat split; reflexivity.
Qed.

(** C5 fails as stated: a clock-in that ends with the not-registered
    message has sent one capture request to the device, before the lookup
    that found no template. *)
Lemma capture_comes_before_the_lookup :
  let r := run (perform (Clock clock_in)
                  (Scenario.visit (Scenario.captured 900 "S") Scenario.template_missing
                                  identity_mismatch))
               Scenario.at_kiosk in
  captures (log r) = 1 /\
  requests (log r) = [POST_capture; GET_fingerprint_template "emp-1"] /\
  scanMessage (state r) = not_registered_message.
Proof. vm_compute. repeat split; reflexivity. Qed.

(** C4 fails as stated: a clock-in whose match request meets a network
    error ends exactly as one whose fingerprints differ, with the message
    "Fingerprint does not match. Please try again.". *)
Lemma match_network_error_shown_as_mismatch :
  let broken := Scenario.visit (Scenario.captured 900 "S") (Scenario.template_found "T")
                               (Fails 3 "Failed to fetch") in
  let differs := Scenario.visit (Scenario.captured 900 "S") (Scenario.template_found "T")
                                identity_mismatch in
  run (perform (Clock clock_in) broken) Scenario.at_kiosk
  = run (perform (Clock clock_in) differs) Scenario.at_kiosk /\
  scanMessage (state (run (perform (Clock clock_in) broken) Scenario.at_kiosk))
  = mismatch_message.
Proof. vm_compute. split; reflexivity. Qed.


(** C6 (where the code departs from it). The kiosk's capture has no time
    limit: while the device does not answer the call stays pending, and an
    answer that comes after 60 seconds is taken as a normal capture, where
    the enrollment dialog reports a timeout.  A clock-in whose capture is
    never answered stays on the spinner with no error. *)
Theorem kiosk_capture_waits_without_limit :
  forall (t : string) (s : kiosk) (l : list effect),
    out (captureFingerprint Never s l) = Pending /\
    out (captureFingerprint (Scenario.captured 60000 t) s l) = Returned (Some t) /\
    Enrollment.capture_end_of (Scenario.captured 60000 t) = Enrollment.CaptureTimeout /\
    let r := run (perform (Clock clock_in)
                    (Scenario.visit Never (Scenario.template_found "T") identity_mismatch))
                 Scenario.at_kiosk in
    out r = Pending /\
    scanning (state r) = true /\
    scanResult (state r) = None /\
    scanMessage (state r) = "Place your finger on the scanner...".
Proof.
  intros. repeat split; reflexivity.
Qed.

(** C7 for a clock-in and for a leave authorization whose match answers
    [{success: true, matched: false, score: 0}]. *)
Lemma mismatch_writes_nothing_at_score_zero :
  let sv := Scenario.visit (Scenario.captured 900 "S") (Scenario.template_found "T")
                           identity_mismatch in
  let clock := run (perform (Clock clock_in) sv) Scenario.at_kiosk in
  let leave := run (perform AuthorizeLeave sv) Scenario.at_kiosk in
  (scanResult (state clock) = Some failed /\
   scanMessage (state clock) = mismatch_message /\
   commits (log clock) = []) /\
  (scanResult (state leave) = Some failed /\
   scanMessage (state leave) = leave_mismatch_message /\
   requests (log leave) = [POST_capture; GET_fingerprint_template "emp-1";
                           POST_match (Some "T") (Some "S")] /\
   commits (log leave) = []).
Proof.
  assert (N : non_match identity_mismatch).
  { intros stored captured s l. eexists. split; reflexivity. }
  pose proof (fun a H => mismatch_writes_nothing a
    (Scenario.visit (Scenario.captured 900 "S") (Scenario.template_found "T")
                    identity_mismatch)
    Scenario.at_kiosk Scenario.employee_1001 "S" 25
    (Scenario.json_ok {| Template.template := Some "T"; Template.error := None |})
    {| Template.template := Some "T"; Template.error := None |}
    eq_refl (fun s l => eq_refl) eq_refl eq_refl eq_refl eq_refl H N) as H.
  cbv zeta in H |- *. split.
  - destruct (H (Clock clock_in) (or_intror eq_refl)) as (_ & Hr & Hm & _ & _ & Hc).
    auto.
  - destruct (H AuthorizeLeave (or_introl eq_refl)) as (_ & Hr & Hm & _ & Hq & Hc).
    auto.
Defined.

(** C4, amended, for a leave authorization whose match request meets a
    network error. *)
Lemma match_failure_reported_as_mismatch_offline :
  let sv := Scenario.visit (Scenario.captured 900 "S") (Scenario.template_found "T")
                           (Fails 3 "Failed to fetch") in
  scanMessage (state (run (perform AuthorizeLeave sv) Scenario.at_kiosk))
  = leave_mismatch_message.
Proof.
  pose proof (match_failure_reported_as_mismatch AuthorizeLeave
    (Scenario.visit (Scenario.captured 900 "S") (Scenario.template_found "T")
                    (Fails 3 "Failed to fetch"))
    Scenario.at_kiosk (Some "T") (Some "S") eq_refl) as H.
  cbv zeta in H |- *.
  destruct H as ((_ & _ & Hm & _) & _).
  - vm_compute. auto.
  - exact Hm.
Defined.

(** C5, amended, for a clock-out of employee 1001. *)
Lemma not_enrolled_found_after_capture_1001 :
  let sv := Scenario.visit (Scenario.captured 900 "S") Scenario.template_missing
                           identity_mismatch in
  requests (log (run (perform (Clock clock_out) sv) Scenario.at_kiosk))
  = [POST_capture; GET_fingerprint_template "emp-1"].
Proof.
  pose proof (not_enrolled_found_after_capture (Clock clock_out)
    (Scenario.visit (Scenario.captured 900 "S") Scenario.template_missing identity_mismatch)
    Scenario.at_kiosk Scenario.employee_1001 "S" 25
    {| status := 404;
       payload := Json {| Template.template := None;
                          Template.error := Some "Fingerprint not enrolled" |} |}
    eq_refl (fun s l => eq_refl) eq_refl eq_refl eq_refl) as H.
  cbv zeta in H |- *.
  destruct H as (_ & _ & _ & H). exact H.
Defined.


(** X3. While the looked-up employee has [fingerprintEnrolled] false the
    scan button does nothing: no request is sent and the state is as it
    was. *)
Theorem scan_button_disabled_without_enrollment :
  forall (action : clock_action) (sv : services) (s : kiosk) (e : Employee)
         (l : list effect),
    employee s = Some e ->
    fingerprintEnrolled e = false ->
    clickScan action sv s l = {| out := Returned tt; state := s; log := l |}.
Proof.
  intros action sv s e l He Hf. unfold clickScan, scanButtonEnabled.
  cbv beta iota zeta delta [bind gets ret]. rewrite He, Hf.
  destruct (scanResult s); rewrite ?andb_false_r; reflexivity.
Qed.

(** X3 for employee 1002, who has not enrolled. *)
Lemma scan_button_disabled_for_new_hire :
  log (run (clickScan clock_in
              (Scenario.visit (Scenario.captured 900 "S") Scenario.template_missing
                              identity_mismatch))
           Scenario.at_kiosk_unenrolled) = [].
Proof.
  unfold run.
  rewrite (scan_button_disabled_without_enrollment clock_in
             (Scenario.visit (Scenario.captured 900 "S") Scenario.template_missing
                             identity_mismatch)
             Scenario.at_kiosk_unenrolled Scenario.employee_1002 [] eq_refl eq_refl).
  reflexivity.
Defined.

End KioskFacts.

(* ------------------------------------------------------------------------- *)
Module HealthFacts.

Ltac run_health :=
  cbv beta iota zeta delta
    [bind ret throw pending gets modify emit try_catch try_finally
     fetch json out state log run payload status
     FingerprintService.checkConnection FingerprintService.set_isConnected
     FingerprintService._isConnected FingerprintApi.checkHealth negb andb].

(** C9, amended. [checkConnection] of the service never throws: a network
    error gives [false], a non-2xx gives [false], a 2xx gives
    [device_opened === true || mock_mode === true] ([false] when the body is
    not JSON), and [_isConnected] records the same value.  [FingerprintApi.checkHealth]
    throws instead: the network error itself, "Fingerprint service not
    available" on a non-2xx, the parse error on a body that is not JSON.
    Each sends the one request [GET /health]; neither has a time limit, so
    both stay pending while it is not answered. *)
Theorem health_checks :
  forall (health : reply Health.data) (svc : FingerprintService.service)
         (api : FingerprintApi.api) (l : list effect),
    let r := FingerprintService.checkConnection health svc l in
    let r' := FingerprintApi.checkHealth health api l in
    (log r = (l ++ [Fetch GET_health])%list /\
     match health with
     | Never => out r = Pending
     | Fails _ _ =>
         out r = Returned false /\ FingerprintService._isConnected (state r) = false
     | Responds _ resp =>
         let connected :=
           ok resp &&
           match payload resp with
           | Json data =>
               JS.is_true (Health.device_opened data) || JS.is_true (Health.mock_mode data)
           | NotJson _ _ => false
           end in
         out r = Returned connected /\
         FingerprintService._isConnected (state r) = connected
     end) /\
    (log r' = (l ++ [Fetch GET_health])%list /\
     state r' = api /\
     out r' =
     match health with
     | Never => Pending
     | Fails _ why => Threw (JS.TypeError why)
     | Responds _ resp =>
         if ok resp then
           match payload resp with
           | Json data => Returned data
           | NotJson _ why => Threw (JS.SyntaxError why)
           end
         else Threw (JS.Error "Fingerprint service not available")
     end).
Proof.
  intros health svc api l.
  destruct health as [|after why|after [st [d|text why]]]; run_health;
    try destruct (ok _); run_health; repeat split; reflexivity.
Qed.

(** C9 fails as stated: [FingerprintApi.checkHealth] throws on a 503. *)
Lemma checkHealth_throws_on_503 :
  out (run (FingerprintApi.checkHealth
              (Responds 15 {| status := 503;
                              payload := NotJson "Service Unavailable"
                                                 "Unexpected token S in JSON at position 0" |}))
           {| FingerprintApi.baseUrl := "http://localhost:8080" |})
  = Threw (JS.Error "Fingerprint service not available").
Proof. reflexivity. Qed.

(** A body that says [{device_opened: false, mock_mode: 1}]:
    [checkConnection], which tests [=== true], returns [false], while the
    enrollment dialog, which tests the truthiness of
    [device_opened || mock_mode], takes the scanner for connected. *)
Lemma checkConnection_is_strict :
  let health := Responds 20 (Scenario.json_ok
                  {| Health.device_opened := JS.boolean false;
                     Health.mock_mode := JS.number 1 |}) in
  out (run (FingerprintService.checkConnection health)
           {| FingerprintService._isConnected := true |}) = Returned false /\
  Enrollment.connected health = true.
Proof. vm_compute. split; reflexivity. Qed.

End HealthFacts.
(* ------------------------------------------------------------------------- *)
Module ServiceCallFacts.
Import FingerprintService FingerprintServiceCalls.

Ltac run_service :=
  cbv beta iota zeta delta
    [bind ret throw pending gets modify emit try_catch try_finally
     catch_default spawn fetch fetch_signal json
     out state log run payload status capture enroll
     JS.Error JS.TypeError JS.SyntaxError negb];
  cbn [JS.name JS.message].

(** X6. [fingerprintService.capture], whatever the device or the network
    does: the call sends the one capture request and leaves the connection
    flag alone, whether it returns, throws or stays pending.  It returns the
    template exactly when the body is JSON with [success] set; with no
    answer it stays pending (it has no time limit); otherwise it throws: the
    network error, the parse error, or the device's error text (a fixed
    text when there is none), each replaced by the service-not-running
    message when its message has [fetch] in it.  So no error it throws has
    [fetch] in its message. *)
Theorem capture_error_never_mentions_fetch
        (c : reply Capture.data) (svc : service) (l : list effect) :
  let r := capture c svc l in
  state r = svc /\
  log r = (l ++ [Fetch POST_capture])%list /\
  out r =
    match c with
    | Never => Pending
    | Fails _ why =>
        Threw (if JS.includes why "fetch" then JS.Error not_running_message
               else JS.TypeError why)
    | Responds _ resp =>
        match payload resp with
        | Json d =>
            if Capture.success d then Returned (Capture.template d)
            else
              let msg := JS.or_default (Capture.error d)
                           "Capture failed. Place finger on scanner." in
              Threw (if JS.includes msg "fetch" then JS.Error not_running_message
                     else JS.Error msg)
        | NotJson _ why =>
            Threw (if JS.includes why "fetch" then JS.Error not_running_message
                   else JS.SyntaxError why)
        end
    end /\
  forall e : JS.error,
    out r = Threw e -> JS.includes (JS.message e) "fetch" = false.
Proof.
  assert (N : JS.includes not_running_message "fetch" = false) by (vm_compute; reflexivity).
  destruct c as [|after why|after [st [d|text why]]]; run_service.
  - split; [reflexivity|]. split; [reflexivity|]. split; [reflexivity|].
    intros e H. discriminate.
  - destruct (JS.includes why "fetch") eqn:E; run_service;
      (split; [reflexivity|]); (split; [reflexivity|]); (split; [reflexivity|]);
      intros e H; injection H as <-; cbn [JS.message]; auto.
  - destruct (Capture.success d); run_service.
    + split; [reflexivity|]. split; [reflexivity|]. split; [reflexivity|].
      intros e H. discriminate.
    + destruct (JS.includes (JS.or_default _ _) "fetch") eqn:E; run_service;
        (split; [reflexivity|]); (split; [reflexivity|]); (split; [reflexivity|]);
        intros e H; injection H as <-; cbn [JS.message]; auto.
  - destruct (JS.includes why "fetch") eqn:E; run_service;
      (split; [reflexivity|]); (split; [reflexivity|]); (split; [reflexivity|]);
      intros e H; injection H as <-; cbn [JS.message]; auto.
Qed.

(** The device reports that it could not fetch an image from the sensor:
    what the caller gets is "service not running", after the one request. *)
Lemma capture_error_never_mentions_fetch_sensor :
  let r := capture (Responds 900 {| status := 200; payload := Json {|
             Capture.success := false; Capture.template := None;
             Capture.error := Some "Failed to fetch image from sensor" |} |})
             {| _isConnected := true |} [] in
  state r = {| _isConnected := true |} /\
  log r = [Fetch POST_capture] /\
  out r = Threw (JS.Error not_running_message).
Proof.
  pose proof (capture_error_never_mentions_fetch
           (Responds 900 {| status := 200; payload := Json {|
              Capture.success := false; Capture.template := None;
              Capture.error := Some "Failed to fetch image from sensor" |} |})
           {| _isConnected := true |} []) as H.
  cbv zeta in H |- *.
  destruct H as (H1 & H2 & H3 & _).
  split; [exact H1|]. split; [exact H2|exact H3].
Defined.

(** X7. [fingerprintService.enroll] never rejects and checks nothing: it
    sends the sample list it was given, whatever its length, returns the
    device's JSON whatever the HTTP status, and turns a network failure or a
    body that is not JSON into [{success: false, error}].  It has no time
    limit: with no answer the call stays pending. *)
Theorem enroll_fails_soft (userId : string) (templates : list (option string))
        (r : reply Enroll.data) (svc : service) (l : list effect) :
  let res := enroll userId templates r svc l in
  state res = svc /\
  log res = (l ++ [Fetch (POST_enroll userId templates)])%list /\
  out res =
    match r with
    | Never => Pending
    | Fails _ why =>
        Returned {| Enroll.success := false; Enroll.template := None;
                    Enroll.error := Some why |}
    | Responds _ resp =>
        match payload resp with
        | Json d => Returned d
        | NotJson _ why =>
            Returned {| Enroll.success := false; Enroll.template := None;
                        Enroll.error := Some why |}
        end
    end.
Proof.
  destruct r as [|after why|after [st [d|text why]]]; run_service; auto.
Qed.

End ServiceCallFacts.

(* ------------------------------------------------------------------------- *)
Module ApiCallFacts.
Import FingerprintApiCalls.

Lemma notify_quiet {St} (onProgress : option (progress_callback St)) :
  quiet onProgress ->
  forall step total message s l,
  exists s', notify onProgress step total message s l =
             {| out := Returned tt; state := s'; log := l |}.
Proof.
  intros Q step total message s l. destruct onProgress as [f|]; cbn.
  - destruct (Q f eq_refl step total message s l) as [Ho Hl].
    destruct (f step total message s l) as [o s' l']; cbn in Ho, Hl; subst.
    eexists; reflexivity.
  - eexists; reflexivity.
Qed.

(** What [FingerprintApi.capture] does with each answer. *)
Lemma capture_settles {St} (c : reply Capture.data) (s : St) (l : list effect) :
  capture c s l =
  {| out := match c with
            | Never => Pending
            | Fails _ why => Threw (JS.TypeError why)
            | Responds _ r =>
                match payload r with
                | Json d => Returned d
                | NotJson _ why => Threw (JS.SyntaxError why)
                end
            end;
     state := s; log := (l ++ [Fetch POST_capture])%list |}.
Proof.
  destruct c as [|after why|after [st [d|text why]]]; reflexivity.
Qed.

Lemma sample_json (c : reply Capture.data) (t : option string) :
  sample c = Some t ->
  exists after st d, c = Responds after {| status := st; payload := Json d |} /\
                     Capture.success d = true /\ Capture.template d = t.
Proof.
  destruct c as [|after why|after [st [d|text why]]]; cbn; try discriminate.
  destruct (Capture.success d) eqn:E; [|discriminate].
  intros [= <-]. eauto 6.
Qed.

(** One round of the loop whose capture delivers a sample. *)
Lemma captureLoop_round {St} (onProgress : option (progress_callback St))
      (captures : nat -> reply Capture.data) (left i : nat)
      (templates : list (option string)) (t : option string) (s : St) (l : list effect) :
  quiet onProgress ->
  sample (captures i) = Some t ->
  exists s',
    captureLoop onProgress captures (S left) i templates s l =
    captureLoop onProgress captures left (S i) (templates ++ [t])%list s'
                (l ++ [Fetch POST_capture])%list.
Proof.
  intros Q Hs. destruct (sample_json _ _ Hs) as (after & st & d & Hc & Hd & Ht).
  cbn [captureLoop].
  destruct (notify_quiet onProgress Q (i + 1) totalCaptures
              ("Capture " ++ JS.show (i + 1) ++ " of " ++ JS.show totalCaptures
                 ++ " - Place finger on scanner") s l) as [s1 E1].
  rewrite (bind_returned _ _ _ _ _ _ _ E1).
  rewrite (bind_returned _ _ s1 l d s1 (l ++ [Fetch POST_capture])%list)
    by (rewrite capture_settles, Hc; reflexivity).
  rewrite Hd, Ht. cbn [negb].
  destruct (i <? totalCaptures - 1)%nat.
  - destruct (notify_quiet onProgress Q (i + 1) totalCaptures
                "Lift finger and place again" s1 (l ++ [Fetch POST_capture])%list) as [s2 E2].
    rewrite (bind_returned _ _ _ _ _ _ _ E2). eexists; reflexivity.
  - eexists; reflexivity.
Qed.

(** One round whose capture does not deliver: the loop ends there. *)
Lemma captureLoop_stop {St} (onProgress : option (progress_callback St))
      (captures : nat -> reply Capture.data) (left i : nat)
      (templates : list (option string)) (s : St) (l : list effect) :
  quiet onProgress ->
  sample (captures i) = None ->
  exists s',
    captureLoop onProgress captures (S left) i templates s l =
    {| out := match captures i with
              | Never => Pending
              | Fails _ why => Threw (JS.TypeError why)
              | Responds _ r =>
                  match payload r with
                  | Json d =>
                      Returned (Return
                        {| Enroll.success := false; Enroll.template := None;
                           Enroll.error :=
                             Some (JS.or_default (Capture.error d)
                                     ("Capture " ++ JS.show (i + 1) ++ " failed")) |})
                  | NotJson _ why => Threw (JS.SyntaxError why)
                  end
              end;
       state := s'; log := (l ++ [Fetch POST_capture])%list |}.
Proof.
  intros Q Hs. cbn [captureLoop].
  destruct (notify_quiet onProgress Q (i + 1) totalCaptures
              ("Capture " ++ JS.show (i + 1) ++ " of " ++ JS.show totalCaptures
                 ++ " - Place finger on scanner") s l) as [s1 E1].
  rewrite (bind_returned _ _ _ _ _ _ _ E1).
  exists s1. cbv beta iota delta [bind]. rewrite capture_settles.
  destruct (captures i) as [|after why|after [st [d|text why]]]; cbn in Hs |- *;
    try reflexivity.
  destruct (Capture.success d); [discriminate|]. reflexivity.
Qed.

(** The loop up to the first capture that does not deliver. *)
Lemma captureLoop_first_failure {St} (onProgress : option (progress_callback St))
      (captures : nat -> reply Capture.data) (i : nat) :
  quiet onProgress ->
  forall (left j : nat) (templates : list (option string)) (s : St) (l : list effect),
  (forall k, k < i -> sample (captures (j + k)) <> None) ->
  sample (captures (j + i)) = None ->
  i < left ->
  exists s',
    captureLoop onProgress captures left j templates s l =
    {| out := match captures (j + i) with
              | Never => Pending
              | Fails _ why => Threw (JS.TypeError why)
              | Responds _ r =>
                  match payload r with
                  | Json d =>
                      Returned (Return
                        {| Enroll.success := false; Enroll.template := None;
                           Enroll.error :=
                             Some (JS.or_default (Capture.error d)
                                     ("Capture " ++ JS.show (j + i + 1) ++ " failed")) |})
                  | NotJson _ why => Threw (JS.SyntaxError why)
                  end
              end;
       state := s'; log := (l ++ repeat (Fetch POST_capture) (i + 1))%list |}.
Proof.
  intros Q. induction i as [|i IH]; intros left j templates s l Hbefore Hat Hlt.
  - destruct left as [|left]; [lia|].
    rewrite Nat.add_0_r in *.
    apply captureLoop_stop; assumption.
  - destruct left as [|left]; [lia|].
    destruct (sample (captures j)) as [t|] eqn:Hj.
    + destruct (captureLoop_round onProgress captures left j templates t s l Q Hj)
        as [s1 E1].
      rewrite E1.
      destruct (IH left (S j) (templates ++ [t])%list s1 (l ++ [Fetch POST_capture])%list)
        as [s2 E2].
      * intros k Hk. replace (S j + k) with (j + S k) by lia. apply Hbefore. lia.
      * replace (S j + i) with (j + S i) by lia. assumption.
      * lia.
      * exists s2. rewrite E2.
        replace (S j + i) with (j + S i) by lia.
        rewrite <- app_assoc. reflexivity.
    + exfalso. apply (Hbefore 0); [lia|]. rewrite Nat.add_0_r. assumption.
Qed.

Lemma merges_captures (k : nat) :
  Enrollment.merges (repeat (Fetch POST_capture) k) = [].
Proof. induction k; [reflexivity | exact IHk]. Qed.

(** What [enrollWithCaptures] does once the loop has stopped early. *)
Lemma enrollWithCaptures_stopped {St} (userId : string)
      (onProgress : option (progress_callback St))
      (captures : nat -> reply Capture.data) (merge : reply Enroll.data)
      (s : St) (l : list effect) (i : nat) :
  quiet onProgress ->
  i < totalCaptures ->
  (forall j, j < i -> sample (captures j) <> None) ->
  sample (captures i) = None ->
  let r := enrollWithCaptures userId onProgress captures merge s l in
  log r = (l ++ repeat (Fetch POST_capture) (i + 1))%list /\
  out r =
    match captures i with
    | Never => Pending
    | Fails _ why => Threw (JS.TypeError why)
    | Responds _ resp =>
        match payload resp with
        | Json d =>
            Returned {| Enroll.success := false; Enroll.template := None;
                        Enroll.error :=
                          Some (JS.or_default (Capture.error d)
                                  ("Capture " ++ JS.show (i + 1) ++ " failed")) |}
        | NotJson _ why => Threw (JS.SyntaxError why)
        end
    end.
Proof.
  intros Q Hi Hbefore Hat.
  destruct (captureLoop_first_failure onProgress captures i Q totalCaptures 0 [] s l)
    as [s' E]; try assumption.
  cbv zeta. unfold enrollWithCaptures. cbv beta iota delta [bind]. rewrite E.
  cbn [plus].
  destruct (captures i) as [|after why|after [st [d|text why]]]; cbn; auto.
Qed.

(** What it does when the three captures deliver. *)
Lemma enrollWithCaptures_completed {St} (userId : string)
      (onProgress : option (progress_callback St))
      (captures : nat -> reply Capture.data) (merge : reply Enroll.data)
      (s : St) (l : list effect) (t0 t1 t2 : option string) :
  quiet onProgress ->
  sample (captures 0) = Some t0 ->
  sample (captures 1) = Some t1 ->
  sample (captures 2) = Some t2 ->
  let r := enrollWithCaptures userId onProgress captures merge s l in
  log r = (l ++ [Fetch POST_capture; Fetch POST_capture; Fetch POST_capture;
                 Fetch (POST_enroll userId [t0; t1; t2])])%list /\
  out r =
    match merge with
    | Never => Pending
    | Fails _ why => Threw (JS.TypeError why)
    | Responds _ resp =>
        match payload resp with
        | Json d => Returned d
        | NotJson _ why => Threw (JS.SyntaxError why)
        end
    end.
Proof.
  intros Q H0 H1 H2. cbv zeta. unfold enrollWithCaptures, totalCaptures.
  destruct (captureLoop_round onProgress captures 2 0 [] t0 s l Q H0) as [s1 E1].
  destruct (captureLoop_round onProgress captures 1 1 [t0] t1 s1
              (l ++ [Fetch POST_capture])%list Q H1) as [s2 E2].
  destruct (captureLoop_round onProgress captures 0 2 [t0; t1] t2 s2
              ((l ++ [Fetch POST_capture]) ++ [Fetch POST_capture])%list Q H2) as [s3 E3].
  cbn [app] in E1, E2, E3.
  rewrite (bind_returned _ _ s l (Done [t0; t1; t2]) s3
             (((l ++ [Fetch POST_capture]) ++ [Fetch POST_capture]) ++ [Fetch POST_capture])%list)
    by (rewrite E1, E2, E3; reflexivity).
  destruct (notify_quiet onProgress Q 3 3 "Processing enrollment..." s3
              (((l ++ [Fetch POST_capture]) ++ [Fetch POST_capture]) ++ [Fetch POST_capture])%list)
    as [s4 E4].
  rewrite (bind_returned _ _ _ _ _ _ _ E4).
  rewrite <- !app_assoc. cbn [app].
  destruct merge as [|after why|after [st [d|text why]]]; cbn;
    rewrite <- ?app_assoc; cbn [app]; auto.
Qed.

Lemma keep_messages_quiet : quiet keep_messages.
Proof. intros f [= <-] step total message s l. split; reflexivity. Qed.

(** X8. [FingerprintApi.enrollWithCaptures] sends at most one merge request,
    and that request carries exactly the three samples of its three captures,
    in capture order; whenever one of the captures does not deliver, no merge
    request is sent at all.  (For a progress callback that returns and sends
    nothing of its own.) *)
Theorem enrollWithCaptures_merges_exactly_three {St} (userId : string)
        (onProgress : option (progress_callback St))
        (captures : nat -> reply Capture.data) (merge : reply Enroll.data)
        (s : St) (l : list effect) :
  quiet onProgress ->
  let r := enrollWithCaptures userId onProgress captures merge s l in
  exists sent,
    log r = (l ++ sent)%list /\
    Kiosk.captures sent <= 3 /\
    (Enrollment.merges sent = [] \/
     exists t0 t1 t2,
       sample (captures 0) = Some t0 /\
       sample (captures 1) = Some t1 /\
       sample (captures 2) = Some t2 /\
       sent = [Fetch POST_capture; Fetch POST_capture; Fetch POST_capture;
               Fetch (POST_enroll userId [t0; t1; t2])]).
Proof.
  intros Q. cbv zeta.
  assert (stop : forall i, i < 3 ->
            (forall j, j < i -> sample (captures j) <> None) ->
            sample (captures i) = None ->
            exists sent,
              log (enrollWithCaptures userId onProgress captures merge s l)
              = (l ++ sent)%list /\
              Kiosk.captures sent <= 3 /\
              Enrollment.merges sent = []).
  { intros i Hi Hb Ha.
    destruct (enrollWithCaptures_stopped userId onProgress captures merge s l i Q Hi Hb Ha)
      as [Hl _].
    exists (repeat (Fetch POST_capture) (i + 1)). split; [exact Hl|].
    split; [|apply merges_captures].
    destruct i as [|[|[|i]]]; cbn; lia. }
  destruct (sample (captures 0)) as [t0|] eqn:H0.
  2:{ destruct (stop 0) as (sent & ? & ? & ?); [lia| intros; lia | assumption |].
      exists sent; auto. }
  destruct (sample (captures 1)) as [t1|] eqn:H1.
  2:{ destruct (stop 1) as (sent & ? & ? & ?); [lia| | assumption |].
      - intros j Hj. assert (j = 0) by lia. subst j. congruence.
      - exists sent; auto. }
  destruct (sample (captures 2)) as [t2|] eqn:H2.
  2:{ destruct (stop 2) as (sent & ? & ? & ?); [lia| | assumption |].
      - intros j Hj. assert (j = 0 \/ j = 1) as [-> | ->] by lia; congruence.
      - exists sent; auto. }
  destruct (enrollWithCaptures_completed userId onProgress captures merge s l
              t0 t1 t2 Q H0 H1 H2) as [Hl _].
  eexists. split; [exact Hl|]. split; [cbn; lia|].
  right. exists t0, t1, t2. auto.
Qed.

(** Three good captures, then the merge. *)
Lemma enrollWithCaptures_merges_exactly_three_for_1001 :
  exists sent,
    log (enrollWithCaptures "1001" keep_messages
           (fun i => Scenario.captured 1200 ("S" ++ JS.show (i + 1)))
           (Scenario.merged "T") [] []) = ([] ++ sent)%list /\
    Kiosk.captures sent <= 3 /\
    (Enrollment.merges sent = [] \/
     exists t0 t1 t2,
       sample (Scenario.captured 1200 ("S" ++ JS.show (0 + 1))) = Some t0 /\
       sample (Scenario.captured 1200 ("S" ++ JS.show (1 + 1))) = Some t1 /\
       sample (Scenario.captured 1200 ("S" ++ JS.show (2 + 1))) = Some t2 /\
       sent = [Fetch POST_capture; Fetch POST_capture; Fetch POST_capture;
               Fetch (POST_enroll "1001" [t0; t1; t2])]).
Proof.
  exact (enrollWithCaptures_merges_exactly_three "1001" keep_messages
           (fun i => Scenario.captured 1200 ("S" ++ JS.show (i + 1)))
           (Scenario.merged "T") [] [] keep_messages_quiet).
Defined.

(** X9. When capture [i+1] of [enrollWithCaptures] is the first that does
    not deliver, the enrollment is abandoned there: [i+1] capture requests
    have been sent and nothing else, the samples already taken are dropped,
    and the call returns [{success: false, error}] with the device's error
    text (or "Capture i+1 failed") if the device refused; it rejects if the
    request failed or the body was not JSON, and never settles if the device
    does not answer. *)
Theorem enrollWithCaptures_abandons_at_first_failure {St} (userId : string)
        (onProgress : option (progress_callback St))
        (captures : nat -> reply Capture.data) (merge : reply Enroll.data)
        (s : St) (l : list effect) (i : nat) :
  quiet onProgress ->
  i < 3 ->
  (forall j, j < i -> sample (captures j) <> None) ->
  sample (captures i) = None ->
  let r := enrollWithCaptures userId onProgress captures merge s l in
  requests (log r) = (requests l ++ repeat POST_capture (i + 1))%list /\
  match captures i with
  | Never => out r = Pending
  | Fails _ why => out r = Threw (JS.TypeError why)
  | Responds _ resp =>
      match payload resp with
      | Json d =>
          exists text,
            out r = Returned {| Enroll.success := false; Enroll.template := None;
                                Enroll.error := Some text |} /\
            JS.truthy_string text = true /\
            (forall e, Capture.error d = Some e -> JS.truthy_string e = true -> text = e)
      | NotJson _ why => out r = Threw (JS.SyntaxError why)
      end
  end.
Proof.
  intros Q Hi Hb Ha.
  destruct (enrollWithCaptures_stopped userId onProgress captures merge s l i Q Hi Hb Ha)
    as [Hl Ho].
  cbv zeta. split.
  - rewrite Hl. clear. induction l as [|x l IH]; cbn.
    + induction (i + 1); cbn; congruence.
    + destruct x; cbn; rewrite ?IH; reflexivity.
  - destruct (captures i) as [|after why|after [st [d|text why]]]; cbn [payload] in *;
      try assumption.
    eexists. split; [exact Ho|]. split.
    + apply or_default_truthy. destruct i as [|[|[|i]]]; try reflexivity; lia.
    + intros e He Ht. rewrite He. cbn. rewrite Ht. reflexivity.
Qed.

(** The second capture is refused by the device. *)
Lemma enrollWithCaptures_abandons_at_first_failure_second :
  let captures := fun i =>
    match i with
    | 1 => Responds 700 (Scenario.json_ok {| Capture.success := false;
                           Capture.template := None;
                           Capture.error := Some "No finger detected" |})
    | _ => Scenario.captured 1200 "S"
    end in
  requests (log (enrollWithCaptures "1001" keep_messages captures
                   (Scenario.merged "T") [] []))
  = [POST_capture; POST_capture] /\
  out (enrollWithCaptures "1001" keep_messages captures (Scenario.merged "T") [] [])
  = Returned {| Enroll.success := false; Enroll.template := None;
                Enroll.error := Some "No finger detected" |}.
Proof.
  intros captures.
  destruct (enrollWithCaptures_abandons_at_first_failure "1001" keep_messages captures
              (Scenario.merged "T") [] [] 1 keep_messages_quiet) as [Hl Ho].
  - lia.
  - intros j Hj. replace j with 0 by lia. discriminate.
  - reflexivity.
  - split; [exact Hl|]. reflexivity.
Defined.

End ApiCallFacts.

(* ------------------------------------------------------------------------- *)
Module DialogInvariants.
Import Enrollment EnrollmentFacts EnrollmentOutcome.

(** [captureFingerprint] never throws; when it returns the capture flag is
    down and the saving flag is down or untouched; when it does not, the
    merge or the upload is what it waits for, with both flags up. *)
Lemma captureFingerprint_flags (employee : option Employee) (sv : services)
      (s : dialog) (l : list effect) :
  let r := captureFingerprint employee sv s l in
  (out r = Returned tt /\ capturing (state r) = false /\
   (saving (state r) = false \/ saving (state r) = saving s))
  \/
  (out r = Pending /\ capturing (state r) = true /\ saving (state r) = true /\
   templatesRef (state r) = templates (state r) /\
   (enroll sv = Never \/ save sv = Never)).
Proof.
  destruct s, sv as [c en sa], employee as [e|];
    unfold captureFingerprint, saveFingerprint, Enrollment.capture, Enrollment.enroll,
      Enrollment.save.
  all: crunch_dialog; auto 10.
Qed.

(** [captureFingerprint] only adds to the log, and it leaves [success] as it
    was unless the capture delivered, the merge gave a template and the
    backend took the upload. *)
Lemma captureFingerprint_success (employee : option Employee) (sv : services)
      (s : dialog) (l : list effect) :
  let r := captureFingerprint employee sv s l in
  (exists rest, log r = (l ++ rest)%list) /\
  (success (state r) = success s \/
   exists e t merged,
     employee = Some e /\
     capture_end_of (capture sv) = Captured t /\
     merged_template (enroll sv) = Some merged /\
     accepted (save sv) = true /\
     log r = (l ++ [Fetch POST_capture;
                    Fetch (POST_enroll (employeeId e) (templatesRef s ++ [t]));
                    Fetch (POST_fingerprint_enroll (id e) merged 0 100);
                    SetTimeout onSuccess 2000])%list).
Proof.
  destruct s, sv as [c en sa], employee as [e|];
    unfold captureFingerprint, saveFingerprint, Enrollment.capture, Enrollment.enroll,
      Enrollment.save, capture_end_of, merged_template, accepted.
  all: crunch_dialog; rewrite <- ?app_assoc; cbn [app];
    (split; [eexists; reflexivity|]); auto.
  all: right; do 3 eexists; cbn;
    repeat match goal with H : _ = true |- _ => rewrite H | H : _ = false |- _ => rewrite H end;
    cbn [negb andb] in *; repeat split; try reflexivity; try congruence.
Qed.

(** The effect on [templates] after a handler: it only brings the ref in
    step, and only when the handler has returned. *)
Lemma sync_after (m : M dialog unit) (s : dialog) (l : list effect) :
  let r0 := m s l in
  let r := bind m (fun _ => syncRefEffect) s l in
  out r = out r0 /\ log r = log r0 /\
  capturing (state r) = capturing (state r0) /\
  saving (state r) = saving (state r0) /\
  success (state r) = success (state r0) /\
  templates (state r) = templates (state r0) /\
  (out r0 = Returned tt -> templatesRef (state r) = templates (state r)) /\
  (out r0 = Pending -> templatesRef (state r) = templatesRef (state r0)).
Proof.
  cbv zeta. unfold bind. destruct (m s l) as [[[]|e|] s' l']; destruct s'; run_dialog;
    repeat split; intros; congruence.
Qed.

(** What an event runs before the effect on [templates]: nothing (its button
    is not on screen), the reset of an opening dialog, the scanner check, a
    capture, or "Start Over". *)
Lemma dispatch_cases (employee : option Employee) (ev : event)
      (s : dialog) (l : list effect) :
  dispatch employee ev s l = bind (ret tt) (fun _ => syncRefEffect) s l \/
  (exists health, ev = DialogOpens health) \/
  (exists health, dispatch employee ev s l
                  = bind (checkScanner health) (fun _ => syncRefEffect) s l) \/
  (exists sv, In sv (clicks [ev]) /\
              dispatch employee ev s l
              = bind (captureFingerprint employee sv) (fun _ => syncRefEffect) s l) \/
  dispatch employee ev s l = bind handleRetry (fun _ => syncRefEffect) s l.
Proof.
  destruct ev as [health|health|sv|sv|]; [right; left; eauto| | | |];
    cbv beta iota delta [dispatch bind gets];
    destruct (render employee s); try destruct (retryCaptureShown s);
    try (left; reflexivity).
  all: match goal with
       | |- context [checkScanner ?h] => right; right; left; exists h; reflexivity
       | |- context [captureFingerprint _ ?sv] =>
           right; right; right; left; exists sv;
           split; [left; reflexivity | reflexivity]
       | |- context [handleRetry] => right; right; right; right; reflexivity
       end.
Qed.

(** One event on a dialog with no handler in flight. *)
Lemma dispatch_flags (employee : option Employee) (ev : event)
      (s : dialog) (l : list effect) :
  capturing s = false -> saving s = false ->
  let r := dispatch employee ev s l in
  (out r = Returned tt /\ capturing (state r) = false /\ saving (state r) = false /\
   templatesRef (state r) = templates (state r))
  \/
  (out r = Pending /\ capturing (state r) = true /\ saving (state r) = true /\
   templatesRef (state r) = templates (state r) /\
   exists sv, In sv (clicks [ev]) /\ (enroll sv = Never \/ save sv = Never)).
Proof.
  intros Hc Hs. cbv zeta.
  destruct (dispatch_cases employee ev s l) as [E|[[health ->]|[[health E]|[(sv & Hin & E)|E]]]].
  - rewrite E. destruct s. cbn in Hc, Hs. subst. run_dialog. left. auto.
  - rewrite dispatch_opens. cbn. left. auto.
  - rewrite E. unfold bind. rewrite checkScanner_settles. destruct s. cbn in Hc, Hs. subst.
    run_dialog. left. auto.
  - rewrite E.
    destruct (sync_after (captureFingerprint employee sv) s l)
      as (Ho & _ & Hcap & Hsav & _ & Htpl & Hret & Hpen).
    rewrite Ho, Hcap, Hsav.
    destruct (captureFingerprint_flags employee sv s l)
      as [(Ro & Rc & Rs)|(Ro & Rc & Rs & Rr & Rn)].
    + left. rewrite Ro, Rc. repeat split; auto.
      destruct Rs as [Rs|Rs]; rewrite Rs; auto.
    + right. rewrite Ro, Rc, Rs. repeat split; auto.
      * rewrite (Hpen Ro), Htpl. exact Rr.
      * exists sv. auto.
  - rewrite E. destruct s. cbn in Hc, Hs. subst. run_dialog. left. auto.
Qed.

Lemma clicks_cons (ev : event) (evs : list event) :
  clicks (ev :: evs) = (clicks [ev] ++ clicks evs)%list.
Proof. destruct ev; reflexivity. Qed.

Lemma session_flags (employee : option Employee) (evs : list event) :
  forall (s : dialog) (l : list effect),
  capturing s = false -> saving s = false ->
  let r := session employee evs s l in
  (out r = Returned tt /\ capturing (state r) = false /\ saving (state r) = false)
  \/
  (out r = Pending /\ capturing (state r) = true /\ saving (state r) = true /\
   templatesRef (state r) = templates (state r) /\
   exists sv, In sv (clicks evs) /\ (enroll sv = Never \/ save sv = Never)).
Proof.
  induction evs as [|ev evs IH]; intros s l Hc Hs; cbv zeta.
  - left. auto.
  - cbn [session]. unfold bind. rewrite clicks_cons.
    destruct (dispatch_flags employee ev s l Hc Hs)
      as [(Ro & Rc & Rs & _)|(Ro & Rc & Rs & Rr & sv & Hin & Hn)];
      destruct (dispatch employee ev s l) as [o s' l']; cbn [out state log] in *; subst o.
    + destruct (IH s' l' Rc Rs) as [H|(Po & Pc & Ps & Pr & sv & Hin & Hn)]; [left; exact H|].
      right. repeat split; auto. exists sv. split; [apply in_or_app; auto | exact Hn].
    + right. cbn [out state log]. repeat split; auto.
      exists sv. split; [apply in_or_app; auto | exact Hn].
Qed.

(** One event: the log only grows, and [success] is up afterwards only if
    it was up before or this event's enrollment went through. *)
Lemma dispatch_success (employee : option Employee) (ev : event)
      (s : dialog) (l : list effect) :
  let r := dispatch employee ev s l in
  (exists rest, log r = (l ++ rest)%list) /\
  (success (state r) = true ->
   success s = true \/ went_through employee (clicks [ev]) (log r)).
Proof.
  cbv zeta.
  destruct (dispatch_cases employee ev s l) as [E|[[health ->]|[[health E]|[(sv & Hin & E)|E]]]].
  - rewrite E. destruct s. run_dialog. split; [exists []; rewrite app_nil_r; reflexivity|auto].
  - rewrite dispatch_opens. cbn. split; [eexists; reflexivity|discriminate].
  - rewrite E. unfold bind. rewrite checkScanner_settles. destruct s. run_dialog.
    split; [eexists; reflexivity|auto].
  - rewrite E.
    destruct (sync_after (captureFingerprint employee sv) s l)
      as (_ & Hl & _ & _ & Hsu & _).
    rewrite Hl, Hsu.
    destruct (captureFingerprint_success employee sv s l)
      as (Hext & [Hsame|(e & t & merged & He & Hcap & Hm & Ha & Hlog)]).
    + split; [exact Hext|]. rewrite Hsame. auto.
    + split; [exact Hext|]. intros _. right.
      exists e, sv, merged. repeat split; auto; rewrite Hlog; apply in_or_app; right;
        cbn; auto.
  - rewrite E. destruct s. run_dialog. split; [exists []; rewrite app_nil_r; reflexivity|].
    discriminate.
Qed.

Lemma went_through_more (employee : option Employee) (svs more : list services)
      (l rest : list effect) :
  went_through employee svs l ->
  went_through employee (svs ++ more) (l ++ rest).
Proof.
  intros (e & sv & merged & He & Hin & Hm & Ha & Hu & Ht).
  exists e, sv, merged. repeat split; auto; apply in_or_app; auto.
Qed.

Lemma session_success (employee : option Employee) (evs : list event) :
  forall (seen : list services) (s : dialog) (l : list effect),
  (success s = true -> went_through employee seen l) ->
  let r := session employee evs s l in
  success (state r) = true -> went_through employee (seen ++ clicks evs) (log r).
Proof.
  induction evs as [|ev evs IH]; intros seen s l Hinv; cbv zeta.
  - cbn. intros H. rewrite <- (app_nil_r l). apply went_through_more. auto.
  - cbn [session]. unfold bind. rewrite clicks_cons, app_assoc.
    destruct (dispatch_success employee ev s l) as [[rest Hext] Hsu].
    assert (Hinv' : success (state (dispatch employee ev s l)) = true ->
                    went_through employee (seen ++ clicks [ev])
                                 (log (dispatch employee ev s l))).
    { intros H. destruct (Hsu H) as [Hb|Hw].
      - rewrite Hext. apply went_through_more. auto.
      - destruct Hw as (e & sv & merged & He & Hin & Hm & Ha & Hu & Ht).
        exists e, sv, merged. repeat split; auto. apply in_or_app; auto. }
    destruct (dispatch employee ev s l) as [[[]|e|] s' l']; cbn [out state log] in *.
    + apply IH. exact Hinv'.
    + intros H. rewrite <- (app_nil_r l'). apply went_through_more. auto.
    + intros H. rewrite <- (app_nil_r l'). apply went_through_more. auto.
Qed.

(** X10. From a dialog with no handler in flight, after any events and
    whatever the services answer: once the last handler has settled, neither
    busy flag is up, so "Cancel" is enabled and [handleClose] calls
    [onClose].  A handler that does not settle is waiting for a merge or an
    upload that never answers (those two requests have no time limit); the
    dialog then has both flags up and [handleClose] does nothing, so it
    cannot be closed. *)
Theorem settled_dialog_can_be_closed (employee : option Employee)
        (evs : list event) (s : dialog) :
  capturing s = false -> saving s = false ->
  let r := run (session employee evs) s in
  (out r = Returned tt /\
   capturing (state r) = false /\ saving (state r) = false /\
   log (handleClose (state r) (log r)) = (log r ++ [Call onClose])%list)
  \/
  (out r = Pending /\
   capturing (state r) = true /\ saving (state r) = true /\
   log (handleClose (state r) (log r)) = log r /\
   exists sv, In sv (clicks evs) /\ (enroll sv = Never \/ save sv = Never)).
Proof.
  intros Hc Hs. cbv zeta. unfold run.
  destruct (session_flags employee evs s [] Hc Hs)
    as [(Ro & Rc & Rs)|(Ro & Rc & Rs & _ & Hn)];
    destruct (session employee evs s []) as [o s' l']; destruct s';
    cbn [out state log capturing saving] in *; subst.
  - left. unfold handleClose. run_dialog. auto.
  - right. unfold handleClose. run_dialog. auto.
Qed.

Lemma settled_dialog_can_be_closed_after_three_taps :
  let r := run (session (Some Scenario.employee_1001) three_taps) mounted in
  (out r = Returned tt /\
   capturing (state r) = false /\ saving (state r) = false /\
   log (handleClose (state r) (log r)) = (log r ++ [Call onClose])%list)
  \/
  (out r = Pending /\
   capturing (state r) = true /\ saving (state r) = true /\
   log (handleClose (state r) (log r)) = log r /\
   exists sv, In sv (clicks three_taps) /\ (enroll sv = Never \/ save sv = Never)).
Proof.
  exact (settled_dialog_can_be_closed (Some Scenario.employee_1001) three_taps mounted
           eq_refl eq_refl).
Defined.

(** X11. The dialog shows "Enrollment Successful" only for an enrollment
    that went through: from a dialog whose [success] is down, if [success]
    is up after a session then the employee is set, one of the session's
    capture clicks had a merge answered with [success] true and an upload
    answered 2xx with a JSON body, the upload of that merged template is in
    the log, and the closing timer of 2000 ms was armed. *)
Theorem success_only_after_accepted_upload (employee : option Employee)
        (evs : list event) (s : dialog) :
  success s = false ->
  let r := run (session employee evs) s in
  success (state r) = true ->
  went_through employee (clicks evs) (log r).
Proof.
  intros Hs. cbv zeta. unfold run. intros H.
  apply (session_success employee evs [] s []); [|exact H].
  rewrite Hs. discriminate.
Qed.

Lemma captures_app (l l' : list effect) :
  Kiosk.captures (l ++ l') = Kiosk.captures l + Kiosk.captures l'.
Proof.
  induction l as [|x l IH]; [reflexivity|].
  destruct x as [[]| |]; cbn; rewrite ?IH; reflexivity.
Qed.

(** One event on a dialog whose scanner is not known to be connected: no
    capture is requested, and the scanner is connected afterwards only if
    this event checked it and found it so. *)
Lemma dispatch_without_scanner (employee : option Employee) (ev : event)
      (s : dialog) (l : list effect) :
  scannerConnected s = false ->
  let r := dispatch employee ev s l in
  Kiosk.captures (log r) = Kiosk.captures l /\
  (scannerConnected (state r) = true ->
   exists health, In health (checks [ev]) /\ connected health = true).
Proof.
  intros Hs. cbv zeta.
  destruct ev as [health|health|sv|sv|].
  - rewrite dispatch_opens. cbn [log state scannerConnected]. rewrite captures_app.
    cbn. split; [lia|]. intros H. exists health. split; [left; reflexivity | exact H].
  - cbv beta iota delta [dispatch bind gets].
    destruct (render employee s); try (destruct s; cbn in Hs; subst; run_dialog;
      split; [reflexivity | discriminate]).
    rewrite checkScanner_settles. destruct s. run_dialog. rewrite captures_app. cbn.
    split; [lia|]. intros H. exists health. split; [left; reflexivity | exact H].
  - cbv beta iota delta [dispatch bind gets]. unfold render.
    destruct employee as [e|]; [destruct (checkingScanner s)|];
      rewrite ?Hs; cbn [negb]; destruct s; cbn in Hs; subst; run_dialog;
      split; try reflexivity; discriminate.
  - cbv beta iota delta [dispatch bind gets]. unfold render.
    destruct employee as [e|]; [destruct (checkingScanner s)|];
      rewrite ?Hs; cbn [negb]; destruct s; cbn in Hs; subst; run_dialog;
      split; try reflexivity; discriminate.
  - cbv beta iota delta [dispatch bind gets]. unfold render.
    destruct employee as [e|]; [destruct (checkingScanner s)|];
      rewrite ?Hs; cbn [negb]; destruct s; cbn in Hs; subst; run_dialog;
      split; try reflexivity; discriminate.
Qed.

Lemma checks_app (evs evs' : list event) :
  checks (evs ++ evs') = (checks evs ++ checks evs')%list.
Proof.
  induction evs as [|ev evs IH]; [reflexivity|]. destruct ev; cbn; rewrite ?IH; reflexivity.
Qed.

Lemma session_scanner (employee : option Employee) (evs : list event) :
  forall (seen : list event) (s : dialog) (l : list effect),
  (scannerConnected s = true ->
   exists health, In health (checks seen) /\ connected health = true) ->
  (0 < Kiosk.captures l ->
   exists health, In health (checks seen) /\ connected health = true) ->
  let r := session employee evs s l in
  0 < Kiosk.captures (log r) ->
  exists health, In health (checks (seen ++ evs)) /\ connected health = true.
Proof.
  induction evs as [|ev evs IH]; intros seen s l HS HL; cbv zeta.
  - cbn. rewrite app_nil_r. exact HL.
  - cbn [session]. unfold bind.
    replace (seen ++ ev :: evs)%list with ((seen ++ [ev]) ++ evs)%list
      by (rewrite <- app_assoc; reflexivity).
    assert (grow : forall health, In health (checks seen) \/ In health (checks [ev]) ->
                   In health (checks (seen ++ [ev]))).
    { intros health H. rewrite checks_app. apply in_or_app. exact H. }
    assert (Hstep :
      (scannerConnected (state (dispatch employee ev s l)) = true ->
       exists health, In health (checks (seen ++ [ev])) /\ connected health = true) /\
      (0 < Kiosk.captures (log (dispatch employee ev s l)) ->
       exists health, In health (checks (seen ++ [ev])) /\ connected health = true)).
    { destruct (scannerConnected s) eqn:Hs.
      - destruct (HS eq_refl) as (health & Hin & Hc).
        split; intros _; exists health; auto.
      - destruct (dispatch_without_scanner employee ev s l Hs) as [Hcap Hconn].
        split.
        + intros H. destruct (Hconn H) as (health & Hin & Hc). exists health. auto.
        + rewrite Hcap. intros H. destruct (HL H) as (health & Hin & Hc).
          exists health. auto. }
    destruct Hstep as [HS' HL'].
    destruct (dispatch employee ev s l) as [[[]|e|] s' l']; cbn [out state log] in *.
    + apply IH; assumption.
    + intros H. destruct (HL' H) as (health & Hin & Hc). exists health.
      split; [rewrite checks_app; apply in_or_app; auto | exact Hc].
    + intros H. destruct (HL' H) as (health & Hin & Hc). exists health.
      split; [rewrite checks_app; apply in_or_app; auto | exact Hc].
Qed.

(** X19. The enrollment dialog asks the scanner for a capture only after a
    scanner check found it connected: starting with [scannerConnected]
    false (as the dialog mounts), if the log of a session holds a capture
    request then one of the session's scanner checks (on opening, or "Check
    Again") got a 2xx JSON answer within 3 seconds with [device_opened] or
    [mock_mode] true. *)
Theorem capture_needs_connected_scanner (employee : option Employee)
        (evs : list event) (s : dialog) :
  scannerConnected s = false ->
  0 < Kiosk.captures (log (run (session employee evs) s)) ->
  exists health, In health (checks evs) /\ connected health = true.
Proof.
  intros Hs H.
  apply (session_scanner employee evs [] s []); [| |exact H].
  - rewrite Hs. discriminate.
  - cbn. lia.
Qed.

Lemma capture_needs_connected_scanner_three_taps :
  exists health, In health (checks three_taps) /\ connected health = true.
Proof.
  apply (capture_needs_connected_scanner (Some Scenario.employee_1001) three_taps
           mounted eq_refl).
  vm_compute. repeat constructor.
Defined.

Lemma success_only_after_accepted_upload_three_taps :
  went_through (Some Scenario.employee_1001) (clicks three_taps)
    (log (run (session (Some Scenario.employee_1001) three_taps) mounted)).
Proof.
  apply (success_only_after_accepted_upload (Some Scenario.employee_1001) three_taps
           mounted eq_refl).
  vm_compute. reflexivity.
Defined.

End DialogInvariants.

(* ------------------------------------------------------------------------- *)
Module KioskFrames.
Import Kiosk KioskFacts.

Ltac crunch_kiosk :=
  repeat (run_kiosk; rewrite ?verifyFingerprint_verdict; try split_branch).

Ltac log_grew :=
  rewrite <- ?app_assoc; cbn [app];
  first [ eexists; split; [reflexivity|]
        | exists []; split; [symmetry; apply app_nil_r|] ].

Ltac in_log H :=
  cbn [In] in H; repeat (destruct H as [H|H]; try discriminate H); try contradiction.

(** The scan button of a clock dialog: it never throws and leaves the
    employee alone; while [scanning] is up it does nothing; it sends no
    leave request; and an attendance record it sends is for the employee
    held, who is enrolled, with the action of the dialog, after a match
    verdict that is truthy. *)
Lemma clickScan_frame (action : clock_action) (sv : services)
      (k : kiosk) (l : list effect) :
  let r := clickScan action sv k l in
  (out r = Returned tt \/ out r = Pending) /\
  employee (state r) = employee k /\
  (scanning k = true -> r = {| out := Returned tt; state := k; log := l |}) /\
  exists rest,
    log r = (l ++ rest)%list /\
    (forall e f, ~ In (Fetch (POST_leaves e f)) rest) /\
    (forall eid a m, In (Fetch (POST_attendance_record eid a m)) rest ->
       exists e v,
         employee k = Some e /\ fingerprintEnrolled e = true /\
         eid = employeeId e /\ a = action /\ m = "FINGERPRINT" /\
         verdict (matching sv) = Returned v /\ JS.truthy v = true).
Proof.
  destruct k as [emp sc res msg ls f sn], sv as [c tp m cm nw].
  unfold clickScan, scanButtonEnabled, handleFingerprintScan.
  crunch_kiosk;
    (split; [auto|]); (split; [reflexivity|]);
    (split; [intros Hs; first [discriminate Hs | reflexivity]|]);
    log_grew;
    (split; [intros ? ? HIn; in_log HIn|]);
    intros ? ? ? HIn; in_log HIn.
  all: injection HIn as <- <- <-; do 2 eexists; repeat split; eauto.
Qed.

(** The leave authorization: it never throws, leaves the employee alone and
    writes no attendance record. *)
Lemma leaveVerification_frame (sv : services) (k : kiosk) (l : list effect) :
  let r := handleLeaveFingerPrintVerification sv k l in
  (out r = Returned tt \/ out r = Pending) /\
  employee (state r) = employee k /\
  exists rest,
    log r = (l ++ rest)%list /\
    (forall eid a m, ~ In (Fetch (POST_attendance_record eid a m)) rest).
Proof.
  destruct k as [emp sc res msg ls f sn], sv as [c tp m cm nw].
  unfold handleLeaveFingerPrintVerification.
  crunch_kiosk;
    (split; [auto|]); (split; [reflexivity|]);
    log_grew; intros ? ? ? HIn; in_log HIn.
Qed.

End KioskFrames.

Module StationFacts.
Import Station.

Ltac run_station :=
  cbv beta iota zeta delta
    [wbind wret wthrow wpending wgets wmodify wemit wtry_catch wtry_finally
     wcatch_default wfetch wjson lift wout wstate wlog wrun
     bind ret throw pending gets modify emit try_catch try_finally
     catch_default spawn fetch fetch_signal json out state log payload status
     on_core with_core
     setEmployee setForm setLeaveType setLeaveStartDate setLeaveEndDate setLeaveReason
     setScanning setScanResult setScanMessage showSnackbar
     setScannerConnected setCheckingScanner setClockInDialogOpen
     setClockOutDialogOpen setLeaveDialogOpen setRegisterDialogOpen setEmployeeId
     setLookupLoading setLookupError setLeaveFormComplete setAdminEmail
     setAdminPassword setAdminAuthenticated setAdminError
     core scannerConnected checkingScanner clockInDialogOpen clockOutDialogOpen
     leaveDialogOpen registerDialogOpen employeeIdText lookupLoading lookupError
     leaveFormComplete adminEmail adminPassword adminAuthenticated adminError
     Kiosk.setScanning Kiosk.setScanResult Kiosk.setScanMessage
     Kiosk.setLeaveSubmitting Kiosk.showSnackbar
     Kiosk.employee Kiosk.scanning Kiosk.scanResult Kiosk.scanMessage
     Kiosk.leaveSubmitting Kiosk.form Kiosk.snackbar
     leaveType leaveStartDate leaveEndDate leaveReason
     JS.Error JS.TypeError JS.SyntaxError negb andb orb map];
  cbn [JS.name JS.message]; rewrite ?app_nil_r.

Ltac crunch_station := repeat (run_station; try split_branch).

(** [lookupEmployee] never throws; it touches the employee, the lookup
    error and the loading flag only; it sends at most the lookup request;
    and the employee it leaves, if any, is the one held before (a blank id)
    or one its answer admits. *)
Lemma lookupEmployee_frame (id : string) (lr : reply Lookup.data)
      (s : station) (l : list action) :
  let r := lookupEmployee id lr s l in
  (wout r = Returned tt \/ wout r = Pending) /\
  (wlog r = l \/ wlog r = (l ++ [Sent (GET_employees_lookup id)])%list) /\
  leaveFormComplete (wstate r) = leaveFormComplete s /\
  adminAuthenticated (wstate r) = adminAuthenticated s /\
  Kiosk.scanning (core (wstate r)) = Kiosk.scanning (core s) /\
  (forall e, Kiosk.employee (core (wstate r)) = Some e ->
             Kiosk.employee (core s) = Some e \/ admits lr e).
Proof.
  destruct s as [k sc ch ci co le re idt ll lerr lfc ae ap aa aerr], k.
  unfold lookupEmployee, admits.
  destruct (blank id); crunch_station; repeat split; auto; intros e [= <-];
    right; do 3 eexists; repeat split; try reflexivity; try eassumption;
    cbn; try eassumption.
  all: match goal with H : Lookup.fingerprintEnrolled _ = _ |- _ => rewrite H end;
    reflexivity.
Qed.

(** [handleAdminLogin] never throws; it touches the admin cells only; it
    sends the login request, and it sets [adminAuthenticated] and stores the
    token exactly when the answer lets an administrator in. *)
Lemma handleAdminLogin_frame (lr : reply Login.data) (s : station) (l : list action) :
  let r := handleAdminLogin lr s l in
  (wout r = Returned tt \/ wout r = Pending) /\
  core (wstate r) = core s /\
  leaveFormComplete (wstate r) = leaveFormComplete s /\
  ((adminAuthenticated (wstate r) = adminAuthenticated s /\
    wlog r = (l ++ [Sent (POST_auth_login (adminEmail s) (adminPassword s))])%list)
   \/
   (lets_in lr /\ adminAuthenticated (wstate r) = true /\
    exists tok,
      wlog r = (l ++ [Sent (POST_auth_login (adminEmail s) (adminPassword s));
                      LocalStorage_setItem "kiosk_admin_token" tok])%list)).
Proof.
  destruct s as [k sc ch ci co le re idt ll lerr lfc ae ap aa aerr].
  unfold handleAdminLogin, lets_in.
  crunch_station; rewrite <- ?app_assoc; cbn [app]; repeat split; auto.
  right. split; [|split; [reflexivity|eexists; reflexivity]].
  do 3 eexists. repeat split; try reflexivity; try eassumption.
Qed.

Lemma in_map_earlier (x : effect) (l : list effect) :
  In (Earlier x) (map Earlier l) -> In x l.
Proof.
  induction l as [|y l IH]; cbn; [auto|].
  intros [[= ->]|H]; auto.
Qed.

Lemma not_earlier (a : action) (l : list effect) :
  (forall e, a <> Earlier e) -> ~ In a (map Earlier l).
Proof.
  intros Ha. induction l as [|y l IH]; cbn; [auto|].
  intros [H|H]; [apply (Ha y); auto | auto].
Qed.

Ltac run_page :=
  cbv beta iota zeta delta
    [dispatch anyDialogOpen clockDialogOpen has_employee has_result lookupShown
     tryAgainShown leaveScanShown leaveFormShown nextEnabled
     checkScannerConnection handleLeaveFormSubmit resetAndClose
     wbind wret wthrow wpending wgets wmodify wemit wtry_catch wtry_finally
     wcatch_default wfetch wjson lift wout wstate wlog wrun
     bind ret throw pending gets modify emit try_catch try_finally
     catch_default spawn fetch fetch_signal json out state log payload status
     on_core with_core
     setEmployee setForm setLeaveType setLeaveStartDate setLeaveEndDate setLeaveReason
     setScanning setScanResult setScanMessage showSnackbar
     setScannerConnected setCheckingScanner setClockInDialogOpen
     setClockOutDialogOpen setLeaveDialogOpen setRegisterDialogOpen setEmployeeId
     setLookupLoading setLookupError setLeaveFormComplete setAdminEmail
     setAdminPassword setAdminAuthenticated setAdminError
     core scannerConnected checkingScanner clockInDialogOpen clockOutDialogOpen
     leaveDialogOpen registerDialogOpen employeeIdText lookupLoading lookupError
     leaveFormComplete adminEmail adminPassword adminAuthenticated adminError
     Kiosk.setScanning Kiosk.setScanResult Kiosk.setScanMessage
     Kiosk.setLeaveSubmitting Kiosk.showSnackbar
     Kiosk.employee Kiosk.scanning Kiosk.scanResult Kiosk.scanMessage
     Kiosk.leaveSubmitting Kiosk.form Kiosk.snackbar
     leaveType leaveStartDate leaveEndDate leaveReason
     lookups logins
     JS.Error JS.TypeError JS.SyntaxError negb andb orb map];
  cbn [JS.name JS.message]; rewrite ?app_nil_r.

Ltac crunch_page := repeat (run_page; try split_branch).

Ltac page_log_grew :=
  rewrite <- ?app_assoc; cbn [app];
  first [ eexists; split; [reflexivity|]
        | exists []; split; [symmetry; apply app_nil_r|] ].

Ltac in_page_log H :=
  cbn [In] in H; repeat (destruct H as [H|H]; try discriminate H); try contradiction.

Lemma lift_on_core {A} (m : M Kiosk.kiosk A) (s : station) (l : list action) :
  lift (on_core m) s l =
  {| wout := out (m (core s) []);
     wstate := with_core s (state (m (core s) []));
     wlog := l ++ map Earlier (log (m (core s) [])) |}.
Proof. unfold lift, on_core. destruct (m (core s) []); reflexivity. Qed.

Ltac finish_frame :=
  (split; [auto|]);
  (split; [intros HI H; try discriminate H; try reflexivity; auto|]);
  (split; [intros ? He; try discriminate He; left; exact He|]);
  (split; [intros Ha; try discriminate Ha; left; exact Ha|]);
  page_log_grew;
  (split; [intros ? ? HIn; in_page_log HIn|]);
  (split; [intros ? ? ? HIn; in_page_log HIn|]);
  (split; [intros ? ? HIn; in_page_log HIn; try reflexivity|]);
  intros ? ? HIn; in_page_log HIn.

(** An event whose control is not on screen. *)
Ltac idle_step := cbn [wret wout wstate wlog]; finish_frame.

(** A lookup with the answer [r]. *)
Ltac lookup_step r s l :=
  let Fo := fresh "Fo" in let Fl := fresh "Fl" in let Flfc := fresh "Flfc" in
  let Faa := fresh "Faa" in let Fsc := fresh "Fsc" in let Femp := fresh "Femp" in
  destruct (lookupEmployee_frame (employeeIdText s) r s l)
    as (Fo & Fl & Flfc & Faa & Fsc & Femp);
  split; [exact Fo|];
  split; [rewrite Flfc, Fsc; auto|];
  split; [intros e He; destruct (Femp e He) as [Hb|Hb];
          [left; exact Hb | right; exists r; split; [left; reflexivity | exact Hb]]|];
  split; [rewrite Faa; auto|];
  destruct Fl as [Fl|Fl]; rewrite Fl;
  [exists [] | eexists];
  (split; [first [reflexivity | symmetry; apply app_nil_r]|]);
  (split; [intros ? ? HIn; in_page_log HIn|]);
  (split; [intros ? ? ? HIn; in_page_log HIn|]);
  (split; [intros ? ? HIn; in_page_log HIn|]);
  intros ? ? HIn; in_page_log HIn.

(** What one event can do, as far as the properties below go. *)
Lemma dispatch_frame (ev : event) (s : station) (l : list action) :
  let r := dispatch ev s l in
  (wout r = Returned tt \/ wout r = Pending) /\
  ((leaveFormComplete s = true -> Kiosk.scanning (core s) = true) ->
   (leaveFormComplete (wstate r) = true -> Kiosk.scanning (core (wstate r)) = true)) /\
  (forall e, Kiosk.employee (core (wstate r)) = Some e ->
             Kiosk.employee (core s) = Some e \/
             exists lr, In lr (lookups [ev]) /\ admits lr e) /\
  (adminAuthenticated (wstate r) = true ->
   adminAuthenticated s = true \/ exists lr, In lr (logins [ev]) /\ lets_in lr) /\
  exists rest,
    wlog r = (l ++ rest)%list /\
    (forall e f, In (Earlier (Fetch (POST_leaves e f))) rest ->
       leaveFormComplete s = true /\ Kiosk.scanning (core s) = false) /\
    (forall eid a m, In (Earlier (Fetch (POST_attendance_record eid a m))) rest ->
       exists e sv v,
         ev = ClickScan a sv /\
         Kiosk.employee (core s) = Some e /\ fingerprintEnrolled e = true /\
         eid = employeeId e /\ m = "FINGERPRINT" /\
         Kiosk.verdict (Kiosk.matching sv) = Returned v /\ JS.truthy v = true) /\
    (forall u t, In (Window_open u t) rest -> adminAuthenticated s = true) /\
    (forall k v, In (LocalStorage_setItem k v) rest ->
       k = "kiosk_admin_token" /\ exists lr, In lr (logins [ev]) /\ lets_in lr).
Proof.
  destruct ev as [health|health| | | | | | |v|r|r|act sv| |v|v|v|v| |sv| |v|v|r| ].
  1-9, 13-18, 20-22, 24:
    destruct s as [k sc ch ci co le re idt ll lerr lfc ae ap aa aerr], k;
    crunch_page; finish_frame.
  - (* ClickContinue *)
    cbv zeta. cbv beta iota delta [dispatch wbind wgets].
    match goal with |- context [if ?c then _ else _] => destruct c eqn:C end;
      [lookup_step r s l | idle_step].
  - (* PressEnter *)
    cbv zeta. cbv beta iota delta [dispatch wbind wgets].
    match goal with |- context [if ?c then _ else _] => destruct c eqn:C end;
      [lookup_step r s l | idle_step].
  - (* ClickScan *)
    cbv zeta. cbv beta iota delta [dispatch wbind wgets].
    match goal with |- context [if ?c then _ else _] => destruct c eqn:C end;
      [|idle_step].
    rewrite lift_on_core.
    destruct (KioskFrames.clickScan_frame act sv (core s) [])
      as (Fo & Femp & Fscan & rest & Flog & Fleave & Fatt).
    destruct (Kiosk.clickScan act sv (core s) []) as [o k' l'] eqn:E.
    cbn [out state log wout wstate wlog app] in *. subst l'.
    split; [exact Fo|]. split; [|split; [|split]].
    + cbn [core with_core leaveFormComplete]. intros HI H.
      pose proof (Fscan (HI H)) as Fs. injection Fs as _ -> _. auto.
    + cbn [core with_core]. intros e He. left. congruence.
    + cbn [with_core adminAuthenticated]. auto.
    + exists (map Earlier rest). split; [reflexivity|]. split; [|split; [|split]].
      * intros e f HIn. apply in_map_earlier in HIn. destruct (Fleave _ _ HIn).
      * intros eid a m HIn. apply in_map_earlier in HIn.
        destruct (Fatt _ _ _ HIn) as (e & v & He & Hen & -> & -> & -> & Hv & Ht).
        exists e, sv, v. auto 10.
      * intros u t HIn. apply not_earlier in HIn; [contradiction | discriminate].
      * intros k v HIn. apply not_earlier in HIn; [contradiction | discriminate].
  - (* ClickScanFingerprint *)
    cbv zeta. cbv beta iota delta [dispatch wbind wgets].
    match goal with |- context [if ?c then _ else _] => destruct c eqn:C end;
      [|idle_step].
    apply andb_prop in C. destruct C as [C Hsub].
    apply andb_prop in C. destruct C as [C Hscan].
    unfold leaveScanShown in C.
    apply andb_prop in C. destruct C as [C _].
    apply andb_prop in C. destruct C as [_ Hlfc].
    apply negb_true_iff in Hscan.
    rewrite lift_on_core.
    destruct (KioskFrames.leaveVerification_frame sv (core s) [])
      as (Fo & Femp & rest & Flog & Fatt).
    destruct (Kiosk.handleLeaveFingerPrintVerification sv (core s) []) as [o k' l'] eqn:E.
    cbn [out state log wout wstate wlog app] in *. subst l'.
    split; [exact Fo|]. split; [|split; [|split]].
    + intros HI. rewrite (HI Hlfc) in Hscan. discriminate.
    + cbn [core with_core]. intros e He. left. congruence.
    + cbn [with_core adminAuthenticated]. auto.
    + exists (map Earlier rest). split; [reflexivity|]. split; [|split; [|split]].
      * intros e f HIn. auto.
      * intros eid a m HIn. apply in_map_earlier in HIn. destruct (Fatt _ _ _ HIn).
      * intros u t HIn. apply not_earlier in HIn; [contradiction | discriminate].
      * intros k v HIn. apply not_earlier in HIn; [contradiction | discriminate].
  - (* ClickLogin *)
    cbv zeta. cbv beta iota delta [dispatch wbind wgets].
    match goal with |- context [if ?c then _ else _] => destruct c eqn:C end;
      [|idle_step].
    destruct (handleAdminLogin_frame r s l) as (Fo & Fcore & Flfc & Fa).
    split; [exact Fo|]. split; [|split; [|split]].
    + rewrite Flfc, Fcore. auto.
    + intros e He. rewrite Fcore in He. auto.
    + intros H. destruct Fa as [[Fa _]|[Fa _]]; [left; congruence|].
      right. exists r. split; [left; reflexivity | exact Fa].
    + destruct Fa as [[_ Fl]|(Flet & _ & tok & Fl)]; rewrite Fl;
        eexists; (split; [reflexivity|]);
        (split; [intros ? ? HIn; in_page_log HIn|]);
        (split; [intros ? ? ? HIn; in_page_log HIn|]);
        (split; [intros ? ? HIn; in_page_log HIn|]);
        intros ? ? HIn; in_page_log HIn.
      injection HIn as <- _. split; [reflexivity|].
      exists r. split; [left; reflexivity | exact Flet].
Qed.

Lemma leaves_app (l l' : list action) :
  leaves (l ++ l') = (leaves l ++ leaves l')%list.
Proof.
  induction l as [|x l IH]; [reflexivity|].
  destruct x as [[[]| |]| | |]; cbn; rewrite ?IH; reflexivity.
Qed.

Lemma leaves_none (l : list action) :
  (forall e f, ~ In (Earlier (Fetch (POST_leaves e f))) l) -> leaves l = [].
Proof.
  induction l as [|x l IH]; intros H; [reflexivity|].
  assert (Hl : leaves l = []) by (apply IH; intros e f HIn; apply (H e f); right; exact HIn).
  destruct x as [[[]| |]| | |]; cbn; try exact Hl.
  exfalso. eapply H. left. reflexivity.
Qed.

Lemma session_leaves (evs : list event) :
  forall (s : station) (l : list action),
  (leaveFormComplete s = true -> Kiosk.scanning (core s) = true) ->
  leaves l = [] ->
  let r := session evs s l in
  leaves (wlog r) = [] /\
  (leaveFormComplete (wstate r) = true -> Kiosk.scanning (core (wstate r)) = true).
Proof.
  induction evs as [|ev evs IH]; intros s l HI Hl; cbv zeta; [auto|].
  cbn [session]. unfold wbind.
  destruct (dispatch_frame ev s l) as (_ & FI & _ & _ & rest & Flog & Fleave & _).
  assert (Hrest : leaves rest = []).
  { apply leaves_none. intros e f HIn. destruct (Fleave e f HIn) as [H1 H2].
    rewrite (HI H1) in H2. discriminate. }
  destruct (dispatch ev s l) as [[[]|e|] s' l']; cbn [wout wstate wlog] in *; subst l';
    rewrite ?leaves_app, ?Hl, ?Hrest; auto.
  apply IH; [auto|]. rewrite leaves_app, Hl, Hrest. reflexivity.
Qed.

Lemma lookups_app (evs evs' : list event) :
  lookups (evs ++ evs') = (lookups evs ++ lookups evs')%list.
Proof.
  induction evs as [|ev evs IH]; [reflexivity|]. destruct ev; cbn; rewrite ?IH; reflexivity.
Qed.

Lemma logins_app (evs evs' : list event) :
  logins (evs ++ evs') = (logins evs ++ logins evs')%list.
Proof.
  induction evs as [|ev evs IH]; [reflexivity|]. destruct ev; cbn; rewrite ?IH; reflexivity.
Qed.

Lemma backed_more (seen more : list event) eid a m :
  backed seen eid a m -> backed (seen ++ more) eid a m.
Proof.
  intros (Hm & lr & e & sv & v & H1 & H2 & H3 & H4 & H5 & H6 & H7).
  split; [exact Hm|]. exists lr, e, sv, v. rewrite lookups_app.
  repeat split; auto; apply in_or_app; auto.
Qed.

Lemma session_attendance (evs : list event) :
  forall (seen : list event) (s : station) (l : list action),
  (forall e, Kiosk.employee (core s) = Some e ->
             exists lr, In lr (lookups seen) /\ admits lr e) ->
  (forall eid a m, In (Earlier (Fetch (POST_attendance_record eid a m))) l ->
                   backed seen eid a m) ->
  let r := session evs s l in
  forall eid a m, In (Earlier (Fetch (POST_attendance_record eid a m))) (wlog r) ->
                  backed (seen ++ evs) eid a m.
Proof.
  induction evs as [|ev evs IH]; intros seen s l HE HL; cbv zeta.
  - cbn. rewrite app_nil_r. exact HL.
  - cbn [session]. unfold wbind.
    destruct (dispatch_frame ev s l) as (_ & _ & Femp & _ & rest & Flog & _ & Fatt & _).
    assert (HE' : forall e, Kiosk.employee (core (wstate (dispatch ev s l))) = Some e ->
                  exists lr, In lr (lookups (seen ++ [ev])) /\ admits lr e).
    { intros e He. rewrite lookups_app.
      destruct (Femp e He) as [Hb|(lr & Hin & Had)].
      - destruct (HE e Hb) as (lr & Hin & Had). exists lr. split; [apply in_or_app|]; auto.
      - exists lr. split; [apply in_or_app|]; auto. }
    assert (HL' : forall eid a m,
                  In (Earlier (Fetch (POST_attendance_record eid a m)))
                     (wlog (dispatch ev s l)) ->
                  backed (seen ++ [ev]) eid a m).
    { intros eid a m HIn. rewrite Flog in HIn. apply in_app_or in HIn.
      destruct HIn as [HIn|HIn]; [apply backed_more; auto|].
      destruct (Fatt eid a m HIn) as (e & sv & v & -> & He & Hen & -> & -> & Hv & Ht).
      destruct (HE e He) as (lr & Hin & Had).
      split; [reflexivity|]. exists lr, e, sv, v. rewrite lookups_app.
      repeat split; auto; apply in_or_app; [left; assumption | right; left; reflexivity]. }
    replace (seen ++ ev :: evs)%list with ((seen ++ [ev]) ++ evs)%list
      by (rewrite <- app_assoc; reflexivity).
    destruct (dispatch ev s l) as [[[]|e|] s' l']; cbn [wout wstate wlog] in *.
    + apply IH; assumption.
    + intros eid a m HIn. apply backed_more. auto.
    + intros eid a m HIn. apply backed_more. auto.
Qed.

Lemma session_admin (evs : list event) :
  forall (seen : list event) (s : station) (l : list action),
  (adminAuthenticated s = true -> exists lr, In lr (logins seen) /\ lets_in lr) ->
  (forall a, In a l -> admin_action a = true ->
             exists lr, In lr (logins seen) /\ lets_in lr) ->
  let r := session evs s l in
  (adminAuthenticated (wstate r) = true ->
   exists lr, In lr (logins (seen ++ evs)) /\ lets_in lr) /\
  (forall a, In a (wlog r) -> admin_action a = true ->
             exists lr, In lr (logins (seen ++ evs)) /\ lets_in lr).
Proof.
  induction evs as [|ev evs IH]; intros seen s l HA HL; cbv zeta.
  - cbn. rewrite app_nil_r. auto.
  - cbn [session]. unfold wbind.
    destruct (dispatch_frame ev s l) as (_ & _ & _ & Fadm & rest & Flog & _ & _ & Fwin & Ftok).
    assert (more : forall lr, In lr (logins seen) \/ In lr (logins [ev]) ->
                   In lr (logins (seen ++ [ev]))).
    { intros lr H. rewrite logins_app. apply in_or_app. exact H. }
    assert (HA' : adminAuthenticated (wstate (dispatch ev s l)) = true ->
                  exists lr, In lr (logins (seen ++ [ev])) /\ lets_in lr).
    { intros H. destruct (Fadm H) as [Hb|(lr & Hin & Hl)].
      - destruct (HA Hb) as (lr & Hin & Hl). exists lr. auto.
      - exists lr. auto. }
    assert (HL' : forall a, In a (wlog (dispatch ev s l)) -> admin_action a = true ->
                  exists lr, In lr (logins (seen ++ [ev])) /\ lets_in lr).
    { intros a HIn Ha. rewrite Flog in HIn. apply in_app_or in HIn.
      destruct HIn as [HIn|HIn].
      - destruct (HL a HIn Ha) as (lr & Hin & Hl). exists lr. auto.
      - destruct a as [x|c|k v|u t]; try discriminate Ha.
        + destruct (Ftok k v HIn) as (_ & lr & Hin & Hl). exists lr. auto.
        + destruct (HA (Fwin u t HIn)) as (lr & Hin & Hl). exists lr. auto. }
    replace (seen ++ ev :: evs)%list with ((seen ++ [ev]) ++ evs)%list
      by (rewrite <- app_assoc; reflexivity).
    assert (grow : forall lr, In lr (logins (seen ++ [ev])) ->
                   In lr (logins ((seen ++ [ev]) ++ evs))).
    { intros lr H. rewrite logins_app. apply in_or_app. auto. }
    destruct (dispatch ev s l) as [[[]|e|] s' l']; cbn [wout wstate wlog] in *.
    + apply IH; assumption.
    + split; [intros H; destruct (HA' H) as (lr & ? & ?)
             |intros a H1 H2; destruct (HL' a H1 H2) as (lr & ? & ?)]; exists lr; auto.
    + split; [intros H; destruct (HA' H) as (lr & ? & ?)
             |intros a H1 H2; destruct (HL' a H1 H2) as (lr & ? & ?)]; exists lr; auto.
Qed.

(** X12. [lookupEmployee] with an id that is blank (empty once trimmed)
    sends no request: it only sets the error "Please enter your Employee ID".
    Otherwise it sends the lookup request; it never throws; unless the
    request never settles it ends with [lookupLoading] false and with
    exactly one of the two: an employee, which its answer admits (2xx, JSON,
    status neither 'inactive' nor 'terminated'), and no error; or no
    employee and an error message, the answer admitting nobody. *)
Theorem lookupEmployee_outcome (id : string) (lr : reply Lookup.data)
        (s : station) (l : list action) :
  let r := lookupEmployee id lr s l in
  if blank id then
    wout r = Returned tt /\ wlog r = l /\
    lookupError (wstate r) = Some "Please enter your Employee ID" /\
    Kiosk.employee (core (wstate r)) = Kiosk.employee (core s) /\
    lookupLoading (wstate r) = lookupLoading s
  else
    wlog r = (l ++ [Sent (GET_employees_lookup id)])%list /\
    match lr with
    | Never =>
        wout r = Pending /\ lookupLoading (wstate r) = true /\
        Kiosk.employee (core (wstate r)) = None
    | _ =>
        wout r = Returned tt /\ lookupLoading (wstate r) = false /\
        match Kiosk.employee (core (wstate r)) with
        | Some e => admits lr e /\ lookupError (wstate r) = None
        | None =>
            (exists msg, lookupError (wstate r) = Some msg) /\
            (forall e, admits lr e -> False)
        end
    end.
Proof.
  destruct s as [k sc ch ci co le re idt ll lerr lfc ae ap aa aerr], k.
  unfold lookupEmployee, admits.
  destruct (blank id); [run_station; auto 6|].
  destruct lr as [|after why|after [st [d|text why]]]; crunch_station;
    (split; [reflexivity|]); (split; [reflexivity|]); (split; [reflexivity|]);
    try reflexivity.
  all: try (split; [eexists; reflexivity|];
            intros e0 (after' & resp' & d' & Hr & Hok & Hp & Hb & _);
            try discriminate Hr; injection Hr as <- <-; cbn [payload] in Hp;
            try discriminate Hp; try injection Hp as <-; congruence).
  all: split; [|reflexivity]; do 3 eexists; repeat split; try reflexivity; try eassumption;
    match goal with H : Lookup.fingerprintEnrolled _ = _ |- _ => rewrite H end;
    reflexivity.
Qed.

(** X13. On the kiosk page, as long as each handler has settled before the
    next event is taken, no leave request is ever submitted: whatever is
    clicked and typed and whatever the services answer, the log holds no
    POST /leaves.  [handleLeaveFormSubmit] sets [scanning] together with
    [leaveFormComplete], and the "Scan Fingerprint" button of the leave
    dialog is rendered only while [scanning] is false, so
    [handleLeaveFingerPrintVerification] is out of reach; the page keeps
    [leaveFormComplete] implying [scanning]. *)
Theorem leave_request_never_sent (evs : list event) (s : station) :
  (leaveFormComplete s = true -> Kiosk.scanning (core s) = true) ->
  let r := wrun (session evs) s in
  leaves (wlog r) = [] /\
  (leaveFormComplete (wstate r) = true -> Kiosk.scanning (core (wstate r)) = true).
Proof.
  intros HI. apply session_leaves; [exact HI | reflexivity].
Qed.

(** Employee 1001 fills the form in and clicks through to the fingerprint
    step: the dialog shows the spinner and nothing is sent to the scanner. *)
Lemma leave_request_never_sent_for_1001 :
  leaves (wlog (wrun (session PageScenario.leave_visit) mounted)) = [] /\
  wlog (wrun (session PageScenario.leave_visit) mounted)
  = [Earlier (Fetch GET_health); Sent (GET_employees_lookup "1001")] /\
  leaveFormComplete (wstate (wrun (session PageScenario.leave_visit) mounted)) = true /\
  Kiosk.scanning (core (wstate (wrun (session PageScenario.leave_visit) mounted))) = true.
Proof.
  split.
  - apply (leave_request_never_sent PageScenario.leave_visit mounted). discriminate.
  - vm_compute. auto.
Defined.

(** X14. Every attendance record the kiosk page writes is backed by what
    went before: starting with no employee held, an attendance record in the
    log has the method "FINGERPRINT", carries the [employeeId] of an employee
    that a lookup of the session admitted (so not 'inactive' or
    'terminated') and whose [fingerprintEnrolled] is true, and has the action
    of a scan click of the session whose match verdict was truthy. *)
Theorem attendance_record_is_backed (evs : list event) (s : station)
        (eid : string) (a : clock_action) (m : string) :
  Kiosk.employee (core s) = None ->
  In (Earlier (Fetch (POST_attendance_record eid a m))) (wlog (wrun (session evs) s)) ->
  backed evs eid a m.
Proof.
  intros He HIn.
  apply (session_attendance evs [] s []); [| |exact HIn].
  - intros e H. rewrite He in H. discriminate.
  - intros ? ? ? [].
Qed.

Lemma attendance_record_is_backed_for_1001 :
  backed PageScenario.clock_in_visit "1001" clock_in "FINGERPRINT".
Proof.
  apply (attendance_record_is_backed PageScenario.clock_in_visit mounted
           "1001" clock_in "FINGERPRINT" eq_refl).
  vm_compute. auto 10.
Defined.

(** X15. The registration page is opened, and an admin token is stored,
    only after an administrator has logged in: starting with
    [adminAuthenticated] false, if the log of a session holds a
    [window.open] or a [localStorage.setItem], or the session ends with
    [adminAuthenticated] true, then one of its login clicks was answered 2xx
    with a JSON body whose [user.role] is 'admin', 'super_admin', 'ADMIN' or
    'SUPER_ADMIN'. *)
Theorem registration_needs_admin_login (evs : list event) (s : station) :
  adminAuthenticated s = false ->
  let r := wrun (session evs) s in
  existsb admin_action (wlog r) || adminAuthenticated (wstate r) = true ->
  exists lr, In lr (logins evs) /\ lets_in lr.
Proof.
  intros Hs. cbv zeta. intros H.
  destruct (session_admin evs [] s []) as [HA HL].
  - rewrite Hs. discriminate.
  - intros ? [].
  - apply orb_prop in H. destruct H as [H|H].
    + apply existsb_exists in H. destruct H as (a & HIn & Ha). exact (HL a HIn Ha).
    + exact (HA H).
Qed.

Lemma registration_needs_admin_login_at_the_kiosk :
  exists lr, In lr (logins PageScenario.admin_visit) /\ lets_in lr.
Proof.
  apply (registration_needs_admin_login PageScenario.admin_visit mounted eq_refl).
  vm_compute. reflexivity.
Defined.

(** X18. The scanner poll of the kiosk page always settles, whatever the
    device does (its request is given 3 seconds), and it cannot disturb a
    visit: it sends the health request only, stores what the answer says in
    [scannerConnected] (connected only for a 2xx JSON answer within the
    limit in which [device_opened === true] or [mock_mode === true]), lowers
    [checkingScanner], and leaves every other cell of the page as it was. *)
Theorem scanner_poll_settles (health : reply Health.data) (s : station)
        (l : list action) :
  dispatch (Poll health) s l =
  {| wout := Returned tt;
     wstate := {|
       core := core s;
       scannerConnected :=
         match health with
         | Responds after r =>
             (after <? 3000)%N && ok r &&
             match payload r with
             | Json data => JS.is_true (Health.device_opened data)
                            || JS.is_true (Health.mock_mode data)
             | NotJson _ _ => false
             end
         | _ => false
         end;
       checkingScanner := false;
       clockInDialogOpen := clockInDialogOpen s;
       clockOutDialogOpen := clockOutDialogOpen s;
       leaveDialogOpen := leaveDialogOpen s;
       registerDialogOpen := registerDialogOpen s;
       employeeIdText := employeeIdText s; lookupLoading := lookupLoading s;
       lookupError := lookupError s; leaveFormComplete := leaveFormComplete s;
       adminEmail := adminEmail s; adminPassword := adminPassword s;
       adminAuthenticated := adminAuthenticated s; adminError := adminError s |};
     wlog := (l ++ [Earlier (Fetch GET_health)])%list |}.
Proof.
  destruct s as [k sc ch ci co le re idt ll lerr lfc ae ap aa aerr].
  destruct health as [|after why|after [st [d|text why]]]; run_page;
    try destruct (after <? 3000)%N; run_page; try reflexivity;
    destruct (ok _); reflexivity.
Qed.

(** A body that says [{device_opened: false, mock_mode: 1}]: the kiosk page,
    which tests [=== true], takes the scanner for disconnected; the
    enrollment dialog, which tests the truthiness of
    [device_opened || mock_mode], takes it for connected. *)
Lemma strict_and_truthy_checks_differ :
  let health := Responds 20 (Scenario.json_ok
                  {| Health.device_opened := JS.boolean false;
                     Health.mock_mode := JS.number 1 |}) in
  scannerConnected (wstate (dispatch (Poll health) mounted [])) = false /\
  Enrollment.connected health = true.
Proof. vm_compute. split; reflexivity. Qed.

End StationFacts.

(* ------------------------------------------------------------------------- *)
Module ApiFlowFacts.
Import FingerprintApiFlows.

Lemma wbind_returned {S A B} (m : W S A) (k : A -> W S B) s l a s' l' :
  m s l = {| wout := Returned a; wstate := s'; wlog := l' |} ->
  wbind m k s l = k a s' l'.
Proof. intros E. unfold wbind. rewrite E. reflexivity. Qed.

Lemma addTemplate_settles {St} (u t : option string) (r : reply Added.data)
      (c : St) (l : list action) :
  addTemplate u t r c l =
  {| wout := match r with
             | Never => Pending
             | Fails _ why => Threw (JS.TypeError why)
             | Responds _ resp =>
                 match payload resp with
                 | Json d => Returned d
                 | NotJson _ why => Threw (JS.SyntaxError why)
                 end
             end;
     wstate := c; wlog := (l ++ [Sent (POST_add_template u t)])%list |}.
Proof.
  destruct r as [|after why|after [st [d|text why]]]; reflexivity.
Qed.

Lemma added_app (l l' : list action) :
  added (l ++ l') = (added l ++ added l')%list.
Proof.
  induction l as [|x l IH]; [reflexivity|].
  destruct x as [e|[]| |]; cbn; rewrite ?IH; reflexivity.
Qed.

(** The loop sends the entries in order until one request gets no JSON
    answer; every request answered is counted once, as loaded or as an
    error, and the one that was not answered is not counted. *)
Lemma addEach_counts (adds : nat -> reply Added.data) (templates : list fingerprint) :
  forall (i : nat) (c : counts) (l : list action),
  let r := addEach templates i adds c l in
  exists n,
    n <= List.length templates /\
    added (wlog r) = (added l ++ firstn n templates)%list /\
    ((wout r = Returned tt /\ n = List.length templates /\
      loaded (wstate r) + errors (wstate r) = loaded c + errors c + n /\
      (forall j, j < n -> answered (adds (i + j)) <> None))
     \/
     (wout r <> Returned tt /\ 0 < n /\
      loaded (wstate r) + errors (wstate r) + 1 = loaded c + errors c + n /\
      answered (adds (i + (n - 1))) = None)).
Proof.
  induction templates as [|fp rest IH]; intros i c l; cbv zeta.
  - exists 0. cbn. rewrite app_nil_r. split; [lia|]. split; [reflexivity|].
    left. split; [reflexivity|]. split; [reflexivity|]. split; [lia|]. intros j Hj. lia.
  - cbn [addEach]. cbv beta iota delta [wbind]. rewrite addTemplate_settles.
    assert (Hfp : added (l ++ [Sent (POST_add_template (fp_employeeId fp) (fp_template fp))])
                  = (added l ++ [fp])%list).
    { rewrite added_app. destruct fp. reflexivity. }
    destruct (adds i) as [|after why|after [st [d|text why]]] eqn:Ei; cbn [payload wout wstate wlog].
    1,2,4: exists 1; cbn [firstn List.length]; (split; [lia|]); (split; [exact Hfp|]);
      right; (split; [discriminate|]); (split; [lia|]); (split; [lia|]);
      replace (i + (1 - 1)) with i by lia; rewrite Ei; reflexivity.
    destruct (Added.success d); cbn [wmodify wout wstate wlog];
      match goal with
      | |- context [addEach rest (S i) adds ?c' ?l'] =>
          destruct (IH (S i) c' l') as (n & Hn & Hadd & Hc)
      end;
      exists (S n); cbn [firstn List.length]; (split; [lia|]);
      (split; [rewrite Hadd, Hfp, <- app_assoc; reflexivity|]);
      cbn [loaded errors] in Hc;
      (destruct Hc as [(Ho & Hlen & Hsum & Hall)|(Ho & Hpos & Hsum & Hlast)];
       [left; (split; [assumption|]); (split; [lia|]); (split; [lia|]);
        intros j Hj; destruct j as [|j];
        [rewrite Nat.add_0_r, Ei; discriminate
        |replace (i + S j) with (S i + j) by lia; apply Hall; lia]
       |right; (split; [assumption|]); (split; [lia|]); (split; [lia|]);
        replace (i + (S n - 1)) with (S i + (n - 1)) by lia; assumption]).
Qed.

(** X16. [loadTemplatesFromBackend] never rejects.  It sends the entries of
    the backend's list to the scanner in order and stops at the first add
    request that gets no JSON answer: either every entry was sent and
    [loaded + errors] is their number (zero when the listing itself failed,
    which looks like an empty list), or the list was cut short after [n]
    requests, the last of which is counted neither as loaded nor as an
    error, and the entries after it were never sent.  It is pending only
    when a request never settles. *)
Theorem loadTemplatesFromBackend_counts (backendUrl : string)
        (listing : reply (list fingerprint)) (adds : nat -> reply Added.data)
        (c0 : counts) (l : list action) :
  let r := loadTemplatesFromBackend backendUrl listing adds c0 l in
  exists n,
    n <= List.length (listed listing) /\
    added (wlog r) = (added l ++ firstn n (listed listing))%list /\
    ((wout r = Returned (wstate r) /\ n = List.length (listed listing) /\
      loaded (wstate r) + errors (wstate r) = n)
     \/
     ((wout r = Returned (wstate r) \/ wout r = Pending) /\ 0 < n /\
      loaded (wstate r) + errors (wstate r) + 1 = n /\
      answered (adds (n - 1)) = None)
     \/
     (wout r = Pending /\ listing = Never /\ n = 0)).
Proof.
  cbv zeta. unfold loadTemplatesFromBackend.
  destruct listing as [|after why|after [st [fps|text why]]].
  1-2, 4: exists 0; cbn; rewrite !added_app; cbn; rewrite app_nil_r;
    (split; [lia|]); (split; [reflexivity|]); auto 6.
  cbn [listed payload].
  cbv beta iota delta [wbind wmodify wtry_catch wfetch wemit wret wjson wgets payload].
  destruct (addEach_counts adds fps 0 {| loaded := 0; errors := 0 |}
              (l ++ [Sent (GET_api_fingerprints backendUrl)])%list)
    as (n & Hn & Hadd & Hc).
  rewrite added_app in Hadd. cbn [added] in Hadd. rewrite app_nil_r in Hadd.
  exists n.
  destruct (addEach fps 0 adds {| loaded := 0; errors := 0 |}
              (l ++ [Sent (GET_api_fingerprints backendUrl)])%list) as [[[]|e|] c' l'];
    cbn [wout wstate wlog loaded errors plus] in *;
    (split; [exact Hn|]); (split; [exact Hadd|]);
    destruct Hc as [(Ho & Hlen & Hsum & _)|(Ho & Hpos & Hsum & Hlast)];
    try discriminate Ho; try (exfalso; apply Ho; reflexivity); auto 8.
Qed.

(** X17. [clockWithVerification] never uses the stored template it is
    given: it sends the capture request and then, if the capture delivered,
    one verify request with the employee id and the captured sample.  It
    reports [verified] exactly when the device's answer has [verified] true
    (a positive score alone does not count), and after a capture the device
    refused it returns [success] and [verified] false with the device's
    error, without a verify request. *)
Theorem clockWithVerification_outcome {St} (employeeId : string)
        (storedTemplate : option string) (c : reply Capture.data)
        (v : reply Verify.data) (s : St) (l : list action) :
  let r := clockWithVerification employeeId storedTemplate c v s l in
  r = clockWithVerification employeeId None c v s l /\
  match FingerprintApiCalls.sample c with
  | Some t =>
      wlog r = (l ++ [Earlier (Fetch POST_capture); Sent (POST_verify employeeId t)])%list /\
      match v with
      | Never => wout r = Pending
      | Fails _ why => wout r = Threw (JS.TypeError why)
      | Responds _ resp =>
          match payload resp with
          | Json d =>
              wout r = Returned {| success := Verify.success d;
                                   verified := match Verify.verified d with
                                               | Some true => true
                                               | _ => false
                                               end;
                                   score := Verify.score d;
                                   error := Verify.error d |}
          | NotJson _ why => wout r = Threw (JS.SyntaxError why)
          end
      end
  | None =>
      wlog r = (l ++ [Earlier (Fetch POST_capture)])%list /\
      match FingerprintApiCalls.refusal c with
      | Some err =>
          wout r = Returned {| success := false; verified := false; score := None;
                               error := err |}
      | None => wout r = Pending \/ exists e, wout r = Threw e
      end
  end.
Proof.
  cbv zeta. split; [reflexivity|].
  unfold clockWithVerification, FingerprintApiCalls.sample, FingerprintApiCalls.refusal.
  destruct c as [|after why|after [st [d|text why]]]; cbn; eauto.
  destruct (Capture.success d); cbn; [|auto].
  destruct v as [|after' why|after' [st' [d'|text why]]]; cbn;
    rewrite <- app_assoc; (split; [reflexivity|]); try reflexivity.
  destruct (Verify.verified d') as [[|]|]; reflexivity.
Qed.

End ApiFlowFacts.
